(** * DailyScript: the ETL pipeline and the chunked table copy

    A shallow embedding of
    [Python_Scripts/data-operations/etl_pipeline.py] (module [ETL]) and of
    [Python_Scripts/data-operations/db_migration.py] (module [Migration]):
    the batch copy of one table, the connections, the schema and the
    dispatch of a migration and of its validation.

    Python exceptions are an error monad ([outcome]); code that logs or
    talks to the outside world (files, HTTP, databases) runs in [M], which
    threads an abstract [World] and appends to an observable trace of
    [event]s.  The pandas and I/O calls the scripts delegate to are the
    fields of interfaces ([Pandas], [IO], [DB]); everything the scripts
    themselves decide (dispatch, loops, guards, handlers) is written out.
    A configuration dict is a record with one optional field per key the
    code reads, so that [d['k']] on a missing key raises [KeyError] as it
    does in Python.  The [async] methods run one after the other, as the
    single [await] chain of [run] makes them; worker threads of the
    migration are not modelled: the copy of one table is, and the two
    migrations built on the thread pool and on MongoDB documents are
    parameters of [migrate_data]. *)

From Stdlib Require Import List String Ascii ZArith Bool Lia Arith DecimalString.
From ExtLib Require Import Structures.Monad.
Import ListNotations.
Import MonadNotation.
Local Open Scope string_scope.
Local Open Scope list_scope.
Local Open Scope nat_scope.
Local Open Scope monad_scope.

(** String concatenation, as in an f-string. *)
Infix "+++" := String.append (right associativity, at level 60).

(** String comparison, as Python's [==] on [str]. *)
Infix "==" := String.eqb (at level 70, no associativity).

(* ===================================================================== *)
(** ** Python runtime: exceptions, logging, effects                       *)
(* ===================================================================== *)

Module Py.

(** Instances of [Exception]: what [except Exception] catches.  A
    [BaseException] that is not one ([SystemExit], [KeyboardInterrupt];
    code run through [exec] can raise them) is not an outcome of this
    model: where a statement below says that a call raises [e], [e] is an
    instance of [Exception], and nothing is said of a call that ends
    otherwise. *)
Inductive exn : Type :=
| KeyError (key : string)
| ValueError (msg : string)
| TypeError (msg : string)
| Exception (msg : string).

(** [str(e)]; a [KeyError] prints the repr of its key. *)
Definition str_exn (e : exn) : string :=
  match e with
  | KeyError k => "'" +++ k +++ "'"
  | ValueError m | TypeError m | Exception m => m
  end.

(** A call either returns or raises. *)
Inductive outcome (A : Type) : Type :=
| Ret (a : A)
| Raise (e : exn).
Arguments Ret {A} a.
Arguments Raise {A} e.

Definition bind_outcome {A B} (c : outcome A) (k : A -> outcome B) : outcome B :=
  match c with
  | Ret a => k a
  | Raise e => Raise e
  end.

#[export] Instance Monad_outcome : Monad outcome :=
  {| ret := @Ret; bind := @bind_outcome |}.

Definition is_ret {A} (c : outcome A) : bool :=
  match c with Ret _ => true | Raise _ => false end.

(** [d['k']] on a dict read as a record of optional fields. *)
Definition getitem {A} (key : string) (field : option A) : outcome A :=
  match field with
  | Some a => Ret a
  | None => Raise (KeyError key)
  end.

(** [d.get('k', default)]. *)
Definition get {A} (field : option A) (default : A) : A :=
  match field with
  | Some a => a
  | None => default
  end.

(** Sequential map in the error monad: stops at the first exception. *)
Fixpoint mapM {A B} (f : A -> outcome B) (l : list A) : outcome (list B) :=
  match l with
  | [] => Ret []
  | a :: l' =>
      match f a with
      | Raise e => Raise e
      | Ret b =>
          match mapM f l' with
          | Raise e => Raise e
          | Ret bs => Ret (b :: bs)
          end
      end
  end.

(** [str(n)] for integers. *)
Definition str_nat (n : nat) : string := NilZero.string_of_uint (Nat.to_uint n).
Definition str_Z (z : Z) : string := NilZero.string_of_int (Z.to_int z).

(** [s.upper()] on ASCII letters; other characters are left as they are.
    The script only compares the result with ["POST"], which no string
    with a letter outside ASCII can give in this model. *)
Definition upper_ascii (c : ascii) : ascii :=
  let n := nat_of_ascii c in
  if andb (97 <=? n) (n <=? 122) then ascii_of_nat (n - 32) else c.

Fixpoint upper (s : string) : string :=
  match s with
  | EmptyString => EmptyString
  | String c s' => String (upper_ascii c) (upper s')
  end.

(** Membership of a string in a list of strings ([x in l]). *)
Definition mem (x : string) (l : list string) : bool :=
  existsb (String.eqb x) l.

(** [range(0, stop, step)]: [ValueError] on a zero step, empty on a
    negative one. *)
Definition range0 (stop step : Z) : outcome (list Z) :=
  if (step =? 0)%Z then Raise (ValueError "range() arg 3 must not be zero")
  else if (step <? 0)%Z then Ret []
  else Ret (map (fun k => (Z.of_nat k * step)%Z)
                (seq 0 (Z.to_nat ((stop + step - 1) / step)))).

(** [l[i:j]] for [0 <= i]. *)
Definition slice {A} (l : list A) (i j : Z) : list A :=
  firstn (Z.to_nat (j - i)) (skipn (Z.to_nat i) l).

(** *** Scalar values and the tabular batch *)

(** A cell: null (NaN/None), boolean, number, text or timestamp.  Numbers
    are integers here: nothing below computes with fractions. *)
Inductive value : Type :=
| VNull
| VBool (b : bool)
| VInt (n : Z)
| VStr (s : string)
| VTime (t : Z).

Definition value_eqb (a b : value) : bool :=
  match a, b with
  | VNull, VNull => true
  | VBool x, VBool y => Bool.eqb x y
  | VInt x, VInt y => (x =? y)%Z
  | VStr x, VStr y => String.eqb x y
  | VTime x, VTime y => (x =? y)%Z
  | _, _ => false
  end.

Definition isnull (v : value) : bool :=
  match v with VNull => true | _ => false end.

(** A parameter read from the YAML configuration: a scalar or a list. *)
Inductive yaml : Type :=
| Scalar (v : value)
| Seq (l : list value).

(** A pandas [DataFrame]: ordered column labels and the rows, each row the
    cells in column order (the row index is not modelled). *)
Record DataFrame : Type := mkDF {
  columns : list string;
  rows : list (list value)
}.

(** One element of [df.to_dict('records')]. *)
Definition record : Type := list (string * value).

Definition len (df : DataFrame) : nat := List.length (rows df).

(** [df.empty]: no rows or no columns. *)
Definition empty (df : DataFrame) : bool :=
  orb (List.length (rows df) =? 0) (List.length (columns df) =? 0).

Fixpoint index_of (c : string) (cols : list string) : option nat :=
  match cols with
  | [] => None
  | c' :: cols' =>
      if String.eqb c c' then Some 0
      else option_map S (index_of c cols')
  end.

(** The cell of row [r] under label [c] (null when the row has none). *)
Definition cell (cols : list string) (c : string) (r : list value) : value :=
  match index_of c cols with
  | Some i => nth i r VNull
  | None => VNull
  end.

(** [df[column]]: the column as a series; [KeyError] on an unknown label.
    Labels are taken to be distinct: the first match is the column.  On a
    frame with a duplicated label pandas gives a frame instead, and what
    the scripts then do with it is not modelled: the properties of
    filtering, of type conversion and of the not-null check are stated for
    batches whose labels are distinct. *)
Definition series (df : DataFrame) (column : string) : outcome (list value) :=
  match index_of column (columns df) with
  | Some i => Ret (map (fun r => nth i r VNull) (rows df))
  | None => Raise (KeyError column)
  end.

(** [df[mask]]: boolean indexing keeps the rows whose flag is set. *)
Fixpoint select {A} (mask : list bool) (l : list A) : list A :=
  match mask, l with
  | b :: mask', x :: l' => if b then x :: select mask' l' else select mask' l'
  | _, _ => []
  end.

Definition df_mask (df : DataFrame) (mask : list bool) : DataFrame :=
  mkDF (columns df) (select mask (rows df)).

(** Cells kept by a per-column flag list; cells beyond the labelled
    columns (there are none in a rectangular frame) stay in place. *)
Fixpoint keep_cells {A} (keep : list bool) (r : list A) : list A :=
  match keep, r with
  | [], _ => r
  | _, [] => []
  | b :: keep', x :: r' =>
      if b then x :: keep_cells keep' r' else keep_cells keep' r'
  end.

(** [df.drop(columns=labels, errors='ignore')]: every column whose label
    is listed goes, labels that name no column are ignored. *)
Definition df_drop (df : DataFrame) (labels : list string) : DataFrame :=
  let keep := map (fun c => negb (mem c labels)) (columns df) in
  mkDF (keep_cells keep (columns df)) (map (keep_cells keep) (rows df)).

Fixpoint set_nth {A} (i : nat) (x : A) (l : list A) : list A :=
  match i, l with
  | _, [] => []
  | O, _ :: l' => x :: l'
  | S i', y :: l' => y :: set_nth i' x l'
  end.

Fixpoint zip_with {A B C} (f : A -> B -> C) (l : list A) (l' : list B) : list C :=
  match l, l' with
  | a :: t, b :: t' => f a b :: zip_with f t t'
  | _, _ => []
  end.

(** [df[column] = s] for a label the frame already has. *)
Definition df_assign (df : DataFrame) (column : string) (s : list value) : DataFrame :=
  match index_of column (columns df) with
  | Some i => mkDF (columns df) (zip_with (fun r v => set_nth i v r) (rows df) s)
  | None => mkDF (columns df ++ [column]) (zip_with (fun r v => r ++ [v]) (rows df) s)
  end.

Definition to_records (df : DataFrame) : list record :=
  map (combine (columns df)) (rows df).

(** *** What the scripts delegate to pandas *)

(** The six comparison operators of a series against a scalar. *)
Inductive cmp_op : Type := OpEq | OpNe | OpGt | OpLt | OpGe | OpLe.

Class Pandas : Type := {
  (** one cell against a scalar, e.g. [x >= 18]; may raise [TypeError] *)
  pd_compare : cmp_op -> value -> value -> outcome bool;
  (** a whole series against a list-like right-hand side *)
  pd_compare_seq : cmp_op -> list value -> list value -> outcome (list bool);
  (** membership of one cell, as [Series.isin] decides it *)
  pd_isin : value -> list value -> bool;
  (** what [pd.to_numeric] makes of one cell, [None] when it cannot parse *)
  pd_parse_numeric : value -> option value;
  (** [pd.to_datetime(series)], default [errors='raise'] *)
  pd_to_datetime : list value -> outcome (list value);
  (** [series.astype(dtype)] *)
  pd_astype : string -> list value -> outcome (list value);
  (** [df.select_dtypes(include=['object']).columns] *)
  pd_object_columns : DataFrame -> list string;
  (** [astype(str).str.strip()] on one non-null cell *)
  pd_str_strip : value -> value;
  (** [df.groupby(group_by).agg(aggregations).reset_index()] *)
  pd_groupby_agg : DataFrame -> list string -> list (string * string) -> outcome DataFrame;
  (** [df.pivot_table(index=, columns=, values=).reset_index()] *)
  pd_pivot_table : DataFrame -> list string -> list string -> list string -> outcome DataFrame;
  (** [astype(str).str.match(pattern)] on one cell; a bad pattern raises *)
  pd_str_match : string -> value -> outcome bool;
  (** [series.str.replace(old, new)] *)
  pd_str_replace : string -> string -> list value -> outcome (list value)
}.

(** *** Logging, the outside world and the effect monad *)

Inductive level : Type := INFO | WARNING | ERROR.

(** What a run leaves behind, in order: log lines and the calls made to
    external services. *)
Inductive event : Type :=
| Log (lvl : level) (msg : string)
| HttpPost (url : string) (body : list record) (response : outcome Z)
| ReadSql (table : string) (limit offset : Z)
| ToSql (table : string) (df : DataFrame).

Section Effects.

Variable World : Type.

Definition M (A : Type) : Type := World -> outcome A * World * list event.

Definition ret_M {A} (a : A) : M A := fun w => (Ret a, w, []).

Definition bind_M {A B} (c : M A) (k : A -> M B) : M B :=
  fun w =>
    match c w with
    | (Ret a, w', t) =>
        let '(r, w'', t') := k a w' in (r, w'', t ++ t')
    | (Raise e, w', t) => (Raise e, w', t)
    end.

#[export] Instance Monad_M : Monad M :=
  {| ret := @ret_M; bind := @bind_M |}.

(** [raise e] *)
Definition raise {A} (e : exn) : M A := fun w => (Raise e, w, []).

(** A pure computation that may raise, run inside [M]. *)
Definition lift {A} (c : outcome A) : M A := fun w => (c, w, []).

(** [logger.info / warning / error] *)
Definition log (lvl : level) (msg : string) : M unit :=
  fun w => (Ret tt, w, [Log lvl msg]).

(** [try: body  except Exception as e: handler e].  Every [exn] is an
    instance of [Exception], so the handler takes them all. *)
Definition try_except {A} (body : M A) (handler : exn -> M A) : M A :=
  fun w =>
    match body w with
    | (Raise e, w', t) =>
        let '(r, w'', t') := handler e w' in (r, w'', t ++ t')
    | r => r
    end.

(** [try: body] with the result observed instead of propagated. *)
Definition attempt {A} (body : M A) : M (outcome A) :=
  fun w => let '(r, w', t) := body w in (Ret r, w', t).

End Effects.

Arguments ret_M {World A} a.
Arguments bind_M {World A B} c k.
Arguments raise {World A} e.
Arguments lift {World A} c.
Arguments log {World} lvl msg.
Arguments try_except {World A} body handler.
Arguments attempt {World A} body.

End Py.

Export Py.

(* ===================================================================== *)
(** ** etl_pipeline.py                                                    *)
(* ===================================================================== *)

Module ETL.

(** *** Configuration (the YAML document, one record per dict) *)

(** One entry of a filter step's [conditions]; a key the entry lacks is
    [None].  The loop reads all three keys of every entry. *)
Record Condition : Type := mkCondition {
  column : option string;
  operator : option string;
  value_ : option yaml
}.

(** The [operations] dict of a [clean_data] step. *)
Record Operations : Type := mkOperations {
  remove_duplicates : bool;          (* key present *)
  handle_nulls : option string;
  fill_value : option value;
  trim_strings : bool                (* key present *)
}.

(** A transformation descriptor; a key the YAML entry lacks is [None]. *)
Record Transform : Type := mkTransform {
  t_type : option string;
  t_columns : option (list string);
  t_mapping : option (list (string * string));
  t_conditions : option (list Condition);
  t_operations : option Operations;
  t_group_by : option (list string);
  t_aggregations : option (list (string * string));
  t_index : option (list string);
  t_values : option (list string);
  t_function : option string
}.

(** A validation-check descriptor; [k_min] and [k_max] are [None] when the
    key is absent or null ([config.get('min')] is then [None]). *)
Record Check : Type := mkCheck {
  k_type : option string;
  k_columns : option (list string);
  k_column : option string;
  k_min : option value;
  k_max : option value;
  k_pattern : option string;
  k_function : option string
}.

Record TransformationConfig : Type := mkTransformationConfig {
  transformations : option (list Transform)
}.

Record ValidationConfig : Type := mkValidationConfig {
  checks : option (list Check)
}.

Record PipelineConfig : Type := mkPipelineConfig {
  stop_on_validation_error : option bool
}.

(** Parameters handed through to an extractor. *)
Definition SourceConfig : Type := list (string * yaml).

(** The destination dict, with the keys the five loaders read. *)
Record DestinationConfig : Type := mkDestinationConfig {
  file_path : option string;
  encoding : option string;
  include_index : option bool;
  orient : option string;
  connection_string : option string;
  table_name : option string;
  if_exists : option string;
  bucket : option string;
  key : option string;
  format : option string;
  url : option string;
  method : option string;
  headers : option (list (string * string));
  batch_size : option Z
}.

(** [@dataclass ETLConfig] *)
Record ETLConfig : Type := mkETLConfig {
  source_type : string;
  source_config : SourceConfig;
  destination_type : string;
  destination_config : DestinationConfig;
  transformation_config : TransformationConfig;
  pipeline_config : PipelineConfig;
  validation_config : ValidationConfig
}.

(** *** What the script delegates to the outside world *)

Class IO (World : Type) : Type := {
  (** the seven [_extract_*] readers, by source type *)
  io_extract : string -> SourceConfig -> M World DataFrame;
  (** [exec(function_code, ...)] of a custom transformation: the final [df] *)
  io_exec_transform : string -> DataFrame -> M World DataFrame;
  (** [exec(function_code, ...)] of a custom check: the final [result] *)
  io_exec_check : string -> DataFrame -> M World bool;
  (** [mkdir] of the parent directory and [df.to_csv] *)
  io_to_csv : string -> string -> bool -> DataFrame -> M World unit;
  (** [mkdir] of the parent directory and [df.to_json] *)
  io_to_json : string -> string -> DataFrame -> M World unit;
  (** [create_engine], [df.to_sql], [engine.dispose] *)
  io_to_sql : string -> string -> string -> DataFrame -> M World unit;
  (** temporary file, [upload_file], [os.remove] *)
  io_upload_s3 : string -> string -> string -> DataFrame -> M World unit;
  (** one [session.post]: the response status, or an exception *)
  io_post : string -> list (string * string) -> list record -> World -> outcome Z * World;
  (** [datetime.now()] *)
  io_now : World -> Z;
  (** [f"{duration:.2f}"] of the difference of two clock readings *)
  io_fmt_seconds : Z -> Z -> string;
  (** [str(check)] of a descriptor dict *)
  io_repr_check : Check -> string
}.

(** One entry of the report's [checks] list. *)
Record CheckResult : Type := mkCheckResult {
  r_type : string;
  r_passed : bool;
  r_config : Check
}.

(** The dict [validate] returns. *)
Record Report : Type := mkReport {
  passed : bool;
  results : list CheckResult;        (* the key 'checks' *)
  errors : list string
}.

Section Pipeline.

Context {World : Type} {pd : Pandas} {io : IO World}.

Abbreviation M := (Py.M World).

(** **** class DataTransformer *)

(** [_drop_columns] *)
Definition _drop_columns (df : DataFrame) (config : Transform) : outcome DataFrame :=
  columns <- getitem "columns" (t_columns config) ;;
  ret (df_drop df columns).

(** [df.rename(columns=mapping)]: a label with an entry takes the new
    name, any other label stays. *)
Definition df_rename (df : DataFrame) (mapping : list (string * string)) : DataFrame :=
  let new c :=
    match find (fun kv => String.eqb (fst kv) c) mapping with
    | Some kv => snd kv
    | None => c
    end in
  mkDF (map new (columns df)) (rows df).

(** [_rename_columns] *)
Definition _rename_columns (df : DataFrame) (config : Transform) : outcome DataFrame :=
  mapping <- getitem "mapping" (t_mapping config) ;;
  ret (df_rename df mapping).

(** [df[column] <op> value]: the boolean series. *)
Definition series_compare (op : cmp_op) (s : list value) (v : yaml)
  : outcome (list bool) :=
  match v with
  | Scalar x => mapM (fun c => pd_compare op c x) s
  | Seq l => pd_compare_seq op s l
  end.

(** [df[column].isin(value)]: only list-likes are accepted (the message
    of the [TypeError] is pandas' and nothing depends on it). *)
Definition series_isin (s : list value) (v : yaml) : outcome (list bool) :=
  match v with
  | Seq l => ret (map (fun c => pd_isin c l) s)
  | Scalar _ =>
      Raise (TypeError "only list-like objects are allowed to be passed to isin()")
  end.

(** One pass of the loop body of [_filter_rows]. *)
Definition filter_condition (df : DataFrame) (condition : Condition)
  : outcome DataFrame :=
  column <- getitem "column" (column condition) ;;
  operator <- getitem "operator" (operator condition) ;;
  value <- getitem "value" (value_ condition) ;;
  if operator == "==" then
    s <- series df column ;; m <- series_compare OpEq s value ;; ret (df_mask df m)
  else if operator == "!=" then
    s <- series df column ;; m <- series_compare OpNe s value ;; ret (df_mask df m)
  else if operator == ">" then
    s <- series df column ;; m <- series_compare OpGt s value ;; ret (df_mask df m)
  else if operator == "<" then
    s <- series df column ;; m <- series_compare OpLt s value ;; ret (df_mask df m)
  else if operator == ">=" then
    s <- series df column ;; m <- series_compare OpGe s value ;; ret (df_mask df m)
  else if operator == "<=" then
    s <- series df column ;; m <- series_compare OpLe s value ;; ret (df_mask df m)
  else if operator == "in" then
    s <- series df column ;; m <- series_isin s value ;; ret (df_mask df m)
  else if operator == "not_in" then
    s <- series df column ;; m <- series_isin s value ;;
    ret (df_mask df (map negb m))
  else ret df.

Fixpoint filter_conditions (df : DataFrame) (conditions : list Condition)
  : outcome DataFrame :=
  match conditions with
  | [] => ret df
  | condition :: rest =>
      df' <- filter_condition df condition ;;
      filter_conditions df' rest
  end.

(** [_filter_rows] *)
Definition _filter_rows (df : DataFrame) (config : Transform) : outcome DataFrame :=
  conditions <- getitem "conditions" (t_conditions config) ;;
  filter_conditions df conditions.

(** [pd.to_numeric(series, errors='coerce')]: a cell that does not
    parse becomes null.  Cells are kept by value: the dtype pandas gives
    the column (float64 once a cell is null) is not part of the model. *)
Definition to_numeric_coerce (s : list value) : list value :=
  map (fun v => match pd_parse_numeric v with Some n => n | None => VNull end) s.

(** The body of the loop of [_convert_types], for one mapping entry. *)
Definition convert_column (df : DataFrame) (column dtype : string) : M DataFrame :=
  if mem column (columns df) then
    try_except
      (s <- lift (series df column) ;;
       s' <- lift (if dtype == "datetime" then pd_to_datetime s
                   else if dtype == "numeric" then Ret (to_numeric_coerce s)
                   else pd_astype dtype s) ;;
       ret (df_assign df column s'))
      (fun e =>
         log WARNING ("Could not convert " +++ column +++ " to " +++ dtype
                      +++ ": " +++ str_exn e) ;;
         ret df)
  else ret df.

Fixpoint convert_columns (df : DataFrame) (type_mapping : list (string * string))
  : M DataFrame :=
  match type_mapping with
  | [] => ret df
  | (column, dtype) :: rest =>
      df' <- convert_column df column dtype ;;
      convert_columns df' rest
  end.

(** [_convert_types] *)
Definition _convert_types (df : DataFrame) (config : Transform) : M DataFrame :=
  type_mapping <- lift (getitem "mapping" (t_mapping config)) ;;
  convert_columns df type_mapping.

Definition row_eqb (r r' : list value) : bool :=
  andb (List.length r =? List.length r')
       (forallb (fun p => value_eqb (fst p) (snd p)) (combine r r')).

(** [df.drop_duplicates()]: the first of equal rows stays. *)
Fixpoint drop_duplicates_rows (seen : list (list value)) (l : list (list value))
  : list (list value) :=
  match l with
  | [] => []
  | r :: l' =>
      if existsb (row_eqb r) seen then drop_duplicates_rows seen l'
      else r :: drop_duplicates_rows (r :: seen) l'
  end.

Definition df_drop_duplicates (df : DataFrame) : DataFrame :=
  mkDF (columns df) (drop_duplicates_rows [] (rows df)).

(** [df.dropna()] *)
Definition df_dropna (df : DataFrame) : DataFrame :=
  mkDF (columns df) (filter (fun r => negb (existsb isnull r)) (rows df)).

(** [df.fillna(fill_value)].  A null fill value stands for NaN, which
    pandas accepts and which fills nothing; Python's [None] as fill value
    (pandas raises [ValueError]) is not told apart from it here. *)
Definition df_fillna (df : DataFrame) (v : value) : DataFrame :=
  mkDF (columns df) (map (map (fun c => if isnull c then v else c)) (rows df)).

(** The [trim_strings] loop over the text columns. *)
Fixpoint trim_columns (df : DataFrame) (string_columns : list string)
  : outcome DataFrame :=
  match string_columns with
  | [] => ret df
  | col :: rest =>
      s <- series df col ;;
      trim_columns
        (df_assign df col (map (fun c => if isnull c then c else pd_str_strip c) s))
        rest
  end.

(** [_clean_data] *)
Definition _clean_data (df : DataFrame) (config : Transform) : outcome DataFrame :=
  operations <- getitem "operations" (t_operations config) ;;
  let df := if remove_duplicates operations then df_drop_duplicates df else df in
  let df :=
    match handle_nulls operations with
    | Some null_strategy =>
        if null_strategy == "drop" then df_dropna df
        else if null_strategy == "fill" then
          df_fillna df (get (fill_value operations) (VInt 0))
        else df
    | None => df
    end in
  if trim_strings operations then trim_columns df (pd_object_columns df)
  else ret df.

(** [_aggregate_data] *)
Definition _aggregate_data (df : DataFrame) (config : Transform) : outcome DataFrame :=
  group_by <- getitem "group_by" (t_group_by config) ;;
  aggregations <- getitem "aggregations" (t_aggregations config) ;;
  pd_groupby_agg df group_by aggregations.

(** [_join_data] *)
Definition _join_data (df : DataFrame) (config : Transform) : M DataFrame :=
  log INFO "Join transformation not implemented in this example" ;;
  ret df.

(** [_pivot_data] *)
Definition _pivot_data (df : DataFrame) (config : Transform) : outcome DataFrame :=
  index <- getitem "index" (t_index config) ;;
  columns <- getitem "columns" (t_columns config) ;;
  values <- getitem "values" (t_values config) ;;
  pd_pivot_table df index columns values.

(** [_apply_custom_function] *)
Definition _apply_custom_function (df : DataFrame) (config : Transform) : M DataFrame :=
  function_code <- lift (getitem "function" (t_function config)) ;;
  io_exec_transform function_code df.

(** The body of the loop of [transform]: the dispatch on the type. *)
Definition apply_transform (df : DataFrame) (transform : Transform) : M DataFrame :=
  transform_type <- lift (getitem "type" (t_type transform)) ;;
  if transform_type == "drop_columns" then lift (_drop_columns df transform)
  else if transform_type == "rename_columns" then lift (_rename_columns df transform)
  else if transform_type == "filter_rows" then lift (_filter_rows df transform)
  else if transform_type == "convert_types" then _convert_types df transform
  else if transform_type == "clean_data" then lift (_clean_data df transform)
  else if transform_type == "aggregate" then lift (_aggregate_data df transform)
  else if transform_type == "join" then _join_data df transform
  else if transform_type == "pivot" then lift (_pivot_data df transform)
  else if transform_type == "custom" then _apply_custom_function df transform
  else
    log WARNING ("Unknown transformation type: " +++ transform_type) ;;
    ret df.

Fixpoint apply_transforms (df : DataFrame) (transformations : list Transform)
  : M DataFrame :=
  match transformations with
  | [] => ret df
  | transform :: rest =>
      df' <- apply_transform df transform ;;
      apply_transforms df' rest
  end.

(** [DataTransformer.transform] *)
Definition transform (df : DataFrame) (transformation_config : TransformationConfig)
  : M DataFrame :=
  try_except
    (log INFO "Starting data transformation" ;;
     let transformations := get (transformations transformation_config) [] in
     df' <- apply_transforms df transformations ;;
     log INFO ("Transformation completed: " +++ str_nat (len df') +++ " rows") ;;
     ret df')
    (fun e =>
       log ERROR ("Transformation error: " +++ str_exn e) ;;
       raise e).

(** **** class DataValidator *)

(** [_check_not_null]: the first column with a null fails the check. *)
Fixpoint check_not_null_loop (df : DataFrame) (columns : list string) : M bool :=
  match columns with
  | [] => ret true
  | column :: rest =>
      s <- lift (series df column) ;;
      if existsb isnull s then
        log ERROR ("Null values found in column: " +++ column) ;;
        ret false
      else check_not_null_loop df rest
  end.

Definition _check_not_null (df : DataFrame) (config : Check) : M bool :=
  columns <- lift (getitem "columns" (k_columns config)) ;;
  check_not_null_loop df columns.

(** [df[columns]] with a list of labels: [KeyError] when one is missing
    (pandas' message lists them all; nothing depends on its text). *)
Definition df_project (df : DataFrame) (labels : list string) : outcome DataFrame :=
  idx <- mapM (fun c => match index_of c (columns df) with
                        | Some i => Ret i
                        | None => Raise (KeyError c)
                        end) labels ;;
  ret (mkDF labels (map (fun r => map (fun i => nth i r VNull) idx) (rows df))).

(** [df.duplicated().any()]; an empty frame has no duplicates. *)
Definition df_duplicated_any (df : DataFrame) : bool :=
  if empty df then false
  else negb (List.length (drop_duplicates_rows [] (rows df)) =? List.length (rows df)).

(** A list of labels as Python prints it. *)
Definition repr_labels (l : list string) : string :=
  "[" +++ String.concat ", " (map (fun c => "'" +++ c +++ "'") l) +++ "]".

(** [_check_unique] *)
Definition _check_unique (df : DataFrame) (config : Check) : M bool :=
  columns <- lift (getitem "columns" (k_columns config)) ;;
  sub <- lift (df_project df columns) ;;
  if df_duplicated_any sub then
    log ERROR ("Duplicate values found in columns: " +++ repr_labels columns) ;;
    ret false
  else ret true.

(** [(df[column] < min_val).any()] and its mirror image. *)
Definition any_compare (op : cmp_op) (df : DataFrame) (column : string) (bound : value)
  : outcome bool :=
  s <- series df column ;;
  m <- mapM (fun c => pd_compare op c bound) s ;;
  ret (existsb (fun b => b) m).

(** [_check_range]; a bound that is absent (or null) is not looked at,
    and then neither is the column. *)
Definition _check_range (df : DataFrame) (config : Check) : M bool :=
  column <- lift (getitem "column" (k_column config)) ;;
  let min_val := k_min config in
  let max_val := k_max config in
  below <- lift (match min_val with
                 | Some mn => any_compare OpLt df column mn
                 | None => Ret false
                 end) ;;
  if below then
    log ERROR ("Values below minimum in column: " +++ column) ;;
    ret false
  else
    above <- lift (match max_val with
                   | Some mx => any_compare OpGt df column mx
                   | None => Ret false
                   end) ;;
    if above then
      log ERROR ("Values above maximum in column: " +++ column) ;;
      ret false
    else ret true.

(** [_check_format] *)
Definition _check_format (df : DataFrame) (config : Check) : M bool :=
  column <- lift (getitem "column" (k_column config)) ;;
  pattern <- lift (getitem "pattern" (k_pattern config)) ;;
  s <- lift (series df column) ;;
  m <- lift (mapM (pd_str_match pattern) s) ;;
  if negb (forallb (fun b => b) m) then
    log ERROR ("Format validation failed for column: " +++ column) ;;
    ret false
  else ret true.

(** [_check_custom] *)
Definition _check_custom (df : DataFrame) (config : Check) : M bool :=
  function_code <- lift (getitem "function" (k_function config)) ;;
  io_exec_check function_code df.

(** The dispatch inside the loop of [validate]: the check's type and its
    verdict, [True] unless a known check says otherwise. *)
Definition run_check (df : DataFrame) (check : Check) : M (string * bool) :=
  check_type <- lift (getitem "type" (k_type check)) ;;
  check_result <-
    (if check_type == "not_null" then _check_not_null df check
     else if check_type == "unique" then _check_unique df check
     else if check_type == "range" then _check_range df check
     else if check_type == "format" then _check_format df check
     else if check_type == "custom" then _check_custom df check
     else ret true) ;;
  ret (check_type, check_result).

(** The loop of [validate].  The dict [results] is updated in place, so
    when a check raises, what was recorded so far is what the handler
    sees: the loop returns it together with the exception. *)
Fixpoint validate_loop (df : DataFrame) (checks : list Check) (results : Report)
  : M (Report * option exn) :=
  match checks with
  | [] => ret (results, None)
  | check :: rest =>
      r <- attempt (run_check df check) ;;
      match r with
      | Raise e => ret (results, Some e)
      | Ret (check_type, check_result) =>
          let results :=
            mkReport (passed results)
                     (ETL.results results ++ [mkCheckResult check_type check_result check])
                     (errors results) in
          let results :=
            if negb check_result then
              mkReport false (ETL.results results)
                       (errors results ++ ["Validation failed: " +++ io_repr_check check])
            else results in
          validate_loop df rest results
      end
  end.

(** [DataValidator.validate] *)
Definition validate (df : DataFrame) (validation_config : ValidationConfig) : M Report :=
  let results := mkReport true [] [] in
  let checks := get (checks validation_config) [] in
  r <- validate_loop df checks results ;;
  match r with
  | (results, None) =>
      log INFO ("Data validation completed: "
                +++ str_nat (List.length (ETL.results results)) +++ " checks") ;;
      ret results
  | (results, Some e) =>
      log ERROR ("Validation error: " +++ str_exn e) ;;
      ret (mkReport false (ETL.results results) (errors results ++ [str_exn e]))
  end.

(** **** class DataExtractor *)

(** [DataSourceType] values that [extract] dispatches on. *)
Definition supported_sources : list string :=
  ["csv"; "json"; "xml"; "database"; "api"; "s3"; "ftp"].

(** [DataExtractor.extract]: logs and re-raises whatever goes wrong. *)
Definition extract (source_type : string) (source_config : SourceConfig) : M DataFrame :=
  try_except
    (if mem source_type supported_sources then io_extract source_type source_config
     else raise (ValueError ("Unsupported source type: " +++ source_type)))
    (fun e =>
       log ERROR ("Extraction error: " +++ str_exn e) ;;
       raise e).

(** **** class DataLoader *)

(** [_load_csv] *)
Definition _load_csv (df : DataFrame) (config : DestinationConfig) : M bool :=
  file_path <- lift (getitem "file_path" (file_path config)) ;;
  let encoding := get (encoding config) "utf-8" in
  let index := get (include_index config) false in
  log INFO ("Loading " +++ str_nat (len df) +++ " rows to CSV: " +++ file_path) ;;
  io_to_csv file_path encoding index df ;;
  log INFO "CSV loading completed" ;;
  ret true.

(** [_load_json] *)
Definition _load_json (df : DataFrame) (config : DestinationConfig) : M bool :=
  file_path <- lift (getitem "file_path" (file_path config)) ;;
  let orient := get (orient config) "records" in
  log INFO ("Loading " +++ str_nat (len df) +++ " rows to JSON: " +++ file_path) ;;
  io_to_json file_path orient df ;;
  log INFO "JSON loading completed" ;;
  ret true.

(** [_load_database] *)
Definition _load_database (df : DataFrame) (config : DestinationConfig) : M bool :=
  connection_string <- lift (getitem "connection_string" (connection_string config)) ;;
  table_name <- lift (getitem "table_name" (table_name config)) ;;
  let if_exists := get (if_exists config) "append" in
  log INFO ("Loading " +++ str_nat (len df) +++ " rows to database table: "
            +++ table_name) ;;
  io_to_sql connection_string table_name if_exists df ;;
  log INFO "Database loading completed" ;;
  ret true.

(** [_load_s3] *)
Definition _load_s3 (df : DataFrame) (config : DestinationConfig) : M bool :=
  bucket <- lift (getitem "bucket" (bucket config)) ;;
  key <- lift (getitem "key" (key config)) ;;
  let file_format := get (format config) "csv" in
  log INFO ("Loading " +++ str_nat (len df) +++ " rows to S3: s3://"
            +++ bucket +++ "/" +++ key) ;;
  io_upload_s3 bucket key file_format df ;;
  log INFO "S3 loading completed" ;;
  ret true.

(** [session.post(url, headers=headers, json=batch)]: the call is
    recorded with its response. *)
Definition post (url : string) (headers : list (string * string)) (batch : list record)
  : M Z :=
  fun w =>
    let '(r, w') := io_post url headers batch w in
    (r, w', [HttpPost url batch r]).

(** The [for i in range(...)] loop of [_load_api]; [false] is the early
    [return False]. *)
Fixpoint post_batches (url method : string) (headers : list (string * string))
    (records : list record) (batch_size : Z) (starts : list Z) : M bool :=
  match starts with
  | [] => ret true
  | i :: rest =>
      let batch := slice records i (i + batch_size) in
      if upper method == "POST" then
        status <- post url headers batch ;;
        if negb (status =? 200)%Z then
          log ERROR ("API loading failed: " +++ str_Z status) ;;
          ret false
        else post_batches url method headers records batch_size rest
      else post_batches url method headers records batch_size rest
  end.

(** [_load_api] *)
Definition _load_api (df : DataFrame) (config : DestinationConfig) : M bool :=
  url <- lift (getitem "url" (url config)) ;;
  let method := get (method config) "POST" in
  let headers := get (headers config) [] in
  let batch_size := get (batch_size config) 100%Z in
  log INFO ("Loading " +++ str_nat (len df) +++ " rows to API: " +++ url) ;;
  let records := to_records df in
  starts <- lift (range0 (Z.of_nat (List.length records)) batch_size) ;;
  sent <- post_batches url method headers records batch_size starts ;;
  if sent then
    log INFO "API loading completed" ;;
    ret true
  else ret false.

(** The [try] block of [DataLoader.load]. *)
Definition load_body (df : DataFrame) (destination_type : string)
    (destination_config : DestinationConfig) : M bool :=
  if destination_type == "csv" then _load_csv df destination_config
  else if destination_type == "json" then _load_json df destination_config
  else if destination_type == "database" then _load_database df destination_config
  else if destination_type == "s3" then _load_s3 df destination_config
  else if destination_type == "api" then _load_api df destination_config
  else raise (ValueError ("Unsupported destination type: " +++ destination_type)).

(** [DataLoader.load] *)
Definition load (df : DataFrame) (destination_type : string)
    (destination_config : DestinationConfig) : M bool :=
  try_except
    (load_body df destination_type destination_config)
    (fun e =>
       log ERROR ("Loading error: " +++ str_exn e) ;;
       ret false).

(** **** class ETLPipeline *)

(** [datetime.now()] *)
Definition now : M Z := fun w => (Ret (io_now w), w, []).

(** What follows extraction in the [try] block of [run]. *)
Definition run_stages (config : ETLConfig) (pipeline_start : Z) (df : DataFrame)
  : M bool :=
  log INFO "Step 2: Data Transformation" ;;
  df <- transform df (transformation_config config) ;;
  log INFO "Step 3: Data Validation" ;;
  validation_results <- validate df (validation_config config) ;;
  stop <- (if negb (passed validation_results) then
             log ERROR "Data validation failed" ;;
             ret (get (stop_on_validation_error (pipeline_config config)) true)
           else ret false) ;;
  if (stop : bool) then ret false
  else
    log INFO "Step 4: Data Loading" ;;
    success <- load df (destination_type config) (destination_config config) ;;
    if negb success then
      log ERROR "Data loading failed" ;;
      ret false
    else
      pipeline_end <- now ;;
      log INFO ("ETL pipeline completed successfully in "
                +++ io_fmt_seconds pipeline_start pipeline_end +++ " seconds") ;;
      log INFO ("Processed " +++ str_nat (len df) +++ " records") ;;
      ret true.

(** The [try] block of [run]. *)
Definition run_body (config : ETLConfig) : M bool :=
  pipeline_start <- now ;;
  log INFO "Starting ETL pipeline" ;;
  log INFO "Step 1: Data Extraction" ;;
  df <- extract (source_type config) (source_config config) ;;
  if empty df then
    log WARNING "No data extracted, pipeline stopping" ;;
    ret false
  else run_stages config pipeline_start df.

(** [ETLPipeline.run] *)
Definition run (config : ETLConfig) : M bool :=
  try_except
    (run_body config)
    (fun e =>
       log ERROR ("ETL pipeline failed: " +++ str_exn e) ;;
       ret false).

(** **** Vocabulary of the properties below *)




(** What [transform] logs after its loop: the row count, or the error. *)
Definition transform_tail (r : outcome DataFrame) : list event :=
  match r with
  | Ret df' => [Log INFO ("Transformation completed: " +++ str_nat (len df') +++ " rows")]
  | Raise e => [Log ERROR ("Transformation error: " +++ str_exn e)]
  end.

(** The comparison a condition's operator string selects, in the order
    [_filter_rows] tests them. *)
Definition cmp_of_operator (operator : string) : option cmp_op :=
  if operator == "==" then Some OpEq
  else if operator == "!=" then Some OpNe
  else if operator == ">" then Some OpGt
  else if operator == "<" then Some OpLt
  else if operator == ">=" then Some OpGe
  else if operator == "<=" then Some OpLe
  else None.

(** A condition that has its three keys and is over one of the eight
    operators: a comparison against a scalar, or (non-)membership in a
    list. *)
Definition condition_ok (c : Condition) : bool :=
  match column c, operator c, value_ c with
  | Some _, Some operator, Some value =>
      match cmp_of_operator operator, value with
      | Some _, Scalar _ => true
      | None, Seq _ => orb (operator == "in") (operator == "not_in")
      | _, _ => false
      end
  | _, _, _ => false
  end.

(** Row [r] of a frame with labels [cols] satisfies condition [c]. *)
Definition holds (cols : list string) (c : Condition) (r : list value) : bool :=
  match column c, operator c, value_ c with
  | Some column, Some operator, Some value =>
      let x := cell cols column r in
      match cmp_of_operator operator, value with
      | Some op, Scalar v =>
          match pd_compare op x v with Ret b => b | Raise _ => false end
      | None, Seq l =>
          if operator == "in" then pd_isin x l
          else if operator == "not_in" then negb (pd_isin x l)
          else false
      | _, _ => false
      end
  | _, _, _ => false
  end.

(** The first of its three keys a condition lacks, in the order the loop
    reads them. *)
Definition lacking_key (c : Condition) : option string :=
  match column c, operator c, value_ c with
  | None, _, _ => Some "column"
  | Some _, None, _ => Some "operator"
  | Some _, Some _, None => Some "value"
  | Some _, Some _, Some _ => None
  end.

(** What one verdict adds to the report. *)
Definition entry_report (repr : Check -> string) (ty : string) (b : bool) (c : Check)
  : Report :=
  mkReport b [mkCheckResult ty b c]
           (if b then [] else ["Validation failed: " +++ repr c]).

(** Reports accumulate: flags by conjunction, lists by concatenation. *)
Definition merge (r r' : Report) : Report :=
  mkReport (andb (passed r) (passed r')) (results r ++ results r')
           (errors r ++ errors r').

(** The report [validate] starts from. *)
Definition no_report : Report := mkReport true [] [].

(** The report of a list of verdicts. *)
Definition report_of (repr : Check -> string) (rs : list CheckResult) : Report :=
  mkReport (forallb r_passed rs) rs
           (map (fun r => "Validation failed: " +++ repr (r_config r))
                (filter (fun r => negb (r_passed r)) rs)).

(** Every check of the list evaluated once, in order, each in the world
    the one before left behind, whatever the verdicts. *)
Inductive evaluated (df : DataFrame)
  : list Check -> World -> list CheckResult -> World -> list event -> Prop :=
| evaluated_nil w : evaluated df [] w [] w []
| evaluated_cons c cs w ty b w1 t1 rs w2 t2 :
    run_check df c w = (Ret (ty, b), w1, t1) ->
    evaluated df cs w1 rs w2 t2 ->
    evaluated df (c :: cs) w (mkCheckResult ty b c :: rs) w2 (t1 ++ t2).

(** No check of the list raises on this batch, whatever the world. *)
Definition never_raise (df : DataFrame) (checks : list Check) : Prop :=
  forall c, In c checks ->
  forall w, is_ret (fst (fst (run_check df c w))) = true.


(** The start indices [range(0, n, batch_size)] yields for a positive step. *)
Definition batch_starts (n batch_size : Z) : list Z :=
  map (fun k => (Z.of_nat k * batch_size)%Z)
      (seq 0 (Z.to_nat ((n + batch_size - 1) / batch_size))).

(** The batches [_load_api] cuts the records into. *)
Definition api_batches (records : list record) (batch_size : Z) : list (list record) :=
  map (fun i => slice records i (i + batch_size))
      (batch_starts (Z.of_nat (List.length records)) batch_size).

(** The [HttpPost] calls of a trace, with their responses. *)
Definition posts (t : list event) : list (list record * outcome Z) :=
  flat_map (fun e => match e with
                     | HttpPost _ body response => [(body, response)]
                     | _ => []
                     end) t.

(** A response that lets the loop go on. *)
Definition is_ok (r : outcome Z) : bool :=
  match r with Ret s => (s =? 200)%Z | Raise _ => false end.

(** The world after the given bodies have been posted, one after the
    other, and nothing else has happened. *)
Definition after_posts (url : string) (headers : list (string * string))
    (bodies : list (list record)) (w : World) : World :=
  fold_left (fun w body => snd (io_post url headers body w)) bodies w.

(** Every batch was sent and answered 200. *)
Definition sent_all (B : list (list record)) (t : list event) : Prop :=
  posts t = map (fun b => (b, Ret 200%Z)) B.

(** The loop stopped at batch [k], whose response [bad] was not a 200:
    the batches before it were answered 200, none after it was sent. *)
Definition stopped_at (B : list (list record)) (t : list event)
    (k : nat) (bad : outcome Z) : Prop :=
  k < List.length B
  /\ posts t = map (fun b => (b, Ret 200%Z)) (firstn k B) ++ [(nth k B [], bad)]
  /\ is_ok bad = false.

(** What [run] logs before extraction. *)
Definition run_head : list event :=
  [Log INFO "Starting ETL pipeline"; Log INFO "Step 1: Data Extraction"].

(** What [run] logs when it has the report. *)
Definition validation_lines (rep : Report) : list event :=
  if passed rep then [] else [Log ERROR "Data validation failed"].

(** The run ends at a failing report, by the policy flag. *)
Definition stops (config : ETLConfig) (rep : Report) : bool :=
  andb (negb (passed rep))
       (get (stop_on_validation_error (pipeline_config config)) true).

(** The trace of a run up to the decision that follows validation. *)
Definition run_upto (t1 t2 t3 : list event) (rep : Report) : list event :=
  run_head ++ t1 ++ Log INFO "Step 2: Data Transformation" :: t2
  ++ Log INFO "Step 3: Data Validation" :: t3 ++ validation_lines rep.

(** What [run] logs after a load, by its result. *)
Definition run_tail (config : ETLConfig) (start : Z) (df : DataFrame)
    (w : World) (success : bool) : list event :=
  if success then
    [Log INFO ("ETL pipeline completed successfully in "
               +++ io_fmt_seconds start (io_now w) +++ " seconds");
     Log INFO ("Processed " +++ str_nat (len df) +++ " records")]
  else [Log ERROR "Data loading failed"].

(** The operators [_filter_rows] acts on. *)
Definition filter_operators : list string :=
  ["=="; "!="; ">"; "<"; ">="; "<="; "in"; "not_in"].

(** The destination types [load] dispatches on. *)
Definition supported_destinations : list string :=
  ["csv"; "json"; "database"; "s3"; "api"].

(** The key, if a dict lacks it. *)
Definition lacking {A} (key : string) (field : option A) : list string :=
  match field with
  | Some _ => []
  | None => [key]
  end.

(** The first key its loader reads with [config['k']] that a destination
    dict lacks. *)
Definition missing_key (destination_type : string) (config : DestinationConfig)
  : option string :=
  hd_error
    (if destination_type == "csv" then lacking "file_path" (file_path config)
     else if destination_type == "json" then lacking "file_path" (file_path config)
     else if destination_type == "database" then
       lacking "connection_string" (connection_string config)
       ++ lacking "table_name" (table_name config)
     else if destination_type == "s3" then
       lacking "bucket" (bucket config) ++ lacking "key" (key config)
     else if destination_type == "api" then lacking "url" (url config)
     else []).

(** Some cell of the column is null. *)
Definition has_null (df : DataFrame) (column : string) : bool :=
  existsb isnull (map (cell (columns df) column) (rows df)).

(** What ends the loop of [_check_not_null] at a column: the batch lacks
    it, or it has a null. *)
Definition null_or_missing (df : DataFrame) (column : string) : bool :=
  orb (negb (mem column (columns df))) (has_null df column).

(** [l'] is [l] with some elements left out, the others in their order. *)
Inductive subseq {A : Type} : list A -> list A -> Prop :=
| subseq_nil : subseq [] []
| subseq_keep x l' l : subseq l' l -> subseq (x :: l') (x :: l)
| subseq_skip x l' l : subseq l' l -> subseq l' (x :: l).

(** A cell after [fillna(v)]: as it was, or [v] where it was null. *)
Definition filled (v c c' : value) : Prop :=
  if isnull c then c' = v else c' = c.

End Pipeline.

(** *** The command line: [load_config_from_file] and [main] *)

(** A [source] or [destination] entry of the configuration document. *)
Record Endpoint (C : Type) : Type := mkEndpoint {
  e_type : option string;
  e_config : option C
}.
Arguments mkEndpoint {C} e_type e_config.
Arguments e_type {C} e.
Arguments e_config {C} e.

(** The YAML document of the configuration file. *)
Record ConfigData : Type := mkConfigData {
  cd_source : option (Endpoint SourceConfig);
  cd_destination : option (Endpoint DestinationConfig);
  cd_transformations : option TransformationConfig;
  cd_pipeline : option PipelineConfig;
  cd_validation : option ValidationConfig
}.

(** The parsed command line. *)
Record Args : Type := mkArgs {
  a_config : string;
  a_source : option string;
  a_target : option string;
  a_dry_run : bool
}.

(** The configuration file. *)
Class Files (World : Type) : Type := {
  (** [open(config_file, 'r')] and [yaml.safe_load(f)] *)
  fs_load_yaml : string -> Py.M World ConfigData
}.

Section Script.

Context {World : Type} {pd : Pandas} {io : IO World} {fs : Files World}.

(** [load_config_from_file] *)
Definition load_config_from_file (config_file : string) : Py.M World ETLConfig :=
  config_data <- fs_load_yaml config_file ;;
  source <- lift (getitem "source" (cd_source config_data)) ;;
  source_type <- lift (getitem "type" (e_type source)) ;;
  source_config <- lift (getitem "config" (e_config source)) ;;
  destination <- lift (getitem "destination" (cd_destination config_data)) ;;
  destination_type <- lift (getitem "type" (e_type destination)) ;;
  destination_config <- lift (getitem "config" (e_config destination)) ;;
  ret (mkETLConfig source_type source_config destination_type destination_config
         (get (cd_transformations config_data) (mkTransformationConfig None))
         (get (cd_pipeline config_data) (mkPipelineConfig None))
         (get (cd_validation config_data) (mkValidationConfig None))).

(** [if args.source:] holds for a string that is given and not empty. *)
Definition given (s : option string) : bool :=
  match s with
  | Some s => negb (s == "")
  | None => false
  end.

(** [config.source_type = args.source] *)
Definition set_source_type (config : ETLConfig) (source_type : string) : ETLConfig :=
  mkETLConfig source_type (source_config config)
              (destination_type config) (destination_config config)
              (transformation_config config) (pipeline_config config)
              (validation_config config).

(** [config.destination_type = args.target] *)
Definition set_destination_type (config : ETLConfig) (destination_type : string)
  : ETLConfig :=
  mkETLConfig (source_type config) (source_config config)
              destination_type (destination_config config)
              (transformation_config config) (pipeline_config config)
              (validation_config config).

(** The overrides of the command line. *)
Definition override (args : Args) (config : ETLConfig) : ETLConfig :=
  let config :=
    if given (a_source args) then set_source_type config (get (a_source args) "")
    else config in
  if given (a_target args) then set_destination_type config (get (a_target args) "")
  else config.

(** [main] from the parsed command line on, as the status the process
    ends with.  [sys.exit(n)] raises [SystemExit], which
    [except Exception] does not catch, so [n] is the status; the plain
    [return] of a dry run ends the process with 0.  [parser.parse_args()]
    stands before the [try] and is not part of the model (on a malformed
    command line argparse exits with status 2), and neither is a
    [SystemExit] raised from inside the pipeline. *)
Definition main (args : Args) : Py.M World Z :=
  try_except
    (config <- load_config_from_file (a_config args) ;;
     let config := override args config in
     if a_dry_run args then
       log INFO "Configuration validation successful" ;;
       ret 0%Z
     else
       success <- run config ;;
       ret (if (success : bool) then 0%Z else 1%Z))
    (fun e =>
       log ERROR ("Pipeline execution failed: " +++ str_exn e) ;;
       ret 1%Z).

End Script.

End ETL.

(* ===================================================================== *)
(** ** db_migration.py                                                    *)
(* ===================================================================== *)

Module Migration.

(** One entry of a column's rule list. *)
Record Rule : Type := mkRule {
  rule_type : option string;
  rule_from : option string;
  rule_to : option string;
  rule_target_type : option string;
  rule_value : option value
}.

(** The part of [self.config] that [_migrate_table] reads.  Both keys are
    always there: [load_config] starts from defaults that have them. *)
Record Config : Type := mkConfig {
  batch_size : Z;
  transformation_rules : list (string * list (string * list Rule))
}.

(** The two database connections. *)
Class DB (World : Type) : Type := {
  (** [source_conn.execute(sa.text("SELECT COUNT(*) FROM t")).scalar()] *)
  db_count : string -> World -> outcome Z * World;
  (** [pd.read_sql("SELECT * FROM t LIMIT l OFFSET o", source_conn)] *)
  db_read_sql : string -> Z -> Z -> World -> outcome DataFrame * World;
  (** [df.to_sql(t, target_conn, if_exists='append', index=False)] *)
  db_to_sql : string -> DataFrame -> World -> outcome unit * World;
  (** [f"{progress:.1f}"] for [migrated_rows / total_rows * 100] *)
  db_fmt_percent : Z -> Z -> string
}.

Section Copy.

Context {World : Type} {pd : Pandas} {db : DB World}.

Abbreviation M := (Py.M World).

Variable config : Config.

(** [d.get(key, {})] on a dict kept as an association list. *)
Definition lookup {A} (key : string) (d : list (string * list A)) : list A :=
  match find (fun kv => fst kv == key) d with
  | Some kv => snd kv
  | None => []
  end.

(** One rule applied to one column. *)
Definition apply_rule (df : DataFrame) (column : string) (rule : Rule)
  : outcome DataFrame :=
  ty <- getitem "type" (rule_type rule) ;;
  if ty == "replace" then
    s <- series df column ;;
    old <- getitem "from" (rule_from rule) ;;
    new <- getitem "to" (rule_to rule) ;;
    s' <- pd_str_replace old new s ;;
    ret (df_assign df column s')
  else if ty == "convert_type" then
    s <- series df column ;;
    target <- getitem "target_type" (rule_target_type rule) ;;
    s' <- pd_astype target s ;;
    ret (df_assign df column s')
  else if ty == "default_value" then
    s <- series df column ;;
    v <- getitem "value" (rule_value rule) ;;
    ret (df_assign df column (map (fun c => if isnull c then v else c) s))
  else ret df.

Fixpoint apply_rules (df : DataFrame) (column : string) (rules : list Rule)
  : outcome DataFrame :=
  match rules with
  | [] => ret df
  | rule :: rest => df' <- apply_rule df column rule ;; apply_rules df' column rest
  end.

Fixpoint apply_columns (df : DataFrame) (transformations : list (string * list Rule))
  : outcome DataFrame :=
  match transformations with
  | [] => ret df
  | (column, rules) :: rest =>
      df' <- (if mem column (columns df) then apply_rules df column rules else ret df) ;;
      apply_columns df' rest
  end.

(** [_apply_transformations] *)
Definition _apply_transformations (table_name : string) (df : DataFrame)
  : outcome DataFrame :=
  let transformations := lookup table_name (transformation_rules config) in
  apply_columns df transformations.

(** The row count of the source table. *)
Definition count_rows (table_name : string) : M Z :=
  fun w => let '(r, w') := db_count table_name w in (r, w', []).

(** [pd.read_sql] of one page, recorded with its limit and offset. *)
Definition read_sql (table_name : string) (limit offset : Z) : M DataFrame :=
  fun w =>
    let '(r, w') := db_read_sql table_name limit offset w in
    (r, w', [ReadSql table_name limit offset]).

(** [df.to_sql] to the target, recorded. *)
Definition to_sql (table_name : string) (df : DataFrame) : M unit :=
  fun w =>
    let '(r, w') := db_to_sql table_name df w in
    (r, w', [ToSql table_name df]).

(** The [while offset < total_rows] loop.  Python gives no bound on it, so
    the model takes fuel: [None] means the fuel ran out with the loop
    still going, [Some migrated_rows] that the loop was left. *)
Fixpoint copy_loop (fuel : nat) (table_name : string) (batch_size total_rows : Z)
    (offset migrated_rows : Z) : M (option Z) :=
  if (offset <? total_rows)%Z then
    match fuel with
    | O => ret None
    | S fuel' =>
        df <- read_sql table_name batch_size offset ;;
        if empty df then ret (Some migrated_rows)
        else
          df <- lift (_apply_transformations table_name df) ;;
          to_sql table_name df ;;
          let migrated_rows := (migrated_rows + Z.of_nat (len df))%Z in
          let offset := (offset + batch_size)%Z in
          log INFO ("Table " +++ table_name +++ ": " +++ str_Z migrated_rows +++ "/"
                    +++ str_Z total_rows +++ " rows ("
                    +++ db_fmt_percent migrated_rows total_rows +++ "%)") ;;
          copy_loop fuel' table_name batch_size total_rows offset migrated_rows
    end
  else ret (Some migrated_rows).

(** [_migrate_table]; [None] only when the fuel did not suffice. *)
Definition _migrate_table (fuel : nat) (table_name : string) : M (option bool) :=
  try_except
    (let batch_size := batch_size config in
     total_rows <- count_rows table_name ;;
     if (total_rows =? 0)%Z then
       log INFO ("Table " +++ table_name +++ " is empty, skipping") ;;
       ret (Some true)
     else
       r <- copy_loop fuel table_name batch_size total_rows 0 0 ;;
       match r with
       | None => ret None
       | Some migrated_rows =>
           log INFO ("Completed migration of table " +++ table_name +++ ": "
                     +++ str_Z migrated_rows +++ " rows") ;;
           ret (Some true)
       end)
    (fun e =>
       log ERROR ("Error migrating table " +++ table_name +++ ": " +++ str_exn e) ;;
       ret (Some false)).

End Copy.

(** The pages read, as (limit, offset), in order. *)
Definition reads (t : list event) : list (Z * Z) :=
  flat_map (fun e => match e with
                     | ReadSql _ limit offset => [(limit, offset)]
                     | _ => []
                     end) t.

(** [ceil(total_rows / batch_size)], as a number of iterations. *)
Definition max_iterations (total_rows batch_size : Z) : nat :=
  Z.to_nat ((total_rows + batch_size - 1) / batch_size).

(** The result of a loop that was left, as [copy_loop] reports it. *)
Definition finished (r : outcome Z) : outcome (option Z) :=
  match r with
  | Ret migrated_rows => Ret (Some migrated_rows)
  | Raise e => Raise e
  end.

(** *** Vocabulary of the further properties of the copy *)

(** The frames written to the target, in order. *)
Definition written (t : list event) : list DataFrame :=
  flat_map (fun e => match e with
                     | ToSql _ df => [df]
                     | _ => []
                     end) t.

(** The number of rows written to the target. *)
Definition written_rows (t : list event) : Z :=
  fold_right (fun df n => (Z.of_nat (len df) + n)%Z) 0%Z (written t).

(** The columns a table's rules name, for a frame that has none of them. *)
Definition rules_miss (config : Config) (table_name : string) (df : DataFrame) : bool :=
  forallb (fun cr => negb (mem (fst cr) (columns df)))
          (lookup table_name (transformation_rules config)).

(** *** Connections, schema and dispatch *)

(** *** Column types *)

(** The SQLAlchemy types the mapping names. *)
Inductive sa_type : Type :=
| sa_Integer | sa_String | sa_Text | sa_DateTime | sa_Boolean | sa_Float | sa_Numeric.

(** [d.get(key, default)] on a dict kept as an association list. *)
Definition dict_get {A} (key : string) (d : list (string * A)) (default : A) : A :=
  match find (fun kv => fst kv == key) d with
  | Some kv => snd kv
  | None => default
  end.

(** [d[key] = v]: the entry is replaced in place, or added at the end. *)
Fixpoint dict_set {A} (key : string) (v : A) (d : list (string * A))
  : list (string * A) :=
  match d with
  | [] => [(key, v)]
  | (k, x) :: d' => if k == key then (k, v) :: d' else (k, x) :: dict_set key v d'
  end.

(** The dict [type_mapping] of [_convert_column_type]. *)
Definition type_mapping : list (string * list (string * list (string * sa_type))) :=
  [("postgresql",
    [("mysql",
      [("INTEGER", sa_Integer); ("VARCHAR", sa_String); ("TEXT", sa_Text);
       ("TIMESTAMP", sa_DateTime); ("BOOLEAN", sa_Boolean); ("FLOAT", sa_Float);
       ("DECIMAL", sa_Numeric)]);
     ("sqlite",
      [("INTEGER", sa_Integer); ("VARCHAR", sa_String); ("TEXT", sa_Text);
       ("TIMESTAMP", sa_DateTime); ("BOOLEAN", sa_Boolean); ("FLOAT", sa_Float);
       ("DECIMAL", sa_Numeric)])])].

(** [_convert_column_type]; [source_type] stands for [str(source_type)]. *)
Definition _convert_column_type (source_type source_db target_db : string) : sa_type :=
  dict_get source_type
           (dict_get target_db (dict_get source_db type_mapping []) [])
           sa_String.

(** The type names the mapping knows. *)
Definition mapped_types : list string :=
  ["INTEGER"; "VARCHAR"; "TEXT"; "TIMESTAMP"; "BOOLEAN"; "FLOAT"; "DECIMAL"].

(** *** The schema dict *)

(** One entry of [inspector.get_columns]: its [name] and the [str] of its
    [type]. *)
Record ColumnInfo : Type := mkColumnInfo {
  col_name : string;
  col_type : string
}.

(** One value of the schema dict.  The SQL reader fills [columns] (and the
    keys, foreign keys and indexes, which nothing reads); the MongoDB
    reader fills [fields] and [document_count]. *)
Record TableInfo : Type := mkTableInfo {
  ti_columns : option (list ColumnInfo);
  ti_fields : option (list (string * string));
  ti_document_count : option Z
}.

Definition Schema : Type := list (string * TableInfo).

(** A sampled document as [_get_mongodb_schema] looks at it: its keys in
    order, each with [type(value).__name__]. *)
Definition document : Type := list (string * string).

(** A table to create: its name and its columns with their types. *)
Definition table_def : Type := (string * list (string * sa_type))%type.

(** *** What the script delegates to the two connections *)

Class Engine (World : Type) : Type := {
  (** [_connect_postgresql], [_connect_mysql], [_connect_mongodb],
      [_connect_sqlite]: the connection of one side ('source', 'target') to
      a database of the given type *)
  en_connect : string -> string -> World -> outcome unit * World;
  (** [inspect(conn)] on one side *)
  en_inspect : string -> World -> outcome unit * World;
  (** [inspector.get_table_names()] on one side *)
  en_table_names : string -> World -> outcome (list string) * World;
  (** [get_columns], [get_pk_constraint], [get_foreign_keys] and
      [get_indexes] of one source table: the columns *)
  en_describe : string -> World -> outcome (list ColumnInfo) * World;
  (** [target_conn.execute(sa.text("SELECT COUNT(*) FROM t")).scalar()] *)
  en_target_count : string -> World -> outcome Z * World;
  (** [metadata.create_all(target_conn)] for the tables defined *)
  en_create_all : list table_def -> World -> outcome unit * World;
  (** [source_conn.list_collection_names()] *)
  en_collection_names : World -> outcome (list string) * World;
  (** [list(collection.find().limit(100))] *)
  en_sample : string -> World -> outcome (list document) * World;
  (** [collection.count_documents({})] *)
  en_count_documents : string -> World -> outcome Z * World;
  (** [target_conn[table_name]] *)
  en_collection : string -> World -> outcome unit * World;
  (** [collection.insert_many(documents)] *)
  en_insert_many : string -> list record -> World -> outcome unit * World;
  (** the order in which Python goes through [set(names)] *)
  en_set_order : list string -> list string
}.

Section Connections.

Context {World : Type} {pd : Pandas} {db : DB World} {en : Engine World}.

Abbreviation M := (Py.M World).

Variable config : Config.

(** One call to a connection, run inside [M]. *)
Definition call {A} (f : World -> outcome A * World) : M A :=
  fun w => let '(r, w') := f w in (r, w', []).

(** The database types [connect_source] and [connect_target] know. *)
Definition supported_databases : list string :=
  ["postgresql"; "mysql"; "mongodb"; "sqlite"].

(** [connect_source] *)
Definition connect_source (db_type : string) : M bool :=
  try_except
    ((if db_type == "postgresql" then call (en_connect "source" "postgresql")
      else if db_type == "mysql" then call (en_connect "source" "mysql")
      else if db_type == "mongodb" then call (en_connect "source" "mongodb")
      else if db_type == "sqlite" then call (en_connect "source" "sqlite")
      else raise (ValueError ("Unsupported source database type: " +++ db_type))) ;;
     log INFO ("Connected to source database: " +++ db_type) ;;
     ret true)
    (fun e =>
       log ERROR ("Source connection error: " +++ str_exn e) ;;
       ret false).

(** [connect_target] *)
Definition connect_target (db_type : string) : M bool :=
  try_except
    ((if db_type == "postgresql" then call (en_connect "target" "postgresql")
      else if db_type == "mysql" then call (en_connect "target" "mysql")
      else if db_type == "mongodb" then call (en_connect "target" "mongodb")
      else if db_type == "sqlite" then call (en_connect "target" "sqlite")
      else raise (ValueError ("Unsupported target database type: " +++ db_type))) ;;
     log INFO ("Connected to target database: " +++ db_type) ;;
     ret true)
    (fun e =>
       log ERROR ("Target connection error: " +++ str_exn e) ;;
       ret false).

(** The loop of [_get_sql_schema]. *)
Fixpoint sql_schema_loop (table_names : list string) (schema : Schema) : M Schema :=
  match table_names with
  | [] => ret schema
  | table_name :: rest =>
      columns <- call (en_describe table_name) ;;
      sql_schema_loop rest
        (dict_set table_name (mkTableInfo (Some columns) None None) schema)
  end.

(** [_get_sql_schema] *)
Definition _get_sql_schema : M Schema :=
  call (en_inspect "source") ;;
  table_names <- call (en_table_names "source") ;;
  sql_schema_loop table_names [].

(** The loop over the items of one document: a key that is not among the
    fields yet gets the type name of this value. *)
Fixpoint infer_items (fields : list (string * string)) (items : document)
  : list (string * string) :=
  match items with
  | [] => fields
  | (key, type_name) :: rest =>
      infer_items (if mem key (map fst fields) then fields
                   else fields ++ [(key, type_name)]) rest
  end.

(** The loop over the sampled documents. *)
Fixpoint infer_fields (fields : list (string * string)) (sample_docs : list document)
  : list (string * string) :=
  match sample_docs with
  | [] => fields
  | doc :: rest => infer_fields (infer_items fields doc) rest
  end.

(** The loop of [_get_mongodb_schema]: a collection whose sample is empty
    gets no entry. *)
Fixpoint mongodb_schema_loop (collection_names : list string) (schema : Schema)
  : M Schema :=
  match collection_names with
  | [] => ret schema
  | collection_name :: rest =>
      sample_docs <- call (en_sample collection_name) ;;
      match sample_docs with
      | [] => mongodb_schema_loop rest schema
      | _ :: _ =>
          let fields := infer_fields [] sample_docs in
          document_count <- call (en_count_documents collection_name) ;;
          mongodb_schema_loop rest
            (dict_set collection_name
                      (mkTableInfo None (Some fields) (Some document_count)) schema)
      end
  end.

(** [_get_mongodb_schema] *)
Definition _get_mongodb_schema : M Schema :=
  collection_names <- call en_collection_names ;;
  mongodb_schema_loop collection_names [].

(** [get_source_schema]: an empty dict when anything goes wrong. *)
Definition get_source_schema (source_type : string) : M Schema :=
  try_except
    (if source_type == "mongodb" then _get_mongodb_schema else _get_sql_schema)
    (fun e =>
       log ERROR ("Schema extraction error: " +++ str_exn e) ;;
       ret []).

(** The columns of one table of [_create_sql_schema]. *)
Definition table_columns (source_type target_type : string) (columns : list ColumnInfo)
  : list (string * sa_type) :=
  map (fun col_info =>
         (col_name col_info,
          _convert_column_type (col_type col_info) source_type target_type))
      columns.

(** The loop of [_create_sql_schema] over the schema dict. *)
Fixpoint schema_tables (source_type target_type : string) (schema : Schema)
  : outcome (list table_def) :=
  match schema with
  | [] => ret []
  | (table_name, table_info) :: rest =>
      columns <- getitem "columns" (ti_columns table_info) ;;
      tables <- schema_tables source_type target_type rest ;;
      ret ((table_name, table_columns source_type target_type columns) :: tables)
  end.

(** [_create_sql_schema] *)
Definition _create_sql_schema (source_type target_type : string) (schema : Schema)
  : M bool :=
  tables <- lift (schema_tables source_type target_type schema) ;;
  call (en_create_all tables) ;;
  log INFO ("Created " +++ str_nat (List.length schema)
            +++ " tables in target database") ;;
  ret true.

(** [create_target_schema] *)
Definition create_target_schema (source_type target_type : string) (schema : Schema)
  : M bool :=
  try_except
    (if target_type == "mongodb" then
       log INFO "MongoDB target: schema creation not required" ;;
       ret true
     else _create_sql_schema source_type target_type schema)
    (fun e =>
       log ERROR ("Schema creation error: " +++ str_exn e) ;;
       ret false).

(** The [AttributeError] of a method the class does not define. *)
Definition AttributeError (name : string) : exn :=
  Exception ("'DatabaseMigration' object has no attribute '" +++ name +++ "'").

(** [tables or inspector.get_table_names()] *)
Definition tables_or_all (tables : option (list string)) : M (list string) :=
  match tables with
  | Some (table_name :: rest) => ret (table_name :: rest)
  | _ => call (en_table_names "source")
  end.

(** The [while offset < total_rows] loop of [_migrate_sql_to_mongodb], with
    fuel as in [copy_loop]. *)
Fixpoint insert_loop (fuel : nat) (table_name : string) (batch_size total_rows : Z)
    (offset : Z) : M (option unit) :=
  if (offset <? total_rows)%Z then
    match fuel with
    | O => ret None
    | S fuel' =>
        df <- read_sql table_name batch_size offset ;;
        if empty df then ret (Some tt)
        else
          df <- lift (_apply_transformations config table_name df) ;;
          let documents := to_records df in
          call (en_insert_many table_name documents) ;;
          let offset := (offset + batch_size)%Z in
          log INFO ("Table " +++ table_name +++ ": " +++ str_Z offset +++ "/"
                    +++ str_Z total_rows +++ " rows ("
                    +++ db_fmt_percent offset total_rows +++ "%)") ;;
          insert_loop fuel' table_name batch_size total_rows offset
    end
  else ret (Some tt).

(** The body of the [for] loop of [_migrate_sql_to_mongodb], for one
    table: [Some true] lets the loop go on, [Some false] is the
    [return False] of the handler, [None] means the fuel ran out. *)
Definition sql_to_mongodb_table (fuel : nat) (table_name : string) : M (option bool) :=
  try_except
    (total_rows <- count_rows table_name ;;
     if (total_rows =? 0)%Z then
       log INFO ("Table " +++ table_name +++ " is empty, skipping") ;;
       ret (Some true)
     else
       call (en_collection table_name) ;;
       let batch_size := batch_size config in
       r <- insert_loop fuel table_name batch_size total_rows 0 ;;
       match r with
       | None => ret None
       | Some _ =>
           log INFO ("Completed migration of table " +++ table_name) ;;
           ret (Some true)
       end)
    (fun e =>
       log ERROR ("Error migrating table " +++ table_name +++ ": " +++ str_exn e) ;;
       ret (Some false)).

(** The [for] loop of [_migrate_sql_to_mongodb]. *)
Fixpoint sql_to_mongodb_tables (fuel : nat) (table_names : list string)
  : M (option bool) :=
  match table_names with
  | [] => ret (Some true)
  | table_name :: rest =>
      r <- sql_to_mongodb_table fuel table_name ;;
      match r with
      | Some true => sql_to_mongodb_tables fuel rest
      | _ => ret r
      end
  end.

(** [_migrate_sql_to_mongodb] *)
Definition _migrate_sql_to_mongodb (fuel : nat) (tables : option (list string))
  : M (option bool) :=
  call (en_inspect "source") ;;
  table_names <- tables_or_all tables ;;
  sql_to_mongodb_tables fuel table_names.

(** The migrations [migrate_data] hands over to and that are not modelled
    here: the thread pool of [_migrate_sql_to_sql], and the documents of
    [_migrate_mongodb_to_sql]. *)
Variable _migrate_sql_to_sql : option (list string) -> M (option bool).
Variable _migrate_mongodb_to_sql : option (list string) -> M (option bool).

(** [migrate_data].  The class has no method [_migrate_mongodb_to_mongodb]:
    looking it up raises [AttributeError]. *)
Definition migrate_data (fuel : nat) (source_type target_type : string)
    (tables : option (list string)) : M (option bool) :=
  try_except
    (if andb (source_type == "mongodb") (negb (target_type == "mongodb")) then
       _migrate_mongodb_to_sql tables
     else if andb (negb (source_type == "mongodb")) (target_type == "mongodb") then
       _migrate_sql_to_mongodb fuel tables
     else if andb (source_type == "mongodb") (target_type == "mongodb") then
       raise (AttributeError "_migrate_mongodb_to_mongodb")
     else _migrate_sql_to_sql tables)
    (fun e =>
       log ERROR ("Data migration error: " +++ str_exn e) ;;
       ret (Some false)).

(** The migration [migrate_data] hands over to, for a pair of types that
    is not MongoDB on both sides. *)
Definition migration_for (fuel : nat) (source_type target_type : string)
    (tables : option (list string)) : M (option bool) :=
  if andb (source_type == "mongodb") (negb (target_type == "mongodb")) then
    _migrate_mongodb_to_sql tables
  else if andb (negb (source_type == "mongodb")) (target_type == "mongodb") then
    _migrate_sql_to_mongodb fuel tables
  else _migrate_sql_to_sql tables.

(** A set of names as Python prints it. *)
Definition repr_set (names : list string) : string :=
  "{" +++ String.concat ", " (map (fun c => "'" +++ c +++ "'") names) +++ "}".

(** The loop of [_validate_sql_to_sql] over the source tables. *)
Fixpoint compare_counts (tables : list string) : M bool :=
  match tables with
  | [] =>
      log INFO "SQL to SQL migration validation passed" ;;
      ret true
  | table_name :: rest =>
      source_count <- count_rows table_name ;;
      target_count <- call (en_target_count table_name) ;;
      if negb (source_count =? target_count)%Z then
        log ERROR ("Row count mismatch in " +++ table_name +++ ": source="
                   +++ str_Z source_count +++ ", target=" +++ str_Z target_count) ;;
        ret false
      else compare_counts rest
  end.

(** [_validate_sql_to_sql] *)
Definition _validate_sql_to_sql : M bool :=
  call (en_inspect "source") ;;
  call (en_inspect "target") ;;
  source_tables <- call (en_table_names "source") ;;
  target_tables <- call (en_table_names "target") ;;
  if negb (forallb (fun t => mem t target_tables) source_tables) then
    let missing_tables := filter (fun t => negb (mem t target_tables)) source_tables in
    log ERROR ("Missing tables in target: " +++ repr_set (en_set_order missing_tables)) ;;
    ret false
  else compare_counts (en_set_order source_tables).

(** Every table of the list counted in the source and in the target, in
    order, with equal counts, each count in the world the one before
    left. *)
Inductive counted : list string -> World -> World -> Prop :=
| counted_nil w : counted [] w w
| counted_cons table_name rest w n w1 w2 w3 :
    db_count table_name w = (Ret n, w1) ->
    en_target_count table_name w1 = (Ret n, w2) ->
    counted rest w2 w3 ->
    counted (table_name :: rest) w w3.

(** [validate_migration].  The class defines neither
    [_validate_mongodb_to_sql] nor [_validate_sql_to_mongodb]. *)
Definition validate_migration (source_type target_type : string) : M bool :=
  try_except
    (log INFO "Starting migration validation..." ;;
     if andb (source_type == "mongodb") (negb (target_type == "mongodb")) then
       raise (AttributeError "_validate_mongodb_to_sql")
     else if andb (negb (source_type == "mongodb")) (target_type == "mongodb") then
       raise (AttributeError "_validate_sql_to_mongodb")
     else _validate_sql_to_sql)
    (fun e =>
       log ERROR ("Validation error: " +++ str_exn e) ;;
       ret false).

End Connections.

(** No entry of the schema has the key [columns]. *)
Definition no_columns (schema : Schema) : bool :=
  forallb (fun entry => match ti_columns (snd entry) with
                        | None => true
                        | Some _ => false
                        end) schema.

(** Exactly one of the two sides is MongoDB. *)
Definition one_side_mongodb (source_type target_type : string) : bool :=
  xorb (source_type == "mongodb") (target_type == "mongodb").

End Migration.

(* ===================================================================== *)
(** ** A small world to run the scripts in                                *)
(* ===================================================================== *)

(** Concrete instances of the interfaces, used by the examples: a
    pandas that is exact on integers, digit strings and nulls, and a
    world made of one source table, the answers the API will give, and
    what has been written so far. *)

Module Sample.

Import ETL Migration.

(** An unsigned decimal literal. *)
Fixpoint parse_digits (s : string) (acc : Z) : option Z :=
  match s with
  | EmptyString => Some acc
  | String c s' =>
      let n := nat_of_ascii c in
      if andb (48 <=? n) (n <=? 57)
      then parse_digits s' (10 * acc + Z.of_nat (n - 48))%Z
      else None
  end.

(** [int(s)] for a plain decimal literal. *)
Definition parse_int (s : string) : option Z :=
  match s with
  | EmptyString => None
  | _ => parse_digits s 0%Z
  end.

(** Whether the operator accepts the result of a three-way comparison. *)
Definition compare_by (op : cmp_op) (c : comparison) : bool :=
  match op, c with
  | OpEq, Eq | OpGe, Eq | OpLe, Eq => true
  | OpNe, Lt | OpLt, Lt | OpLe, Lt => true
  | OpNe, Gt | OpGt, Gt | OpGe, Gt => true
  | _, _ => false
  end.

(** One cell against a scalar: nulls compare unequal to everything,
    numbers and texts by their order, mixed operands only for equality. *)
Definition compare (op : cmp_op) (x y : value) : outcome bool :=
  match x, y with
  | VNull, _ | _, VNull => Ret (match op with OpNe => true | _ => false end)
  | VInt a, VInt b => Ret (compare_by op (a ?= b)%Z)
  | VStr a, VStr b => Ret (compare_by op (String.compare a b))
  | _, _ =>
      match op with
      | OpEq => Ret (value_eqb x y)
      | OpNe => Ret (negb (value_eqb x y))
      | _ => Raise (TypeError "operands of these types are not ordered")
      end
  end.

(** [pd.to_numeric] on one cell: numbers and decimal literals parse. *)
Definition parse_numeric (v : value) : option value :=
  match v with
  | VInt n => Some (VInt n)
  | VStr s => option_map VInt (parse_int s)
  | _ => None
  end.

(** [pd.to_datetime] on a column of timestamps and nulls; any other cell
    is rejected. *)
Definition to_datetime (s : list value) : outcome (list value) :=
  if forallb (fun v => match v with VTime _ | VNull => true | _ => false end) s
  then Ret s
  else Raise (ValueError "Unknown datetime string format").

(** [astype]: only [int64] is known, and it wants every cell to parse. *)
Definition astype (dtype : string) (s : list value) : outcome (list value) :=
  if dtype == "int64" then
    mapM (fun v => match parse_numeric v with
                   | Some n => Ret n
                   | None => Raise (ValueError "invalid literal for int() with base 10")
                   end) s
  else Raise (TypeError ("data type '" +++ dtype +++ "' not understood")).

(** What the sample pandas answers to what it does not implement. *)
Definition unsupported {A} : outcome A :=
  Raise (Exception "not part of the sample").

#[export] Instance pandas : Pandas := {|
  pd_compare := compare;
  pd_compare_seq := fun _ _ _ => Raise (ValueError "Lengths must match to compare");
  pd_isin := fun x l => existsb (value_eqb x) l;
  pd_parse_numeric := parse_numeric;
  pd_to_datetime := to_datetime;
  pd_astype := astype;
  pd_object_columns := fun _ => [];
  pd_str_strip := fun v => v;
  pd_groupby_agg := fun _ _ _ => unsupported;
  pd_pivot_table := fun _ _ _ _ => unsupported;
  pd_str_match := fun _ _ => unsupported;
  pd_str_replace := fun _ _ _ => unsupported
|}.

(** The outside world of the examples. *)
Record World : Type := mkWorld {
  source : DataFrame;           (* what the source holds *)
  replies : list Z;             (* the statuses the API will answer *)
  stored : list DataFrame       (* what has been written, latest first *)
}.

(** Any write keeps the frame written. *)
Definition store (df : DataFrame) : M World unit :=
  fun w => (Ret tt, mkWorld (source w) (replies w) (df :: stored w), []).

(** The API answers with its next scripted status, 200 when none is left. *)
Definition answer (w : World) : outcome Z * World :=
  match replies w with
  | [] => (Ret 200%Z, w)
  | status :: rest => (Ret status, mkWorld (source w) rest (stored w))
  end.

#[export] Instance io : IO World := {|
  io_extract := fun _ _ w => (Ret (source w), w, []);
  io_exec_transform := fun _ _ => raise (Exception "not part of the sample");
  io_exec_check := fun _ _ => raise (Exception "not part of the sample");
  io_to_csv := fun _ _ _ df => store df;
  io_to_json := fun _ _ df => store df;
  io_to_sql := fun _ _ _ df => store df;
  io_upload_s3 := fun _ _ _ df => store df;
  io_post := fun _ _ _ w => answer w;
  io_now := fun _ => 0%Z;
  io_fmt_seconds := fun _ _ => "0.00";
  io_repr_check := fun c => "{'type': '" +++ get (k_type c) "" +++ "'}"
|}.

#[export] Instance db : DB World := {|
  db_count := fun _ w => (Ret (Z.of_nat (len (source w))), w);
  db_read_sql := fun _ limit offset w =>
    (Ret (mkDF (columns (source w)) (slice (rows (source w)) offset (offset + limit))), w);
  db_to_sql := fun _ df w =>
    (Ret tt, mkWorld (source w) (replies w) (df :: stored w));
  db_fmt_percent := fun done total => str_Z (100 * done / total) +++ ".0"
|}.

(** Three people, by age. *)
Definition people : DataFrame :=
  mkDF ["id"; "age"]
       [[VInt 1; VInt 15]; [VInt 2; VInt 18]; [VInt 3; VInt 22]].

(** The same table with one age missing. *)
Definition people_with_gap : DataFrame :=
  mkDF ["id"; "age"]
       [[VInt 1; VInt 15]; [VInt 2; VNull]; [VInt 3; VInt 22]].

(** A table with its columns and no row. *)
Definition nobody : DataFrame := mkDF ["id"; "age"] [].


(** Five rows to copy or to post. *)
Definition five_rows : DataFrame :=
  mkDF ["id"] [[VInt 1]; [VInt 2]; [VInt 3]; [VInt 4]; [VInt 5]].

(** A world with this source and these scripted replies, nothing stored. *)
Definition world_of (df : DataFrame) (replies : list Z) : World :=
  mkWorld df replies [].

(** A step descriptor with its type and nothing else. *)
Definition step (ty : string) : Transform :=
  mkTransform (Some ty) None None None None None None None None None.

(** A check descriptor with its type and its [columns]. *)
Definition check (ty : string) (cols : list string) : Check :=
  mkCheck (Some ty) (Some cols) None None None None None.

(** [{column: c, operator: op, value: v}] *)
Definition cond (c op : string) (v : yaml) : Condition :=
  mkCondition (Some c) (Some op) (Some v).

(** [{type: filter_rows, conditions: [{column: age, operator: ">=", value: 18}]}] *)
Definition adults_only : Transform :=
  mkTransform (Some "filter_rows") None None
              (Some [cond "age" ">=" (Scalar (VInt 18))])
              None None None None None None.

(** [{type: drop_columns, columns: [age, salary]}] *)
Definition drop_age_salary : Transform :=
  mkTransform (Some "drop_columns") (Some ["age"; "salary"]) None None
              None None None None None None.

(** [{file_path: out/people.csv}] *)
Definition csv_destination : DestinationConfig :=
  mkDestinationConfig (Some "out/people.csv") None None None None None None
                      None None None None None None None.

(** An API destination with the given method and batch size. *)
Definition api_destination (method : option string) (batch_size : Z)
  : DestinationConfig :=
  mkDestinationConfig None None None None None None None None None None
                      (Some "https://example.org/rows") method None (Some batch_size).

(** A CSV-to-CSV pipeline with the given checks and validation policy. *)
Definition pipeline (checks : list Check) (stop : option bool) : ETLConfig :=
  mkETLConfig "csv" [] "csv" csv_destination
              (mkTransformationConfig None)
              (mkPipelineConfig stop)
              (mkValidationConfig (Some checks)).

(** [{type: drop_columns, columns: [salary]}] *)
Definition drop_salary : Transform :=
  mkTransform (Some "drop_columns") (Some ["salary"]) None None
              None None None None None None.

(** A pipeline whose source type [extract] does not support. *)
Definition kafka_pipeline : ETLConfig :=
  mkETLConfig "kafka" [] "csv" csv_destination
              (mkTransformationConfig None)
              (mkPipelineConfig None)
              (mkValidationConfig None).


(** Two checks the table passes. *)
Definition sound_checks : list Check :=
  [check "not_null" ["age"]; check "unique" ["id"]].

(** Two checks, the first on a column the table does not have. *)
Definition checks_on_missing_column : list Check :=
  [check "not_null" ["salary"]; check "not_null" ["id"]].


(** The world before anything has run, with [people] at the source. *)
Definition start : World := world_of people [].

(** An API that accepts the first batch and rejects the second. *)
Definition second_batch_rejected : World := world_of nobody [200; 500; 200]%Z.

(** A migration in pages of two rows, with no transformation rule. *)
Definition copy_config : Config := mkConfig 2 [].

(** [{type: rename_columns, mapping: {age: years, salary: pay}}] *)
Definition rename_age : Transform :=
  mkTransform (Some "rename_columns") None (Some [("age", "years"); ("salary", "pay")])
              None None None None None None None.

(** [{type: clean_data, operations: ...}] *)
Definition clean (operations : Operations) : Transform :=
  mkTransform (Some "clean_data") None None None (Some operations)
              None None None None None.

(** The three people, the first one entered twice. *)
Definition people_twice : DataFrame :=
  mkDF ["id"; "age"]
       [[VInt 1; VInt 15]; [VInt 2; VInt 18]; [VInt 1; VInt 15]; [VInt 3; VInt 22]].

(** The age filter, with a condition of unknown operator on a column the
    table lacks put before or after it. *)
Definition between_salaries : Condition :=
  cond "salary" "between" (Seq [VInt 1000; VInt 2000]).

(** [{column: salary, operator: is_null}]: an unknown operator, and no
    [value]. *)
Definition salary_is_null : Condition :=
  mkCondition (Some "salary") (Some "is_null") None.

Definition filter_by (conditions : list Condition) : Transform :=
  mkTransform (Some "filter_rows") None None (Some conditions)
              None None None None None None.

(** A destination dict with no key at all. *)
Definition empty_destination : DestinationConfig :=
  mkDestinationConfig None None None None None None None None None None
                      None None None None.

(** The configuration file of the examples. *)
Definition pipeline_yaml : ConfigData :=
  mkConfigData (Some (mkEndpoint (Some "csv") (Some [])))
               (Some (mkEndpoint (Some "csv") (Some csv_destination)))
               None None None.

(** A file system with that one file. *)
#[export] Instance files : Files World := {|
  fs_load_yaml := fun config_file =>
    if config_file == "pipeline.yaml" then ret_M pipeline_yaml
    else raise (Exception ("[Errno 2] No such file or directory: '"
                           +++ config_file +++ "'"))
|}.

(** [--config missing.yaml] *)
Definition missing_config_args : Args := mkArgs "missing.yaml" None None false.

(** [--config pipeline.yaml] *)
Definition plain_args : Args := mkArgs "pipeline.yaml" None None false.

(** [--config pipeline.yaml --source kafka --dry-run] *)
Definition dry_run_args : Args :=
  mkArgs "pipeline.yaml" (Some "kafka") None true.

(** A migration with a rule for a column the table does not have. *)
Definition salary_rule_config : Config :=
  mkConfig 2 [("people",
               [("salary", [mkRule (Some "default_value") None None None
                                   (Some (VInt 0))])])].

(** A migration with a rule that has no [type], for a column the table
    has. *)
Definition untyped_rule_config : Config :=
  mkConfig 2 [("people", [("age", [mkRule None None None None None])])].

(** A migration whose batch size is 0: every page it reads is empty. *)
Definition zero_batch_config : Config := mkConfig 0 [].

(** Two sampled documents that disagree on the type of [age]. *)
Definition people_docs : list document :=
  [[("_id", "ObjectId"); ("name", "str"); ("age", "int")];
   [("_id", "ObjectId"); ("age", "str"); ("email", "str")]].

(** The schema of one SQL table. *)
Definition people_schema : Schema :=
  [("people",
    mkTableInfo (Some [mkColumnInfo "id" "INTEGER"; mkColumnInfo "joined" "TIMESTAMP"])
                None None)].

(** Connections that always succeed.  The source has the table (or the
    collection) [people]; the target has it once something has been
    stored; a collection must have a name. *)
#[export] Instance engine : Engine World := {|
  en_connect := fun _ _ w => (Ret tt, w);
  en_inspect := fun _ w => (Ret tt, w);
  en_table_names := fun side w =>
    (Ret (if side == "source" then ["people"]
          else match stored w with
               | [] => []
               | _ :: _ => ["people"]
               end), w);
  en_describe := fun _ w =>
    (Ret (map (fun c => mkColumnInfo c "INTEGER") (columns (source w))), w);
  en_target_count := fun _ w =>
    (Ret (Z.of_nat (list_sum (map len (stored w)))), w);
  en_create_all := fun _ w => (Ret tt, w);
  en_collection_names := fun w => (Ret ["people"; "drafts"], w);
  en_sample := fun name w => (Ret (if name == "people" then people_docs else []), w);
  en_count_documents := fun _ w => (Ret (Z.of_nat (len (source w))), w);
  en_collection := fun name w =>
    ((if name == "" then Raise (Exception "collection names cannot be empty")
      else Ret tt), w);
  en_insert_many := fun _ _ w => (Ret tt, w);
  en_set_order := fun names => nodup string_dec names
|}.

End Sample.

(* ===================================================================== *)
(** ** Properties of the ETL pipeline                                     *)
(* ===================================================================== *)

Import ETL.

(** *** Lists of flags *)

Lemma keep_cells_all_true {A} (keep : list bool) (l : list A) :
  forallb (fun b => b) keep = true -> keep_cells keep l = l.
Proof.
  revert l; induction keep as [|b keep IH]; intros l H; [reflexivity|].
  simpl in H. apply andb_true_iff in H as [Hb Hk]. subst b.
  destruct l as [|x l]; [reflexivity|]. simpl. now rewrite IH.
Qed.

Lemma keep_cells_map_filter {A} (f : A -> bool) (l : list A) :
  keep_cells (map f l) l = filter f l.
Proof.
  induction l as [|x l IH]; [reflexivity|].
  simpl. destruct (f x); now rewrite IH.
Qed.

Lemma forallb_map_filter {A} (f : A -> bool) (l : list A) :
  forallb (fun b => b) (map f (filter f l)) = true.
Proof.
  induction l as [|x l IH]; [reflexivity|].
  simpl. destruct (f x) eqn:E; [simpl; now rewrite E|exact IH].
Qed.

Lemma map_id_ext {A} (f : A -> A) (l : list A) :
  (forall x, f x = x) -> map f l = l.
Proof.
  intros H. induction l as [|x l IH]; [reflexivity|]. simpl. now rewrite H, IH.
Qed.

(** *** drop-columns *)

Lemma df_drop_idempotent (df : DataFrame) (labels : list string) :
  df_drop (df_drop df labels) labels = df_drop df labels.
Proof.
  set (f := fun c : string => negb (mem c labels)).
  assert (Hall : forallb (fun b => b) (map f (columns (df_drop df labels))) = true).
  { unfold df_drop. cbn [columns]. fold f. rewrite keep_cells_map_filter.
    apply forallb_map_filter. }
  revert Hall. generalize (df_drop df labels). intros [cols' rs'] Hall.
  unfold df_drop. cbn [columns rows] in *. fold f. f_equal.
  - now apply keep_cells_all_true.
  - apply map_id_ext. intros r. now apply keep_cells_all_true.
Qed.

Lemma df_drop_absent (df : DataFrame) (labels : list string) :
  forallb (fun c => negb (mem c (columns df))) labels = true ->
  df_drop df labels = df.
Proof.
  intros H.
  assert (Hall : forallb (fun b => b)
                   (map (fun c => negb (mem c labels)) (columns df)) = true).
  { rewrite forallb_forall. intros b Hb. apply in_map_iff in Hb as (c & <- & Hc).
    apply negb_true_iff. unfold mem. apply not_true_iff_false. intros Hex.
    apply existsb_exists in Hex as (l & Hl & Heq).
    apply String.eqb_eq in Heq. subst l.
    rewrite forallb_forall in H. specialize (H c Hl).
    apply negb_true_iff in H. unfold mem in H.
    assert (existsb (String.eqb c) (columns df) = true) as Hc'
      by (apply existsb_exists; exists c; split; [exact Hc|apply String.eqb_refl]).
    congruence. }
  unfold df_drop. destruct df as [cols rs]. cbn [columns rows] in *. f_equal.
  - now apply keep_cells_all_true.
  - apply map_id_ext. intros r. now apply keep_cells_all_true.
Qed.

Lemma mem_filter (f : string -> bool) (c : string) (l : list string) :
  f c = true -> mem c (filter f l) = mem c l.
Proof.
  intros Hc. unfold mem. induction l as [|x l IH]; [reflexivity|].
  cbn. destruct (f x) eqn:Hx; cbn; [now rewrite IH|].
  destruct (String.eqb_spec c x) as [->|_]; [congruence|exact IH].
Qed.

Lemma mem_In (c : string) (l : list string) : In c l -> mem c l = true.
Proof.
  intros H. unfold mem. apply existsb_exists. exists c.
  split; [exact H|apply String.eqb_refl].
Qed.

(** Only the labels that name a column matter to [drop]. *)
Lemma df_drop_present (df : DataFrame) (labels : list string) :
  df_drop df labels = df_drop df (filter (fun c => mem c (columns df)) labels).
Proof.
  unfold df_drop.
  assert (E : map (fun c => negb (mem c labels)) (columns df)
              = map (fun c => negb (mem c (filter (fun c => mem c (columns df)) labels)))
                    (columns df)).
  { apply map_ext_in. intros c Hc. f_equal. symmetry.
    apply mem_filter with (f := fun c => mem c (columns df)). now apply mem_In. }
  now rewrite E.
Qed.

(** C6.  Dropping a column list twice gives the batch that dropping it once
    gives (also when the step raises for want of its [columns] key).  A
    label that names no column of the batch is ignored: the step drops
    exactly the listed labels the batch has, and a list naming only absent
    columns returns the batch itself, without raising. *)
Theorem drop_columns_idempotent (df : DataFrame) (config : Transform) :
  (df' <- _drop_columns df config ;; _drop_columns df' config)
    = _drop_columns df config
  /\ (forall labels,
        t_columns config = Some labels ->
        _drop_columns df config
        = Ret (df_drop df (filter (fun c => mem c (columns df)) labels)))
  /\ (forall labels,
        t_columns config = Some labels ->
        forallb (fun c => negb (mem c (columns df))) labels = true ->
        _drop_columns df config = Ret df).
Proof.
  unfold _drop_columns. split; [|split].
  - destruct (t_columns config) as [labels|]; cbn; [|reflexivity].
    now rewrite df_drop_idempotent.
  - intros labels ->. cbn. now rewrite <- df_drop_present.
  - intros labels -> H. cbn. now rewrite df_drop_absent.
Qed.

(** *** filter-rows *)

Section FilterRows.

Context {pd : Pandas}.

Lemma select_mapM {A} (f : value -> outcome bool) (g : A -> value) (l : list A) m :
  mapM f (map g l) = Ret m ->
  select m l = filter (fun r => match f (g r) with Ret b => b | Raise _ => false end) l.
Proof.
  revert m; induction l as [|x l IH]; intros m H; simpl in H |- *.
  - now inversion H.
  - destruct (f (g x)) as [b|e]; [|discriminate].
    destruct (mapM f (map g l)) as [bs|e]; [|discriminate].
    inversion H; subst m. simpl. rewrite (IH bs eq_refl). reflexivity.
Qed.

Lemma select_map {A} (h : A -> bool) (l : list A) :
  select (map h l) l = filter h l.
Proof.
  induction l as [|x l IH]; [reflexivity|]. simpl. now rewrite IH.
Qed.

Lemma series_inv (df : DataFrame) (c : string) (s : list value) :
  series df c = Ret s ->
  exists i, index_of c (columns df) = Some i
            /\ s = map (fun r => nth i r VNull) (rows df).
Proof.
  unfold series. destruct (index_of c (columns df)) as [i|]; [|discriminate].
  intros H; inversion H. now exists i.
Qed.

(** The six comparison branches of [filter_condition] are proved alike:
    invert the series lookup, then read the mask off [mapM]. *)
Ltac filter_compare H :=
  let s := fresh "s" in let m := fresh "m" in let i := fresh "i" in
  let Hs := fresh "Hs" in let Hm := fresh "Hm" in let Hi := fresh "Hi" in
  cbn in H;
  match type of H with
  | context [series ?df ?c] =>
      destruct (series df c) as [s|] eqn:Hs; [|discriminate];
      apply series_inv in Hs as (i & Hi & ->); cbn in H; rewrite Hi
  end;
  match type of H with
  | context [mapM ?f ?l] =>
      destruct (mapM f l) as [m|] eqn:Hm; [|discriminate];
      inversion H; subst; split; [reflexivity|];
      cbn [rows df_mask]; now rewrite (select_mapM _ _ _ _ Hm)
  end.

(** One condition keeps exactly the rows that satisfy it. *)
Lemma filter_condition_spec (df df' : DataFrame) (c : Condition) :
  condition_ok c = true ->
  filter_condition df c = Ret df' ->
  columns df' = columns df
  /\ rows df' = filter (holds (columns df) c) (rows df).
Proof.
  unfold condition_ok, filter_condition, holds, cmp_of_operator, cell.
  destruct c as [[col|] [op|] [v|]]; cbn [column operator value_];
    try discriminate.
  intros Hok H. cbn [getitem bind Monad_outcome bind_outcome] in H.
  destruct (op == "==") eqn:E1;
    [destruct v as [v|l]; [filter_compare H|discriminate]|].
  destruct (op == "!=") eqn:E2;
    [destruct v as [v|l]; [filter_compare H|discriminate]|].
  destruct (op == ">") eqn:E3;
    [destruct v as [v|l]; [filter_compare H|discriminate]|].
  destruct (op == "<") eqn:E4;
    [destruct v as [v|l]; [filter_compare H|discriminate]|].
  destruct (op == ">=") eqn:E5;
    [destruct v as [v|l]; [filter_compare H|discriminate]|].
  destruct (op == "<=") eqn:E6;
    [destruct v as [v|l]; [filter_compare H|discriminate]|].
  destruct v as [v|l]; [discriminate|].
  destruct (op == "in") eqn:E7.
  - cbn in H. destruct (series df col) as [s|] eqn:Hs; [|discriminate].
    apply series_inv in Hs as (i & Hi & ->). cbn in H. inversion H; subst.
    rewrite Hi. split; [reflexivity|]. cbn [rows df_mask].
    rewrite map_map. apply select_map.
  - destruct (op == "not_in") eqn:E8; [|discriminate].
    cbn in H. destruct (series df col) as [s|] eqn:Hs; [|discriminate].
    apply series_inv in Hs as (i & Hi & ->). cbn in H. inversion H; subst.
    rewrite Hi. split; [reflexivity|]. cbn [rows df_mask].
    rewrite !map_map. apply select_map.
Qed.

Lemma filter_filter {A} (f g : A -> bool) (l : list A) :
  filter g (filter f l) = filter (fun x => andb (f x) (g x)) l.
Proof.
  induction l as [|x l IH]; [reflexivity|].
  simpl. destruct (f x); simpl; [destruct (g x)|]; now rewrite IH.
Qed.

Lemma filter_conditions_spec (conds : list Condition) (df df' : DataFrame) :
  forallb condition_ok conds = true ->
  filter_conditions df conds = Ret df' ->
  columns df' = columns df
  /\ rows df'
     = filter (fun r => forallb (fun c => holds (columns df) c r) conds) (rows df).
Proof.
  revert df; induction conds as [|c conds IH]; intros df Hok H.
  - inversion H; subst. split; [reflexivity|].
    cbn. induction (rows df') as [|r l IHl]; [reflexivity|]. cbn. now f_equal.
  - cbn in Hok. apply andb_true_iff in Hok as [Hc Hcs].
    cbn [filter_conditions bind Monad_outcome bind_outcome] in H.
    destruct (filter_condition df c) as [df1|] eqn:H1; [|discriminate].
    destruct (filter_condition_spec _ _ _ Hc H1) as [Hcols Hrows].
    destruct (IH df1 Hcs H) as [Hcols' Hrows'].
    split; [congruence|].
    rewrite Hrows', Hrows, Hcols, filter_filter. reflexivity.
Qed.

(** C4.  On a batch whose column labels are distinct (its rows are
    mappings from column name to value), when a filter step over
    well-formed conditions returns, the columns are unchanged and the
    output rows are exactly the input rows that satisfy every condition,
    in their order: each output row is an input row satisfying all of
    them, and an input row failing one is not in the output. *)
Theorem filter_rows_conjunction (df df' : DataFrame) (config : Transform)
    (conds : list Condition) :
  NoDup (columns df) ->
  t_conditions config = Some conds ->
  forallb condition_ok conds = true ->
  _filter_rows df config = Ret df' ->
  columns df' = columns df
  /\ rows df'
     = filter (fun r => forallb (fun c => holds (columns df) c r) conds) (rows df)
  /\ (forall r, In r (rows df') ->
        In r (rows df) /\ forall c, In c conds -> holds (columns df) c r = true)
  /\ (forall r c, In r (rows df) -> In c conds ->
        holds (columns df) c r = false -> ~ In r (rows df')).
Proof.
  intros _ Hc Hok H. unfold _filter_rows in H. rewrite Hc in H.
  cbn [getitem bind Monad_outcome bind_outcome] in H.
  destruct (filter_conditions_spec _ _ _ Hok H) as [Hcols Hrows].
  split; [exact Hcols|]. split; [exact Hrows|]. split.
  - intros r Hr. rewrite Hrows in Hr. apply filter_In in Hr as [Hin Hall].
    split; [exact Hin|]. intros c Hcin.
    rewrite forallb_forall in Hall. now apply Hall.
  - intros r c Hin Hcin Hf Hr. rewrite Hrows in Hr.
    apply filter_In in Hr as [_ Hall]. rewrite forallb_forall in Hall.
    specialize (Hall c Hcin). congruence.
Qed.

End FilterRows.

(** *** convert-types *)

Section ConvertTypes.

Context {World : Type} {pd : Pandas} {io : IO World}.

Lemma mem_index_of (c : string) (cols : list string) :
  mem c cols = true <-> exists i, index_of c cols = Some i.
Proof.
  induction cols as [|c' cols IH]; cbn.
  - split; [discriminate|intros [i H]; discriminate].
  - destruct (c == c'); cbn.
    + split; [now exists 0|reflexivity].
    + rewrite IH. split; intros [i H].
      * exists (S i). now rewrite H.
      * destruct (index_of c cols) as [j|]; [now exists j|discriminate].
Qed.


Lemma mem_series (df : DataFrame) (c : string) :
  mem c (columns df) = true -> exists s, series df c = Ret s.
Proof.
  intros H. apply mem_index_of in H as [i Hi].
  unfold series. rewrite Hi. eauto.
Qed.


(** One mapping entry never raises and leaves the world alone. *)
Lemma convert_column_returns (df : DataFrame) (column dtype : string) (w : World) :
  exists df' t, convert_column df column dtype w = (Ret df', w, t).
Proof.
  unfold convert_column.
  destruct (mem column (columns df)) eqn:Hm; [|cbn; unfold ret_M; eauto].
  destruct (mem_series _ _ Hm) as [s Hs].
  unfold try_except. cbn. unfold bind_M, lift. rewrite Hs.
  destruct (dtype == "datetime").
  - destruct (pd_to_datetime s); cbn; eauto.
  - destruct (dtype == "numeric"); [cbn; eauto|].
    destruct (pd_astype dtype s); cbn; eauto.
Qed.


Lemma df_assign_columns (df : DataFrame) (column : string) (s : list value) :
  mem column (columns df) = true -> columns (df_assign df column s) = columns df.
Proof.
  intros H. apply mem_index_of in H as [i Hi]. unfold df_assign. now rewrite Hi.
Qed.

(** One mapping entry leaves the labels as they are. *)
Lemma convert_column_columns (df df' : DataFrame) (column dtype : string)
    (w w' : World) t :
  convert_column df column dtype w = (Ret df', w', t) -> columns df' = columns df.
Proof.
  unfold convert_column.
  destruct (mem column (columns df)) eqn:Hm;
    [|cbn; unfold ret_M; intros H; now inversion H].
  destruct (mem_series _ _ Hm) as [s Hs].
  unfold try_except. cbn. unfold bind_M, lift. rewrite Hs.
  destruct (dtype == "datetime").
  - destruct (pd_to_datetime s); cbn; intros H; inversion H; subst;
      [now apply df_assign_columns|reflexivity].
  - destruct (dtype == "numeric");
      [cbn; intros H; inversion H; subst; now apply df_assign_columns|].
    destruct (pd_astype dtype s); cbn; intros H; inversion H; subst;
      [now apply df_assign_columns|reflexivity].
Qed.

Lemma convert_columns_columns (type_mapping : list (string * string))
    (df df' : DataFrame) (w w' : World) t :
  convert_columns df type_mapping w = (Ret df', w', t) -> columns df' = columns df.
Proof.
  revert df w' t; induction type_mapping as [|[column dtype] rest IH];
    intros df w' t.
  - cbn. unfold ret_M. intros H. now inversion H.
  - destruct (convert_column_returns df column dtype w) as (df1 & t1 & H1).
    cbn [convert_columns bind Monad_M]. unfold bind_M. rewrite H1.
    destruct (convert_columns df1 rest w) as [[r w2] t2] eqn:H2.
    intros H. assert (r = Ret df') by congruence. subst r.
    rewrite (IH _ _ _ H2). exact (convert_column_columns _ _ _ _ _ _ _ H1).
Qed.




End ConvertTypes.

(** *** Running effectful code *)

Section Running.

Context {World : Type}.

Lemma try_except_returns {A} (body : M World A) handler w a w1 t1 :
  body w = (Ret a, w1, t1) -> try_except body handler w = (Ret a, w1, t1).
Proof. intros H. unfold try_except. now rewrite H. Qed.

Lemma try_except_raises {A} (body : M World A) handler w e w1 t1 :
  body w = (Raise e, w1, t1) ->
  try_except body handler w
  = (let '(r, w2, t2) := handler e w1 in (r, w2, t1 ++ t2)).
Proof. intros H. unfold try_except. now rewrite H. Qed.

(** A handler that logs and returns a value makes the call return. *)
Lemma try_except_total {A} (body : M World A) (msg : exn -> string) (a0 : A) w :
  exists a w1 t1,
    try_except body (fun e => log ERROR (msg e) ;; ret a0) w = (Ret a, w1, t1).
Proof.
  unfold try_except. destruct (body w) as [[[a|e] w1] t1]; cbn; eauto.
Qed.

End Running.

(** *** Unknown kinds *)

Section UnknownKinds.

Context {World : Type} {pd : Pandas} {io : IO World}.


Lemma apply_transforms_app (l1 l2 : list Transform) (df : DataFrame) w :
  apply_transforms df (l1 ++ l2) w
  = (df1 <- apply_transforms df l1 ;; apply_transforms df1 l2) w.
Proof.
  revert df w; induction l1 as [|s l1 IH]; intros df w.
  - cbn [apply_transforms app bind ret Monad_M]. unfold bind_M, ret_M.
    destruct (apply_transforms df l2 w) as [[r w'] t]. reflexivity.
  - cbn [apply_transforms app bind ret Monad_M]. unfold bind_M.
    destruct (apply_transform df s w) as [[[df1|e] w1] t1]; [|reflexivity].
    rewrite IH. cbn [bind Monad_M]. unfold bind_M.
    destruct (apply_transforms df1 l1 w1) as [[[df2|e] w2] t2]; [|reflexivity].
    destruct (apply_transforms df2 l2 w2) as [[r w3] t3].
    now rewrite app_assoc.
Qed.



End UnknownKinds.

(** *** The validation loop *)

Lemma merge_no_report_r (r : Report) : merge r no_report = r.
Proof.
  destruct r as [p rs es]. unfold merge. cbn.
  now rewrite andb_true_r, !app_nil_r.
Qed.

Lemma merge_no_report_l (r : Report) : merge no_report r = r.
Proof. destruct r as [p rs es]. reflexivity. Qed.

Lemma merge_assoc (a b c : Report) : merge (merge a b) c = merge a (merge b c).
Proof.
  unfold merge. cbn. now rewrite andb_assoc, <- !app_assoc.
Qed.

Section Validation.

Context {World : Type} {pd : Pandas} {io : IO World}.

Lemma validate_loop_step (df : DataFrame) (c : Check) (rest : list Check)
    (acc : Report) w :
  validate_loop df (c :: rest) acc w
  = match run_check df c w with
    | (Raise e, w1, t1) => (Ret (acc, Some e), w1, t1)
    | (Ret (ty, b), w1, t1) =>
        let '(r, w2, t2) :=
          validate_loop df rest (merge acc (entry_report io_repr_check ty b c)) w1 in
        (r, w2, t1 ++ t2)
    end.
Proof.
  cbn [validate_loop bind Monad_M]. unfold bind_M, attempt.
  destruct (run_check df c w) as [[[[ty b]|e] w1] t1];
    [|cbn [ret Monad_M]; unfold ret_M; now rewrite app_nil_r].
  destruct acc as [p rs es]. unfold merge, entry_report. cbn [passed results errors].
  destruct b; cbn [negb]; [now rewrite andb_true_r, app_nil_r|].
  now rewrite andb_false_r.
Qed.

(** The loop always returns, and what it adds does not depend on the
    report it starts from. *)
Lemma validate_loop_acc (df : DataFrame) (l : list Check) (acc : Report) w :
  exists rep oe w' t,
    validate_loop df l no_report w = (Ret (rep, oe), w', t)
    /\ validate_loop df l acc w = (Ret (merge acc rep, oe), w', t).
Proof.
  revert acc w; induction l as [|c rest IH]; intros acc w.
  - exists no_report, None, w, []. split; [reflexivity|].
    now rewrite merge_no_report_r.
  - rewrite !validate_loop_step.
    destruct (run_check df c w) as [[[[ty b]|e] w1] t1].
    + set (E := entry_report io_repr_check ty b c).
      destruct (IH (merge no_report E) w1) as (rep & oe & w' & t & H0 & H1).
      destruct (IH (merge acc E) w1) as (rep' & oe' & w'' & t' & H0' & H2).
      rewrite H0 in H0'. inversion H0'; subst rep' oe' w'' t'.
      exists (merge E rep), oe, w', (t1 ++ t). rewrite H1, H2.
      rewrite merge_no_report_l, merge_assoc. split; reflexivity.
    + exists no_report, (Some e), w1, t1. split; [reflexivity|].
      now rewrite merge_no_report_r.
Qed.

Lemma validate_loop_app (df : DataFrame) (l1 l2 : list Check) (acc : Report) w :
  validate_loop df (l1 ++ l2) acc w
  = (r <- validate_loop df l1 acc ;;
     match r with
     | (acc', None) => validate_loop df l2 acc'
     | (acc', Some e) => ret (acc', Some e)
     end) w.
Proof.
  revert acc w; induction l1 as [|c l1 IH]; intros acc w.
  - cbn [app validate_loop bind ret Monad_M]. unfold bind_M, ret_M.
    destruct (validate_loop df l2 acc w) as [[r w'] t]. reflexivity.
  - cbn [app]. rewrite validate_loop_step.
    cbn [bind Monad_M]. unfold bind_M. rewrite validate_loop_step.
    destruct (run_check df c w) as [[[[ty b]|e] w1] t1].
    + rewrite IH. cbn [bind Monad_M]. unfold bind_M.
      destruct (validate_loop df l1 _ w1) as [[[[acc' [e|]]|e] w2] t2].
      * cbn [ret Monad_M]. unfold ret_M. now rewrite app_assoc.
      * destruct (validate_loop df l2 acc' w2) as [[r w3] t3].
        now rewrite app_assoc.
      * reflexivity.
    + cbn [ret Monad_M]. unfold ret_M. now rewrite app_nil_r.
Qed.

Lemma evaluated_length (df : DataFrame) checks w rs w' t :
  evaluated df checks w rs w' t ->
  List.length rs = List.length checks /\ map r_config rs = checks.
Proof.
  induction 1 as [|c cs w ty b w1 t1 rs w2 t2 _ _ [IHl IHc]]; [now split|].
  cbn. now rewrite IHl, IHc.
Qed.

Lemma merge_entry_report_of repr ty b c rs :
  merge (entry_report repr ty b c) (report_of repr rs)
  = report_of repr (mkCheckResult ty b c :: rs).
Proof. unfold merge, entry_report, report_of. cbn. now destruct b. Qed.

Lemma validate_loop_no_raise (df : DataFrame) (checks : list Check) (acc : Report) w :
  never_raise df checks ->
  exists rs w' t,
    evaluated df checks w rs w' t
    /\ validate_loop df checks acc w
       = (Ret (merge acc (report_of io_repr_check rs), None), w', t).
Proof.
  revert acc w; induction checks as [|c rest IH]; intros acc w Hnr.
  - exists [], w, []. split; [constructor|].
    cbn. unfold ret_M. now rewrite merge_no_report_r.
  - rewrite validate_loop_step.
    pose proof (Hnr c (or_introl eq_refl) w) as Hc.
    destruct (run_check df c w) as [[[[ty b]|e] w1] t1] eqn:Hrun; [|discriminate].
    destruct (IH (merge acc (entry_report io_repr_check ty b c)) w1)
      as (rs & w2 & t2 & Hev & Hloop).
    { intros c' Hin. apply Hnr. now right. }
    exists (mkCheckResult ty b c :: rs), w2, (t1 ++ t2). split.
    + econstructor; eassumption.
    + rewrite Hloop. now rewrite merge_assoc, merge_entry_report_of.
Qed.

Lemma validate_loop_evaluated (df : DataFrame) (l : list Check) w rs w1 t1 :
  evaluated df l w rs w1 t1 ->
  forall acc,
    validate_loop df l acc w
    = (Ret (merge acc (report_of io_repr_check rs), None), w1, t1).
Proof.
  induction 1 as [w|c cs w ty b w1 t1 rs w2 t2 Hrun _ IH]; intros acc.
  - cbn. unfold ret_M. change (report_of io_repr_check []) with no_report.
    now rewrite merge_no_report_r.
  - rewrite validate_loop_step, Hrun, IH.
    now rewrite merge_assoc, merge_entry_report_of.
Qed.

(** A check that raises ends the loop: the report keeps the verdicts
    recorded before it, gains the exception's text as an error, and
    fails. *)
Lemma validate_raising (df : DataFrame) (pre post : list Check) (c : Check)
    w rs w1 t1 e w2 t2 :
  evaluated df pre w rs w1 t1 ->
  run_check df c w1 = (Raise e, w2, t2) ->
  validate df (mkValidationConfig (Some (pre ++ c :: post))) w
  = (Ret (mkReport false rs (errors (report_of io_repr_check rs) ++ [str_exn e])),
     w2, (t1 ++ t2) ++ [Log ERROR ("Validation error: " +++ str_exn e)]).
Proof.
  intros Hev Hrun. unfold validate. cbn [ETL.checks get bind Monad_M].
  unfold bind_M at 1. rewrite validate_loop_app.
  cbn [bind Monad_M]. unfold bind_M at 1.
  rewrite (validate_loop_evaluated df pre w rs w1 t1 Hev).
  rewrite validate_loop_step, Hrun. reflexivity.
Qed.

(** C3, as the code has it.  When no check of the list raises, [validate]
    runs every one of the N checks, in order and whatever the earlier
    verdicts, reports exactly N results, each the verdict of its own check,
    and the overall flag is false exactly when some result is a failure.
    When a check raises, the checks after it are not run: the report has
    the results recorded before it and fails. *)
Theorem validate_runs_every_check (df : DataFrame) (checks : list Check) (w : World) :
  (never_raise df checks ->
   exists rs w' t,
     evaluated df checks w rs w' t
     /\ validate df (mkValidationConfig (Some checks)) w
        = (Ret (report_of io_repr_check rs), w',
           t ++ [Log INFO ("Data validation completed: "
                           +++ str_nat (List.length rs) +++ " checks")])
     /\ List.length rs = List.length checks
     /\ map r_config rs = checks
     /\ (passed (report_of io_repr_check rs) = false
         <-> exists r, In r rs /\ r_passed r = false))
  /\ (forall pre c post rs w1 t1 e w2 t2,
        checks = pre ++ c :: post ->
        evaluated df pre w rs w1 t1 ->
        run_check df c w1 = (Raise e, w2, t2) ->
        validate df (mkValidationConfig (Some checks)) w
        = (Ret (mkReport false rs
                         (errors (report_of io_repr_check rs) ++ [str_exn e])),
           w2, (t1 ++ t2) ++ [Log ERROR ("Validation error: " +++ str_exn e)])
        /\ List.length rs = List.length pre).
Proof.
  split.
  - intros Hnr.
    destruct (validate_loop_no_raise df checks (mkReport true [] []) w Hnr)
      as (rs & w' & t & Hev & Hloop).
    exists rs, w', t. split; [exact Hev|].
    destruct (evaluated_length _ _ _ _ _ _ Hev) as [Hlen Hcfg].
    split; [|split; [exact Hlen|split; [exact Hcfg|]]].
    + unfold validate. cbn [ETL.checks get bind Monad_M]. unfold bind_M.
      rewrite Hloop. fold no_report. rewrite merge_no_report_l. reflexivity.
    + cbn [passed report_of]. split.
      * intros Hf. destruct (forallb r_passed rs) eqn:E; [discriminate|].
        clear - E. induction rs as [|r rs IH]; [discriminate|].
        cbn in E. destruct (r_passed r) eqn:Er.
        -- destruct (IH E) as (r' & Hin & Hr').
           exists r'. split; [now right|exact Hr'].
        -- exists r. split; [now left|exact Er].
      * intros (r & Hin & Hr). apply not_true_iff_false. intros Hall.
        rewrite forallb_forall in Hall. specialize (Hall r Hin). congruence.
  - intros pre c post rs w1 t1 e w2 t2 -> Hev Hrun. split.
    + exact (validate_raising df pre post c w rs w1 t1 e w2 t2 Hev Hrun).
    + now destruct (evaluated_length _ _ _ _ _ _ Hev).
Qed.







Lemma transform_run (df : DataFrame) (l : list Transform) w r w' t :
  apply_transforms df l w = (r, w', t) ->
  transform df (mkTransformationConfig (Some l)) w
  = (r, w', Log INFO "Starting data transformation" :: t ++ transform_tail r).
Proof.
  intros H. unfold transform, try_except.
  cbn [transformations get bind ret Monad_M]. unfold bind_M.
  cbn [log]. rewrite H. destruct r as [df'|e]; reflexivity.
Qed.


End Validation.

(** *** Loading to an API *)

Lemma range0_positive (n step : Z) :
  (0 < step)%Z -> range0 n step = Ret (batch_starts n step).
Proof.
  intros H. unfold range0.
  destruct (Z.eqb_spec step 0); [lia|]. destruct (Z.ltb_spec step 0); [lia|].
  reflexivity.
Qed.

Lemma slice_chunk {A} (l : list A) (k : nat) (bs : Z) :
  (0 < bs)%Z ->
  slice l (Z.of_nat k * bs) (Z.of_nat k * bs + bs)
  = firstn (Z.to_nat bs) (skipn (k * Z.to_nat bs) l).
Proof.
  intros H. unfold slice. f_equal; [f_equal; lia|]. f_equal. nia.
Qed.

Lemma concat_chunks {A} (n m : nat) (l : list A) :
  List.length l <= m * n ->
  List.concat (map (fun k => firstn n (skipn (k * n) l)) (seq 0 m)) = l.
Proof.
  revert l; induction m as [|m IH]; intros l H.
  - destruct l; [reflexivity|cbn in H; lia].
  - cbn [seq map List.concat]. rewrite <- seq_shift, map_map. cbn [Nat.mul skipn].
    transitivity (firstn n l ++ skipn n l); [|apply firstn_skipn]. f_equal.
    rewrite <- (IH (skipn n l)) by (rewrite length_skipn; lia).
    apply f_equal, map_ext. intros k. f_equal.
    rewrite skipn_skipn. f_equal. lia.
Qed.

Lemma ceil_bounds (L bs : Z) :
  (0 <= L)%Z -> (0 < bs)%Z ->
  let q := ((L + bs - 1) / bs)%Z in
  (0 <= q /\ L <= bs * q /\ (0 < L -> bs * (q - 1) < L))%Z.
Proof.
  intros HL Hbs q.
  pose proof (Z.div_mod (L + bs - 1) bs ltac:(lia)) as Hdm.
  pose proof (Z.mod_pos_bound (L + bs - 1) bs Hbs) as Hmod.
  fold q in Hdm. assert (0 <= q)%Z by (apply Z.div_pos; lia).
  repeat split; nia.
Qed.

(** The batches partition the records, in order, into runs of
    [batch_size] rows; only the last may be shorter, and none is empty. *)
Lemma api_batches_shape (records : list record) (bs : Z) :
  (0 < bs)%Z ->
  List.concat (api_batches records bs) = records
  /\ forall k, k < List.length (api_batches records bs) ->
       0 < List.length (nth k (api_batches records bs) [])
       /\ List.length (nth k (api_batches records bs) []) <= Z.to_nat bs
       /\ (S k < List.length (api_batches records bs) ->
           List.length (nth k (api_batches records bs) []) = Z.to_nat bs).
Proof.
  intros Hbs. unfold api_batches, batch_starts. rewrite map_map.
  set (L := List.length records).
  destruct (ceil_bounds (Z.of_nat L) bs ltac:(lia) Hbs) as (Hq0 & Hq1 & Hq2).
  set (m := Z.to_nat ((Z.of_nat L + bs - 1) / bs)) in *.
  set (n := Z.to_nat bs).
  assert (Hext : map (fun k => slice records (Z.of_nat k * bs) (Z.of_nat k * bs + bs))
                     (seq 0 m)
                 = map (fun k => firstn n (skipn (k * n) records)) (seq 0 m)).
  { apply map_ext. intros k. now apply slice_chunk. }
  rewrite Hext. split.
  - apply concat_chunks. fold L. subst m n. nia.
  - rewrite length_map, length_seq. intros k Hk.
    rewrite nth_indep with (d' := firstn n (skipn (0 * n) records))
      by (now rewrite length_map, length_seq).
    rewrite map_nth with (f := fun k => firstn n (skipn (k * n) records)).
    rewrite seq_nth by exact Hk. cbn [Nat.add].
    rewrite length_firstn, length_skipn. fold L.
    assert (0 < L) by (destruct L; [subst m; cbn in Hk; 
                         rewrite Z.div_small in Hk by lia; cbn in Hk; lia | lia]).
    assert (Hm1 : (m - 1) * n < L) by (subst m n; nia).
    assert (Hm2 : L <= m * n) by (subst m n; nia).
    repeat split; nia.
Qed.

Lemma posts_app (t t' : list event) : posts (t ++ t') = posts t ++ posts t'.
Proof. unfold posts. now rewrite flat_map_app. Qed.

Lemma posts_post (url : string) (b : list record) (r : outcome Z) (t : list event) :
  posts (HttpPost url b r :: t) = (b, r) :: posts t.
Proof. reflexivity. Qed.

Lemma posts_log (lvl : level) (msg : string) (t : list event) :
  posts (Log lvl msg :: t) = posts t.
Proof. reflexivity. Qed.

Lemma posts_nil : posts [] = [].
Proof. reflexivity. Qed.

Arguments posts : simpl never.

Section ApiLoad.

Context {World : Type} {pd : Pandas} {io : IO World}.

Lemma post_batches_spec (url method : string) (headers : list (string * string))
    (records : list record) (bs : Z) (starts : list Z) (w : World) :
  (upper method == "POST") = true ->
  let B := map (fun i => slice records i (i + bs)%Z) starts in
  exists r w' t,
    post_batches url method headers records bs starts w = (r, w', t)
    /\ w' = after_posts url headers (map fst (posts t)) w
    /\ ((r = Ret true /\ sent_all B t)
        \/ exists k bad,
             stopped_at B t k bad
             /\ r = match bad with Ret _ => Ret false | Raise e => Raise e end).
Proof.
  intros Hm. revert w. induction starts as [|i rest IH]; intros w; cbn zeta.
  - exists (Ret true), w, []. repeat split. left. now split.
  - cbn [post_batches map]. rewrite Hm.
    cbn [bind Monad_M]. unfold bind_M, post.
    set (b := slice records i (i + bs)).
    destruct (io_post url headers b w) as [r0 w1] eqn:Hp.
    assert (Hw1 : w1 = snd (io_post url headers b w)) by now rewrite Hp.
    destruct r0 as [status|e].
    + destruct (Z.eqb_spec status 200) as [->|Hne]; cbn [negb].
      * destruct (IH w1) as (r & w' & t & Hrun & Hw' & Hcases).
        rewrite Hrun. exists r, w', ([HttpPost url b (Ret 200%Z)] ++ t).
        split; [reflexivity|]. cbn [app]. rewrite posts_post. split.
        { rewrite Hw'. unfold after_posts. cbn. now rewrite <- Hw1. }
        destruct Hcases as [[-> Hall]|(k & bad & (Hk & Hposts & Hbad) & ->)].
        { left. split; [reflexivity|]. unfold sent_all in *.
          rewrite posts_post. cbn. now rewrite Hall. }
        { right. exists (S k), bad. split; [|reflexivity]. unfold stopped_at.
          rewrite posts_post, Hposts. cbn [List.length map firstn nth app].
          repeat split; [lia|exact Hbad]. }
      * cbn [log ret Monad_M]. unfold ret_M.
        eexists _, _, _. split; [reflexivity|].
        cbn [app]. rewrite posts_post, posts_log, posts_nil. split.
        { unfold after_posts. cbn. exact Hw1. }
        right. exists 0, (Ret status). split; [|reflexivity]. unfold stopped_at.
        rewrite posts_post, posts_log, posts_nil. cbn [List.length map firstn nth app].
        repeat split; [lia|]. now apply Z.eqb_neq.
    + eexists _, _, _. split; [reflexivity|].
      rewrite posts_post, posts_nil. split.
      { unfold after_posts. cbn. exact Hw1. }
      right. exists 0, (Raise e). split; [|reflexivity]. unfold stopped_at.
      rewrite posts_post, posts_nil. cbn [List.length map firstn nth app].
      repeat split. lia.
Qed.

Lemma load_api_run (df : DataFrame) (config : DestinationConfig) (u : string) w r w' t :
  url config = Some u ->
  (0 < get (batch_size config) 100)%Z ->
  post_batches u (get (method config) "POST") (get (headers config) [])
    (to_records df) (get (batch_size config) 100%Z)
    (batch_starts (Z.of_nat (List.length (to_records df)))
                  (get (batch_size config) 100%Z)) w
    = (r, w', t) ->
  _load_api df config w
  = (r, w',
     Log INFO ("Loading " +++ str_nat (len df) +++ " rows to API: " +++ u)
     :: t ++ match r with
             | Ret true => [Log INFO "API loading completed"]
             | _ => []
             end).
Proof.
  intros Hu Hbs Hrun. unfold _load_api. rewrite Hu.
  cbn [getitem lift bind Monad_M]. unfold bind_M. cbn [lift log].
  rewrite (range0_positive _ _ Hbs). rewrite Hrun.
  destruct r as [[|]|e]; cbn; unfold ret_M; now rewrite ?app_nil_r.
Qed.

Lemma posts_logs (t : list event) (l : list event) :
  (forall e, In e l -> exists lvl msg, e = Log lvl msg) -> posts (t ++ l) = posts t.
Proof.
  intros H. rewrite posts_app.
  assert (posts l = []) as ->; [|now rewrite app_nil_r].
  induction l as [|e l IH]; [reflexivity|].
  destruct (H e (or_introl eq_refl)) as (lvl & msg & ->).
  rewrite posts_log. apply IH. intros e' He'. apply H. now right.
Qed.

(** C8, as the code has it.  With the method POST (the default) and a
    positive batch size, [load] to an API posts the records in order in
    batches of [batch_size] rows (the last may be shorter), stops at the
    first batch that is not answered 200 or whose request fails, and then
    returns [False]; it returns [True] only when every batch was answered
    200.  The world it leaves is the one in which exactly the batches sent
    have been posted: nothing undoes them, and nothing is sent after the
    failure. *)
Theorem api_load_batches (df : DataFrame) (config : DestinationConfig)
    (u : string) (w : World) :
  url config = Some u ->
  (upper (get (method config) "POST") == "POST") = true ->
  (0 < get (batch_size config) 100)%Z ->
  let bs := get (batch_size config) 100%Z in
  let B := api_batches (to_records df) bs in
  exists b w' t,
    load df "api" config w = (Ret b, w', t)
    /\ w' = after_posts u (get (headers config) []) (map fst (posts t)) w
    /\ ((b = true /\ sent_all B t)
        \/ (b = false /\ exists k bad, stopped_at B t k bad))
    /\ List.concat B = to_records df
    /\ (forall k, k < List.length B ->
          0 < List.length (nth k B [])
          /\ List.length (nth k B []) <= Z.to_nat bs
          /\ (S k < List.length B -> List.length (nth k B []) = Z.to_nat bs)).
Proof.
  intros Hu Hm Hbs bs B.
  destruct (post_batches_spec u (get (method config) "POST") (get (headers config) [])
              (to_records df) bs
              (batch_starts (Z.of_nat (List.length (to_records df))) bs) w Hm)
    as (r & w' & t & Hrun & Hw' & Hcases).
  pose proof (load_api_run df config u w r w' t Hu Hbs Hrun) as Hload.
  destruct (api_batches_shape (to_records df) bs Hbs) as [Hcat Hshape].
  unfold load, try_except.
  change (load_body df "api" config) with (_load_api df config).
  rewrite Hload. fold (api_batches (to_records df) bs) in Hcases. fold B in Hcases.
  destruct Hcases as [[-> Hall]|(k & bad & Hstop & ->)].
  - eexists true, w', _. split; [reflexivity|].
    rewrite posts_log, posts_logs
      by (intros e [<-|[]]; eauto).
    repeat split; try assumption; try (now apply Hshape).
    left. split; [reflexivity|]. unfold sent_all in *.
    now rewrite posts_log, posts_logs by (intros e [<-|[]]; eauto).
  - destruct bad as [status|e].
    + eexists false, w', _. split; [reflexivity|].
      rewrite posts_log, app_nil_r.
      repeat split; try assumption; try (now apply Hshape).
      right. split; [reflexivity|]. exists k, (Ret status).
      unfold stopped_at in *. now rewrite posts_log.
    + cbn. eexists false, w', _. split; [reflexivity|].
      rewrite app_nil_r. cbn [app]. rewrite posts_log, posts_logs
        by (intros e' [<-|[]]; eauto).
      repeat split; try assumption; try (now apply Hshape).
      right. split; [reflexivity|]. exists k, (Raise e).
      unfold stopped_at in *.
      now rewrite posts_log, posts_logs by (intros e' [<-|[]]; eauto).
Qed.

End ApiLoad.

(** *** The orchestrator *)

Section Orchestrator.

Context {World : Type} {pd : Pandas} {io : IO World}.

Lemma validate_returns (df : DataFrame) (vc : ValidationConfig) (w : World) :
  exists rep w' t, validate df vc w = (Ret rep, w', t).
Proof.
  unfold validate. cbn [bind Monad_M]. unfold bind_M.
  destruct (validate_loop_acc df (get (checks vc) []) (mkReport true [] []) w)
    as (rep & oe & w' & t & H & _).
  fold no_report. rewrite H. destruct oe as [e|]; cbn; eauto.
Qed.

Lemma load_returns (df : DataFrame) (dt : string) (dc : DestinationConfig) (w : World) :
  exists b w' t, load df dt dc w = (Ret b, w', t).
Proof. unfold load. apply try_except_total. Qed.

Lemma run_body_extracted (config : ETLConfig) (w w1 : World) (df : DataFrame) t1 :
  extract (source_type config) (source_config config) w = (Ret df, w1, t1) ->
  run_body config w
  = (let '(r, w', t) :=
       (if empty df
        then (log WARNING "No data extracted, pipeline stopping" ;; ret false)
        else run_stages config (io_now w) df) w1 in
     (r, w', run_head ++ t1 ++ t)).
Proof.
  intros H. unfold run_body. cbn [bind Monad_M]. unfold bind_M, now. cbn [log].
  rewrite H. destruct (empty df); [reflexivity|].
  destruct (run_stages config (io_now w) df w1) as [[r w'] t]. reflexivity.
Qed.

(** C1.  When extraction returns an empty batch, [run] logs the warning
    that there is no data, returns [False] without raising, and does
    nothing else: the world is the one extraction left, and the trace has
    no line of the transformation, validation or loading stage and no
    error line of the run. *)
Theorem run_empty_batch (config : ETLConfig) (w w1 : World) (df : DataFrame)
    (t1 : list event) :
  extract (source_type config) (source_config config) w = (Ret df, w1, t1) ->
  empty df = true ->
  run config w
  = (Ret false, w1,
     run_head ++ t1 ++ [Log WARNING "No data extracted, pipeline stopping"]).
Proof.
  intros Hex Hempty. unfold run.
  erewrite try_except_returns; [reflexivity|].
  rewrite (run_body_extracted config w w1 df t1 Hex), Hempty. reflexivity.
Qed.

Lemma run_stages_validated (config : ETLConfig) (start : Z) (df df' : DataFrame)
    (rep : Report) (w1 w2 w3 : World) t2 t3 :
  transform df (transformation_config config) w1 = (Ret df', w2, t2) ->
  validate df' (validation_config config) w2 = (Ret rep, w3, t3) ->
  run_stages config start df w1
  = (let '(r, w', t) :=
       (stop <- (if negb (passed rep) then
                   log ERROR "Data validation failed" ;;
                   ret (get (stop_on_validation_error (pipeline_config config)) true)
                 else ret false) ;;
        if (stop : bool) then ret false
        else
          log INFO "Step 4: Data Loading" ;;
          success <- load df' (destination_type config) (destination_config config) ;;
          if negb success then
            log ERROR "Data loading failed" ;;
            ret false
          else
            pipeline_end <- now ;;
            log INFO ("ETL pipeline completed successfully in "
                      +++ io_fmt_seconds start pipeline_end +++ " seconds") ;;
            log INFO ("Processed " +++ str_nat (len df') +++ " records") ;;
            ret true) w3 in
     (r, w', Log INFO "Step 2: Data Transformation" :: t2
             ++ Log INFO "Step 3: Data Validation" :: t3 ++ t)).
Proof.
  intros Ht Hv. unfold run_stages. cbn [bind Monad_M]. unfold bind_M at 1 2 3 4.
  cbn [log]. rewrite Ht, Hv.
  set (rest := bind_M _ _).
  destruct (rest w3) as [[r w'] t]. reflexivity.
Qed.

(** A run whose extraction, transformation and validation return: it
    stops at a failing report when the policy says so, and otherwise logs
    step 4, calls the loader and returns what the loader returns. *)
Lemma run_after_validation (config : ETLConfig) (w w1 w2 w3 : World)
    (df df' : DataFrame) (rep : Report) (t1 t2 t3 : list event) :
  extract (source_type config) (source_config config) w = (Ret df, w1, t1) ->
  empty df = false ->
  transform df (transformation_config config) w1 = (Ret df', w2, t2) ->
  validate df' (validation_config config) w2 = (Ret rep, w3, t3) ->
  exists b w4 t4,
    load df' (destination_type config) (destination_config config) w3
      = (Ret b, w4, t4)
    /\ run config w
       = (if stops config rep
          then (Ret false, w3, run_upto t1 t2 t3 rep)
          else (Ret b, w4,
                run_upto t1 t2 t3 rep ++ Log INFO "Step 4: Data Loading" :: t4
                ++ run_tail config (io_now w) df' w4 b)).
Proof.
  intros Hex Hne Htr Hval.
  destruct (load_returns df' (destination_type config) (destination_config config) w3)
    as (b & w4 & t4 & Hload).
  exists b, w4, t4. split; [exact Hload|].
  pose proof (run_body_extracted config w w1 df t1 Hex) as Hbody.
  rewrite Hne, (run_stages_validated config (io_now w) df df' rep w1 w2 w3 t2 t3 Htr Hval)
    in Hbody.
  unfold run, try_except. rewrite Hbody.
  unfold stops, run_upto, validation_lines, run_tail, now.
  destruct (passed rep); cbn [negb andb bind ret Monad_M];
    [|destruct (get (stop_on_validation_error (pipeline_config config)) true)];
    unfold bind_M, ret_M; cbn [log]; rewrite ?Hload;
    destruct b; cbn [negb log app];
    repeat (rewrite <- app_assoc; cbn [app]); rewrite ?app_nil_r; reflexivity.
Qed.

(** C2.  After a failing report, a run with [stop_on_validation_error]
    false goes on to the loading stage and returns what the loader
    returns; with the flag true or absent it stops there, returns [False]
    and never reaches the loader. *)
Theorem run_validation_policy (config : ETLConfig) (w w1 w2 w3 : World)
    (df df' : DataFrame) (rep : Report) (t1 t2 t3 : list event) :
  extract (source_type config) (source_config config) w = (Ret df, w1, t1) ->
  empty df = false ->
  transform df (transformation_config config) w1 = (Ret df', w2, t2) ->
  validate df' (validation_config config) w2 = (Ret rep, w3, t3) ->
  passed rep = false ->
  let upto :=
    run_head ++ t1 ++ Log INFO "Step 2: Data Transformation" :: t2
    ++ Log INFO "Step 3: Data Validation" :: t3
    ++ [Log ERROR "Data validation failed"] in
  (stop_on_validation_error (pipeline_config config) = Some false ->
     exists b w4 t4,
       load df' (destination_type config) (destination_config config) w3
         = (Ret b, w4, t4)
       /\ run config w
          = (Ret b, w4,
             upto ++ Log INFO "Step 4: Data Loading" :: t4
             ++ run_tail config (io_now w) df' w4 b))
  /\ (get (stop_on_validation_error (pipeline_config config)) true = true ->
       run config w = (Ret false, w3, upto)).
Proof.
  intros Hex Hne Htr Hval Hfail upto.
  destruct (run_after_validation config w w1 w2 w3 df df' rep t1 t2 t3
              Hex Hne Htr Hval) as (b & w4 & t4 & Hload & Hrun).
  assert (Hupto : run_upto t1 t2 t3 rep = upto)
    by (unfold run_upto, validation_lines; now rewrite Hfail).
  unfold stops in Hrun. rewrite Hfail, Hupto in Hrun. cbn [negb andb] in Hrun.
  split; intros Hflag; rewrite Hflag in Hrun.
  - exists b, w4, t4. split; [exact Hload|exact Hrun].
  - exact Hrun.
Qed.

Lemma run_returns (config : ETLConfig) (w : World) :
  exists b w' t, run config w = (Ret b, w', t).
Proof. unfold run. apply try_except_total. Qed.

Lemma run_extract_raises (config : ETLConfig) (w w1 : World) (e : exn) t1 :
  extract (source_type config) (source_config config) w = (Raise e, w1, t1) ->
  run config w
  = (Ret false, w1,
     run_head ++ t1 ++ [Log ERROR ("ETL pipeline failed: " +++ str_exn e)]).
Proof.
  intros H. unfold run, try_except, run_body.
  cbn [bind Monad_M]. unfold bind_M, now. cbn [log]. rewrite H.
  cbn [app ret Monad_M]. unfold ret_M. unfold run_head.
  repeat (rewrite <- app_assoc; cbn [app]). now rewrite ?app_nil_r.
Qed.

Lemma run_transform_raises (config : ETLConfig) (w w1 w2 : World) (df : DataFrame)
    (e : exn) t1 t2 :
  extract (source_type config) (source_config config) w = (Ret df, w1, t1) ->
  empty df = false ->
  transform df (transformation_config config) w1 = (Raise e, w2, t2) ->
  run config w
  = (Ret false, w2,
     run_head ++ t1 ++ Log INFO "Step 2: Data Transformation" :: t2
     ++ [Log ERROR ("ETL pipeline failed: " +++ str_exn e)]).
Proof.
  intros Hex Hne Htr. unfold run.
  erewrite try_except_raises.
  2:{ rewrite (run_body_extracted config w w1 df t1 Hex), Hne.
      unfold run_stages. cbn [bind Monad_M]. unfold bind_M at 1 2. cbn [log].
      rewrite Htr. reflexivity. }
  cbn [bind ret Monad_M log]. unfold bind_M, ret_M. cbn [log app].
  repeat (rewrite <- app_assoc; cbn [app]). now rewrite ?app_nil_r.
Qed.

(** The same, from what the loader does. *)
Lemma run_after_validation_load (config : ETLConfig) (w w1 w2 w3 : World)
    (df df' : DataFrame) (rep : Report) (t1 t2 t3 : list event) :
  extract (source_type config) (source_config config) w = (Ret df, w1, t1) ->
  empty df = false ->
  transform df (transformation_config config) w1 = (Ret df', w2, t2) ->
  validate df' (validation_config config) w2 = (Ret rep, w3, t3) ->
  (stops config rep = true ->
     run config w = (Ret false, w3, run_upto t1 t2 t3 rep))
  /\ (stops config rep = false ->
       forall b w4 t4,
         load df' (destination_type config) (destination_config config) w3
         = (Ret b, w4, t4) ->
         run config w
         = (Ret b, w4,
            run_upto t1 t2 t3 rep ++ Log INFO "Step 4: Data Loading" :: t4
            ++ run_tail config (io_now w) df' w4 b))
  /\ (stops config rep = false ->
       forall e w4 t4,
         load_body df' (destination_type config) (destination_config config) w3
         = (Raise e, w4, t4) ->
         run config w
         = (Ret false, w4,
            run_upto t1 t2 t3 rep
            ++ Log INFO "Step 4: Data Loading"
               :: (t4 ++ [Log ERROR ("Loading error: " +++ str_exn e)])
            ++ run_tail config (io_now w) df' w4 false)).
Proof.
  intros Hex Hne Htr Hval.
  destruct (run_after_validation config w w1 w2 w3 df df' rep t1 t2 t3
              Hex Hne Htr Hval) as (b & w4 & t4 & Hload & Hrun).
  split; [|split].
  - intros Hs. now rewrite Hs in Hrun.
  - intros Hs b' w4' t4' Hload'. rewrite Hs in Hrun.
    assert (b' = b) by congruence. assert (w4' = w4) by congruence.
    assert (t4' = t4) by congruence. now subst.
  - intros Hs e w4' t4' Hbody. rewrite Hs in Hrun.
    assert (Hload' : load df' (destination_type config) (destination_config config) w3
                     = (Ret false, w4',
                        t4' ++ [Log ERROR ("Loading error: " +++ str_exn e)])).
    { unfold load. erewrite try_except_raises by exact Hbody. reflexivity. }
    assert (b = false) by congruence. assert (w4 = w4') by congruence.
    assert (t4 = t4' ++ [Log ERROR ("Loading error: " +++ str_exn e)])
      by congruence.
    now subst.
Qed.

(** C9, as the code has it, for the exceptions [except Exception]
    catches.  Neither [run] nor [load] lets one out: what the body of
    either returns is returned, and an exception that leaves the body is
    logged and turned into [False].  For [run] that covers every exception
    of extraction and of transformation, and a loader that fails makes
    [run] return [False] too.  An exception inside validation never
    reaches [run]: [validate] catches it and returns a failing report, and
    from a report on, [run] returns [False] where the policy stops it and
    the loader's result otherwise. *)
Theorem run_never_raises :
  (forall config w b w' t,
      run_body config w = (Ret b, w', t) -> run config w = (Ret b, w', t))
  /\ (forall config w e w' t,
        run_body config w = (Raise e, w', t) ->
        run config w
        = (Ret false, w', t ++ [Log ERROR ("ETL pipeline failed: " +++ str_exn e)]))
  /\ (forall df dt dc w b w' t,
        load_body df dt dc w = (Ret b, w', t) -> load df dt dc w = (Ret b, w', t))
  /\ (forall df dt dc w e w' t,
        load_body df dt dc w = (Raise e, w', t) ->
        load df dt dc w
        = (Ret false, w', t ++ [Log ERROR ("Loading error: " +++ str_exn e)]))
  /\ (forall config w w1 e t1,
        extract (source_type config) (source_config config) w = (Raise e, w1, t1) ->
        run config w
        = (Ret false, w1,
           run_head ++ t1 ++ [Log ERROR ("ETL pipeline failed: " +++ str_exn e)]))
  /\ (forall config w w1 w2 df e t1 t2,
        extract (source_type config) (source_config config) w = (Ret df, w1, t1) ->
        empty df = false ->
        transform df (transformation_config config) w1 = (Raise e, w2, t2) ->
        run config w
        = (Ret false, w2,
           run_head ++ t1 ++ Log INFO "Step 2: Data Transformation" :: t2
           ++ [Log ERROR ("ETL pipeline failed: " +++ str_exn e)]))
  /\ (forall df pre c post w rs w1 t1 e w2 t2,
        evaluated df pre w rs w1 t1 ->
        run_check df c w1 = (Raise e, w2, t2) ->
        exists rep t,
          validate df (mkValidationConfig (Some (pre ++ c :: post))) w
          = (Ret rep, w2, t)
          /\ passed rep = false)
  /\ (forall config w w1 w2 w3 df df' rep t1 t2 t3,
        extract (source_type config) (source_config config) w = (Ret df, w1, t1) ->
        empty df = false ->
        transform df (transformation_config config) w1 = (Ret df', w2, t2) ->
        validate df' (validation_config config) w2 = (Ret rep, w3, t3) ->
        (stops config rep = true ->
           run config w = (Ret false, w3, run_upto t1 t2 t3 rep))
        /\ (stops config rep = false ->
             forall b w4 t4,
               load df' (destination_type config) (destination_config config) w3
               = (Ret b, w4, t4) ->
               run config w
               = (Ret b, w4,
                  run_upto t1 t2 t3 rep ++ Log INFO "Step 4: Data Loading" :: t4
                  ++ run_tail config (io_now w) df' w4 b))
        /\ (stops config rep = false ->
             forall e w4 t4,
               load_body df' (destination_type config) (destination_config config) w3
               = (Raise e, w4, t4) ->
               run config w
               = (Ret false, w4,
                  run_upto t1 t2 t3 rep
                  ++ Log INFO "Step 4: Data Loading"
                     :: (t4 ++ [Log ERROR ("Loading error: " +++ str_exn e)])
                  ++ run_tail config (io_now w) df' w4 false))).
Proof.
  split.
  { intros config w b w' t H. unfold run. now apply try_except_returns. }
  split.
  { intros config w e w' t H. unfold run.
    erewrite try_except_raises by exact H. reflexivity. }
  split.
  { intros df dt dc w b w' t H. unfold load. now apply try_except_returns. }
  split.
  { intros df dt dc w e w' t H. unfold load.
    erewrite try_except_raises by exact H. reflexivity. }
  split; [exact run_extract_raises|].
  split; [exact run_transform_raises|].
  split; [|exact run_after_validation_load].
  intros df pre c post w rs w1 t1 e w2 t2 Hev Hrun.
  rewrite (validate_raising df pre post c w rs w1 t1 e w2 t2 Hev Hrun).
  eexists _, _. split; reflexivity.
Qed.

End Orchestrator.


(* ===================================================================== *)
(** ** Further properties of the ETL pipeline                             *)
(* ===================================================================== *)

(** *** rename-columns *)

Lemma find_key_absent {B} (c : string) (mapping : list (string * B)) :
  mem c (map fst mapping) = false ->
  find (fun kv => String.eqb (fst kv) c) mapping = None.
Proof.
  induction mapping as [|[k v] m IH]; [reflexivity|].
  unfold mem. cbn [map fst existsb find]. intros H.
  apply orb_false_iff in H as [Hk Hm].
  rewrite String.eqb_sym, Hk. now apply IH.
Qed.

Lemma find_key_unique {B} (c : string) (new : B) (mapping : list (string * B)) :
  NoDup (map fst mapping) -> In (c, new) mapping ->
  find (fun kv => String.eqb (fst kv) c) mapping = Some (c, new).
Proof.
  induction mapping as [|[k v] m IH]; intros Hnd Hin; [destruct Hin|].
  cbn [map fst find] in *. inversion Hnd as [|? ? Hnotin Hnd']; subst.
  destruct Hin as [Heq|Hin].
  - inversion Heq; subst. now rewrite String.eqb_refl.
  - destruct (String.eqb_spec k c) as [->|_].
    + exfalso. apply Hnotin. apply in_map_iff. exists (c, new). now split.
    + now apply IH.
Qed.

(** X1.  A rename step never touches the cells or the number of columns:
    a label with no entry in the mapping stays where it is, a label with
    an entry takes the new name in place, and a mapping none of whose keys
    names a column returns the batch itself. *)
Theorem rename_columns_relabels (df : DataFrame) (config : Transform)
    (mapping : list (string * string)) :
  t_mapping config = Some mapping ->
  exists df',
    _rename_columns df config = Ret df'
    /\ rows df' = rows df
    /\ List.length (columns df') = List.length (columns df)
    /\ (forall i c, nth_error (columns df) i = Some c ->
          mem c (map fst mapping) = false ->
          nth_error (columns df') i = Some c)
    /\ (forall i c new, nth_error (columns df) i = Some c ->
          NoDup (map fst mapping) -> In (c, new) mapping ->
          nth_error (columns df') i = Some new)
    /\ (forallb (fun k => negb (mem k (columns df))) (map fst mapping) = true ->
        df' = df).
Proof.
  intros Hm. unfold _rename_columns. rewrite Hm.
  eexists. split; [reflexivity|]. unfold df_rename. cbn [rows columns].
  split; [reflexivity|]. split; [apply length_map|]. split; [|split].
  - intros i c Hi Hc. rewrite nth_error_map, Hi. cbn [option_map].
    now rewrite find_key_absent.
  - intros i c new Hi Hnd Hin. rewrite nth_error_map, Hi. cbn [option_map].
    now rewrite (find_key_unique c new mapping Hnd Hin).
  - intros Habs. destruct df as [cols rs]. cbn [columns rows] in *. f_equal.
    rewrite <- (map_id cols) at 2. apply map_ext_in. intros c Hc.
    rewrite find_key_absent; [reflexivity|].
    apply not_true_iff_false. intros Hex. unfold mem in Hex.
    apply existsb_exists in Hex as (k & Hk & Heq).
    apply String.eqb_eq in Heq. subst k.
    rewrite forallb_forall in Habs. specialize (Habs c Hk).
    apply negb_true_iff in Habs. rewrite (mem_In c cols Hc) in Habs. discriminate.
Qed.

(** *** clean-data *)

Lemma value_eqb_eq (a b : value) : value_eqb a b = true <-> a = b.
Proof.
  destruct a as [|x|x|x|x], b as [|y|y|y|y]; cbn [value_eqb];
    try (split; intros H; discriminate H).
  - split; reflexivity.
  - rewrite Bool.eqb_true_iff. split; [now intros ->|now inversion 1].
  - rewrite Z.eqb_eq. split; [now intros ->|now inversion 1].
  - rewrite String.eqb_eq. split; [now intros ->|now inversion 1].
  - rewrite Z.eqb_eq. split; [now intros ->|now inversion 1].
Qed.

Lemma row_eqb_eq (r r' : list value) : row_eqb r r' = true <-> r = r'.
Proof.
  unfold row_eqb. revert r'; induction r as [|a r IH]; intros [|b r'];
    cbn [List.length Nat.eqb combine forallb andb fst snd];
    try (split; intros H; discriminate H).
  - split; reflexivity.
  - split.
    + intros H. apply andb_true_iff in H as [Hl H].
      apply andb_true_iff in H as [Hv Hf]. apply value_eqb_eq in Hv. subst b.
      f_equal. apply IH. now rewrite Hl, Hf.
    + intros H. inversion H; subst b r'.
      destruct (IH r) as [_ IH2]. specialize (IH2 eq_refl).
      apply andb_true_iff in IH2 as [-> ->].
      now rewrite (proj2 (value_eqb_eq a a) eq_refl).
Qed.

Lemma existsb_row_eqb (r : list value) (seen : list (list value)) :
  existsb (row_eqb r) seen = true <-> In r seen.
Proof.
  rewrite existsb_exists. split.
  - intros (x & Hx & He). apply row_eqb_eq in He. now subst.
  - intros H. exists r. split; [exact H|now apply row_eqb_eq].
Qed.

(** What [drop_duplicates] keeps: the rows not seen before, each once. *)
Lemma drop_duplicates_rows_In (seen l : list (list value)) (r : list value) :
  In r (drop_duplicates_rows seen l) <-> In r l /\ ~ In r seen.
Proof.
  revert seen; induction l as [|x l IH]; intros seen; cbn [drop_duplicates_rows In];
    [tauto|].
  destruct (existsb (row_eqb x) seen) eqn:E.
  - apply existsb_row_eqb in E. rewrite IH. split.
    + intros [H1 H2]. tauto.
    + intros [[->|H1] H2]; [contradiction|tauto].
  - assert (Hx : ~ In x seen) by (rewrite <- existsb_row_eqb; congruence).
    cbn [In]. rewrite IH. cbn [In]. split.
    + intros [->|[H1 H2]]; [tauto|]. split; [tauto|]. intros H; apply H2; now right.
    + intros [[->|H1] H2]; [now left|].
      destruct (row_eqb x r) eqn:Er.
      * apply row_eqb_eq in Er. now left.
      * right. split; [exact H1|]. intros [Heq|Hs]; [|contradiction].
        rewrite (proj2 (row_eqb_eq x r) Heq) in Er. discriminate.
Qed.

Lemma drop_duplicates_rows_NoDup (seen l : list (list value)) :
  NoDup (drop_duplicates_rows seen l).
Proof.
  revert seen; induction l as [|x l IH]; intros seen; cbn [drop_duplicates_rows];
    [constructor|].
  destruct (existsb (row_eqb x) seen); [apply IH|].
  constructor; [|apply IH]. rewrite drop_duplicates_rows_In.
  intros [_ H]. apply H. now left.
Qed.

Lemma drop_duplicates_rows_length (seen l : list (list value)) :
  List.length (drop_duplicates_rows seen l) <= List.length l.
Proof.
  revert seen; induction l as [|x l IH]; intros seen; cbn [drop_duplicates_rows];
    [apply Nat.le_refl|].
  destruct (existsb (row_eqb x) seen); cbn [List.length].
  - specialize (IH seen). lia.
  - specialize (IH (x :: seen)). lia.
Qed.

Lemma fillna_filled (v : value) (r : list value) :
  Forall2 (filled v) r (map (fun c => if isnull c then v else c) r).
Proof.
  induction r as [|c r IH]; cbn [map]; constructor; [|exact IH].
  unfold filled. now destruct (isnull c).
Qed.

Section CleanData.

Context {pd : Pandas}.

(** X2.  A clean step with [handle_nulls: drop] (and no trimming) keeps
    the columns and returns exactly the rows of the batch that have no
    null cell: every row it returns is such a row, and no such row is
    lost, whether or not duplicates are removed first. *)
Theorem clean_data_drops_null_rows (df : DataFrame) (config : Transform)
    (ops : Operations) :
  t_operations config = Some ops ->
  handle_nulls ops = Some "drop" ->
  trim_strings ops = false ->
  exists df',
    _clean_data df config = Ret df'
    /\ columns df' = columns df
    /\ (forall r, In r (rows df') <-> In r (rows df) /\ existsb isnull r = false).
Proof.
  intros Hops Hn Ht. unfold _clean_data. rewrite Hops.
  cbn [getitem bind ret Monad_outcome bind_outcome]. rewrite Hn, Ht.
  change ("drop" == "drop") with true. cbv iota.
  eexists. split; [reflexivity|]. split.
  - now destruct (remove_duplicates ops).
  - intros r. cbn [rows df_dropna]. rewrite filter_In, negb_true_iff.
    destruct (remove_duplicates ops); cbn [rows df_drop_duplicates]; [|tauto].
    rewrite drop_duplicates_rows_In. cbn [In]. tauto.
Qed.

(** X3.  A clean step with [handle_nulls: fill] (no duplicate removal, no
    trimming) keeps the shape of the batch: every cell is as it was, or
    holds the fill value where it was null; the fill value is 0 when the
    step gives none, and with a fill value that is not null no null cell
    is left. *)
Theorem clean_data_fills_nulls (df : DataFrame) (config : Transform)
    (ops : Operations) :
  t_operations config = Some ops ->
  handle_nulls ops = Some "fill" ->
  remove_duplicates ops = false ->
  trim_strings ops = false ->
  let v := get (fill_value ops) (VInt 0) in
  exists df',
    _clean_data df config = Ret df'
    /\ columns df' = columns df
    /\ Forall2 (Forall2 (filled v)) (rows df) (rows df')
    /\ (isnull v = false ->
        forall r, In r (rows df') -> existsb isnull r = false).
Proof.
  intros Hops Hn Hd Ht v. unfold _clean_data. rewrite Hops.
  cbn [getitem bind ret Monad_outcome bind_outcome]. rewrite Hn, Hd, Ht.
  change ("fill" == "drop") with false. change ("fill" == "fill") with true.
  cbv iota. fold v.
  eexists. split; [reflexivity|]. split; [reflexivity|].
  cbn [rows df_fillna]. split.
  - induction (rows df) as [|r l IH]; cbn [map]; constructor; [|exact IH].
    apply fillna_filled.
  - intros Hv r Hr. apply in_map_iff in Hr as (r0 & <- & _).
    apply not_true_iff_false. intros Hex.
    apply existsb_exists in Hex as (c & Hc & Hnull).
    apply in_map_iff in Hc as (c0 & <- & _).
    destruct (isnull c0) eqn:E; congruence.
Qed.

(** X4.  A clean step that only removes duplicates keeps the columns and
    returns the rows of the batch without repetition: the same rows, each
    once, so never more than before. *)
Theorem clean_data_removes_duplicates (df : DataFrame) (config : Transform)
    (ops : Operations) :
  t_operations config = Some ops ->
  remove_duplicates ops = true ->
  handle_nulls ops = None ->
  trim_strings ops = false ->
  exists df',
    _clean_data df config = Ret df'
    /\ columns df' = columns df
    /\ NoDup (rows df')
    /\ (forall r, In r (rows df') <-> In r (rows df))
    /\ len df' <= len df.
Proof.
  intros Hops Hd Hn Ht. unfold _clean_data. rewrite Hops.
  cbn [getitem bind ret Monad_outcome bind_outcome]. rewrite Hn, Hd, Ht.
  eexists. split; [reflexivity|]. split; [reflexivity|].
  unfold len. cbn [rows df_drop_duplicates].
  split; [apply drop_duplicates_rows_NoDup|].
  split; [|apply drop_duplicates_rows_length].
  intros r. rewrite drop_duplicates_rows_In. cbn [In]. tauto.
Qed.

End CleanData.

(** *** filter-rows, whatever the conditions *)

Lemma subseq_refl {A} (l : list A) : subseq l l.
Proof. induction l as [|x l IH]; [constructor|now apply subseq_keep]. Qed.

Lemma subseq_trans {A} (a b c : list A) : subseq a b -> subseq b c -> subseq a c.
Proof.
  intros Hab Hbc. revert a Hab.
  induction Hbc as [|x b c Hbc IH|x b c Hbc IH]; intros a Hab.
  - exact Hab.
  - inversion Hab; subst.
    + apply subseq_keep. now apply IH.
    + apply subseq_skip. now apply IH.
  - apply subseq_skip. now apply IH.
Qed.

Lemma subseq_length {A} (l' l : list A) :
  subseq l' l -> List.length l' <= List.length l.
Proof. induction 1; cbn [List.length]; lia. Qed.

Lemma subseq_In {A} (l' l : list A) : subseq l' l -> forall x, In x l' -> In x l.
Proof.
  induction 1 as [|y l' l _ IH|y l' l _ IH]; intros x Hx; cbn [In] in *.
  - exact Hx.
  - destruct Hx as [->|Hx]; [now left|right; now apply IH].
  - right. now apply IH.
Qed.

Lemma select_subseq {A} (m : list bool) (l : list A) : subseq (select m l) l.
Proof.
  assert (Hnil : forall l : list A, subseq [] l)
    by (intros l0; induction l0 as [|y l0 IH0]; [constructor|now apply subseq_skip]).
  revert m; induction l as [|x l IH]; intros [|b m]; cbn [select];
    try apply Hnil.
  destruct b; [apply subseq_keep|apply subseq_skip]; apply IH.
Qed.

Section FilterMore.

Context {pd : Pandas}.

Lemma filter_condition_unknown (df : DataFrame) (u : Condition)
    (c op : string) (v : yaml) :
  column u = Some c -> operator u = Some op -> value_ u = Some v ->
  mem op filter_operators = false -> filter_condition df u = Ret df.
Proof.
  intros Hc Hop Hv Hmem. unfold filter_condition. rewrite Hc, Hop, Hv.
  cbn [getitem bind Monad_outcome bind_outcome].
  unfold mem, filter_operators in Hmem. cbn [existsb] in Hmem.
  repeat (apply orb_false_iff in Hmem as [?E Hmem]).
  now rewrite E, E0, E1, E2, E3, E4, E5, E6.
Qed.

Lemma filter_condition_lacking (df : DataFrame) (u : Condition) (k : string) :
  lacking_key u = Some k -> filter_condition df u = Raise (KeyError k).
Proof.
  unfold lacking_key, filter_condition.
  destruct (column u), (operator u), (value_ u); intros H;
    try discriminate H; inversion H; reflexivity.
Qed.

Lemma filter_conditions_app (l1 l2 : list Condition) (df : DataFrame) :
  filter_conditions df (l1 ++ l2)
  = (df1 <- filter_conditions df l1 ;; filter_conditions df1 l2).
Proof.
  revert df; induction l1 as [|c l1 IH]; intros df; [reflexivity|].
  cbn [app filter_conditions bind Monad_outcome]. unfold bind_outcome.
  destruct (filter_condition df c) as [df1|e]; [|reflexivity].
  rewrite IH. reflexivity.
Qed.

(** X5.  The filter step reads the three keys of every condition before
    it looks at the operator.  A condition that has its three keys and
    whose operator is none of the eight is ignored, with no error: the
    step returns what it returns without that condition, wherever the
    condition stands in the list and even when it names a column the batch
    lacks.  A condition that lacks one of its keys makes the step raise
    KeyError for the first key it lacks, once the conditions before it
    have been applied. *)
Theorem filter_rows_ignores_unknown_operator (df : DataFrame)
    (config config' : Transform) (pre post : list Condition) (u : Condition) :
  t_conditions config = Some (pre ++ u :: post) ->
  t_conditions config' = Some (pre ++ post) ->
  (forall c op v,
      column u = Some c -> operator u = Some op -> value_ u = Some v ->
      mem op filter_operators = false ->
      _filter_rows df config = _filter_rows df config')
  /\ (forall k df1,
        lacking_key u = Some k ->
        filter_conditions df pre = Ret df1 ->
        _filter_rows df config = Raise (KeyError k)).
Proof.
  intros Hc Hc'. unfold _filter_rows. rewrite Hc, Hc'.
  cbn [getitem bind Monad_outcome bind_outcome].
  rewrite !filter_conditions_app. cbn [bind Monad_outcome]. unfold bind_outcome.
  split.
  - intros c op v Hcol Hop Hv Hu.
    destruct (filter_conditions df pre) as [df1|e]; [|reflexivity].
    cbn [filter_conditions bind Monad_outcome]. unfold bind_outcome.
    now rewrite (filter_condition_unknown df1 u c op v Hcol Hop Hv Hu).
  - intros k df1 Hk ->.
    cbn [filter_conditions bind Monad_outcome]. unfold bind_outcome.
    now rewrite (filter_condition_lacking df1 u k Hk).
Qed.

(** One condition, whatever it is, only leaves rows out. *)
Lemma filter_condition_subseq (df df' : DataFrame) (c : Condition) :
  filter_condition df c = Ret df' ->
  columns df' = columns df /\ subseq (rows df') (rows df).
Proof.
  unfold filter_condition. intros H.
  destruct (column c) as [col|]; [|discriminate H].
  destruct (operator c) as [op|]; [|discriminate H].
  destruct (value_ c) as [v|]; [|discriminate H].
  cbn [getitem bind Monad_outcome bind_outcome] in H.
  repeat match type of H with
         | (if ?b then _ else _) = _ => destruct b
         end;
    cbn [bind ret Monad_outcome] in H; unfold bind_outcome in H;
    repeat match type of H with
           | match ?c with Ret _ => _ | Raise _ => _ end = _ =>
               destruct c; [|discriminate H]
           end;
    inversion H; subst; split; try reflexivity;
    try apply select_subseq; apply subseq_refl.
Qed.

Lemma filter_conditions_subseq (conds : list Condition) (df df' : DataFrame) :
  filter_conditions df conds = Ret df' ->
  columns df' = columns df /\ subseq (rows df') (rows df).
Proof.
  revert df; induction conds as [|c conds IH]; intros df H.
  - inversion H; subst. split; [reflexivity|apply subseq_refl].
  - cbn [filter_conditions bind Monad_outcome] in H. unfold bind_outcome in H.
    destruct (filter_condition df c) as [df1|e] eqn:H1; [|discriminate H].
    apply filter_condition_subseq in H1 as [Hc1 Hr1].
    apply IH in H as [Hc2 Hr2]. split; [congruence|].
    exact (subseq_trans _ _ _ Hr2 Hr1).
Qed.

(** X6.  On a batch whose column labels are distinct, whatever the
    conditions (comparisons against lists, unknown operators, any mix), a
    filter step that returns has only left rows out: the columns are those
    of the batch, the rows are rows of the batch in their order, and there
    are no more of them than before. *)
Theorem filter_rows_only_removes_rows (df df' : DataFrame) (config : Transform) :
  NoDup (columns df) ->
  _filter_rows df config = Ret df' ->
  columns df' = columns df
  /\ subseq (rows df') (rows df)
  /\ (forall r, In r (rows df') -> In r (rows df))
  /\ len df' <= len df.
Proof.
  unfold _filter_rows. intros _ H.
  destruct (t_conditions config) as [conds|]; [|discriminate H].
  cbn [getitem bind Monad_outcome bind_outcome] in H.
  apply filter_conditions_subseq in H as [Hc Hr].
  split; [exact Hc|]. split; [exact Hr|]. split.
  - now apply subseq_In.
  - now apply subseq_length.
Qed.

End FilterMore.

(** *** The validator's checks *)

Section Checks.

Context {World : Type} {pd : Pandas} {io : IO World}.

Lemma series_cells (df : DataFrame) (c : string) :
  mem c (columns df) = true ->
  series df c = Ret (map (cell (columns df) c) (rows df)).
Proof.
  intros H. apply mem_index_of in H as [i Hi].
  unfold series, cell. now rewrite Hi.
Qed.

Lemma series_missing (df : DataFrame) (c : string) :
  mem c (columns df) = false -> series df c = Raise (KeyError c).
Proof.
  intros H. unfold series.
  destruct (index_of c (columns df)) as [i|] eqn:Hi; [|reflexivity].
  assert (mem c (columns df) = true) by (apply mem_index_of; now exists i).
  congruence.
Qed.

Lemma check_not_null_loop_spec (df : DataFrame) (cols : list string) (w : World) :
  check_not_null_loop df cols w
  = match find (null_or_missing df) cols with
    | None => (Ret true, w, [])
    | Some c =>
        if mem c (columns df)
        then (Ret false, w, [Log ERROR ("Null values found in column: " +++ c)])
        else (Raise (KeyError c), w, [])
    end.
Proof.
  induction cols as [|c rest IH]; [reflexivity|].
  cbn [check_not_null_loop find bind Monad_M]. unfold bind_M at 1, lift, null_or_missing.
  destruct (mem c (columns df)) eqn:Hm; cbn [negb orb].
  - rewrite (series_cells df c Hm). fold (has_null df c).
    destruct (has_null df c); [now rewrite Hm|].
    rewrite IH. unfold null_or_missing.
    destruct (find _ rest) as [c'|]; [destruct (mem c' (columns df))|]; reflexivity.
  - rewrite (series_missing df c Hm). now rewrite Hm.
Qed.

(** X7.  On a batch whose column labels are distinct, a not-null check
    goes through its columns in order and stops at the first one the batch
    lacks or that holds a null: a missing column raises [KeyError], a null
    fails the check with one error line naming that column, and later
    columns are not looked at.  It passes, without a line, exactly when
    every listed column is there and free of nulls. *)
Theorem check_not_null_first_offender (df : DataFrame) (config : Check)
    (cols : list string) (w : World) :
  NoDup (columns df) ->
  k_columns config = Some cols ->
  _check_not_null df config w
  = match find (null_or_missing df) cols with
    | None => (Ret true, w, [])
    | Some c =>
        if mem c (columns df)
        then (Ret false, w, [Log ERROR ("Null values found in column: " +++ c)])
        else (Raise (KeyError c), w, [])
    end.
Proof.
  intros _ Hc. unfold _check_not_null. rewrite Hc.
  cbn [getitem bind Monad_M]. unfold bind_M, lift.
  rewrite check_not_null_loop_spec.
  destruct (find _ cols) as [c|]; [destruct (mem c (columns df))|]; reflexivity.
Qed.

(** The loop's report is the report of the verdicts it recorded, also when
    a check raised. *)
Lemma validate_loop_report (df : DataFrame) (l : list Check) (w : World)
    rep oe w' t :
  validate_loop df l no_report w = (Ret (rep, oe), w', t) ->
  rep = report_of io_repr_check (results rep)
  /\ List.length (results rep) <= List.length l.
Proof.
  revert w rep oe w' t; induction l as [|c l IH]; intros w rep oe w' t H.
  - cbn in H. unfold ret_M in H. inversion H; subst. split; [reflexivity|cbn; lia].
  - rewrite validate_loop_step in H.
    destruct (run_check df c w) as [[[[ty b]|e] w1] t1].
    + destruct (validate_loop_acc df l (merge no_report (entry_report io_repr_check ty b c)) w1)
        as (rep1 & oe1 & w2 & t2 & H0 & H1).
      rewrite H1 in H. inversion H; subst rep oe w' t.
      apply IH in H0 as [Hrep Hlen].
      rewrite merge_no_report_l. rewrite Hrep at 1.
      rewrite merge_entry_report_of. cbn [results merge entry_report app].
      split; [reflexivity|]. cbn [List.length]. lia.
    + inversion H; subst. split; [reflexivity|cbn; lia].
Qed.

Lemma validate_get (df : DataFrame) (vc : ValidationConfig) (w : World) :
  validate df vc w
  = validate df (mkValidationConfig (Some (get (checks vc) []))) w.
Proof. reflexivity. Qed.

(** X8.  The report [validate] returns is consistent, whatever happened:
    it passes exactly when its error list is empty, a passing report has
    no failed result, and it never holds more results than there were
    checks.  And [validate] does return one: the report of the verdicts
    when every check has been evaluated, and a report in the world the
    raising check left when a check raises. *)
Theorem validate_report_is_consistent (df : DataFrame) (vc : ValidationConfig)
    (w : World) :
  (forall rep w' t,
      validate df vc w = (Ret rep, w', t) ->
      (passed rep = true <-> errors rep = [])
      /\ (passed rep = true -> forallb r_passed (results rep) = true)
      /\ List.length (results rep) <= List.length (get (checks vc) []))
  /\ (forall rs w' t,
        evaluated df (get (checks vc) []) w rs w' t ->
        validate df vc w
        = (Ret (report_of io_repr_check rs), w',
           t ++ [Log INFO ("Data validation completed: "
                           +++ str_nat (List.length rs) +++ " checks")]))
  /\ (forall pre c post rs w1 t1 e w2 t2,
        get (checks vc) [] = pre ++ c :: post ->
        evaluated df pre w rs w1 t1 ->
        run_check df c w1 = (Raise e, w2, t2) ->
        validate df vc w
        = (Ret (mkReport false rs
                         (errors (report_of io_repr_check rs) ++ [str_exn e])),
           w2, (t1 ++ t2) ++ [Log ERROR ("Validation error: " +++ str_exn e)])).
Proof.
  split; [|split].
  - intros rep0 w0 t0 Hval.
    destruct (validate_loop_acc df (get (checks vc) []) no_report w)
      as (rep & oe & w' & t & H & _).
    pose proof (validate_loop_report _ _ _ _ _ _ _ H) as [Hrep Hlen].
    unfold validate in Hval. cbn [bind Monad_M] in Hval. unfold bind_M in Hval.
    fold no_report in Hval. rewrite H in Hval.
    destruct oe as [e|]; cbn [log ret Monad_M] in Hval; unfold ret_M in Hval.
    + assert (Hr : rep0 = mkReport false (results rep) (errors rep ++ [str_exn e]))
        by congruence.
      rewrite Hr. cbn [passed errors results].
      split; [|split; [discriminate|exact Hlen]].
      split; [discriminate|]. intros Hnil. destruct (errors rep); discriminate Hnil.
    + assert (Hr : rep0 = rep) by congruence.
      rewrite Hr. split; [|split; [|exact Hlen]].
      * rewrite Hrep. cbn [passed errors report_of].
        generalize (results rep). intros rs.
        induction rs as [|r rs IH]; [split; reflexivity|].
        cbn [forallb filter map]. destruct (r_passed r); cbn [negb andb].
        -- exact IH.
        -- split; intros Hd; discriminate Hd.
      * rewrite Hrep at 1. cbn [passed report_of]. intros Hp. exact Hp.
  - intros rs w' t Hev. unfold validate. cbn [bind Monad_M]. unfold bind_M.
    fold no_report. rewrite (validate_loop_evaluated df _ w rs w' t Hev no_report).
    rewrite merge_no_report_l. reflexivity.
  - intros pre c post rs w1 t1 e w2 t2 Hchecks Hev Hrun.
    rewrite validate_get, Hchecks.
    exact (validate_raising df pre post c w rs w1 t1 e w2 t2 Hev Hrun).
Qed.

End Checks.

(** *** Sources, destinations and the loaders' keys *)

Section Endpoints.

Context {World : Type} {pd : Pandas} {io : IO World}.

(** X9.  A source type that is none of the seven [extract] reads (for
    instance [kafka], though the script lists it) is rejected before
    anything is read: [extract] logs and raises [ValueError], and [run]
    logs it once more and returns [False], the world untouched. *)
Theorem unsupported_source_is_rejected (config : ETLConfig) (w : World) :
  mem (source_type config) supported_sources = false ->
  let msg := "Unsupported source type: " +++ source_type config in
  extract (source_type config) (source_config config) w
  = (Raise (ValueError msg), w, [Log ERROR ("Extraction error: " +++ msg)])
  /\ run config w
     = (Ret false, w,
        run_head ++ [Log ERROR ("Extraction error: " +++ msg)]
        ++ [Log ERROR ("ETL pipeline failed: " +++ msg)]).
Proof.
  intros Hm msg.
  assert (Hex : extract (source_type config) (source_config config) w
                = (Raise (ValueError msg), w, [Log ERROR ("Extraction error: " +++ msg)])).
  { unfold extract, try_except. rewrite Hm. reflexivity. }
  split; [exact Hex|]. now rewrite (run_extract_raises config w w _ _ Hex).
Qed.

(** X10.  A destination type that is none of the five [load] writes to
    (for instance [elasticsearch], though the script lists it) makes
    [load] return [False] with one error line and nothing written. *)
Theorem unsupported_destination_fails_load (df : DataFrame) (dt : string)
    (dc : DestinationConfig) (w : World) :
  mem dt supported_destinations = false ->
  load df dt dc w
  = (Ret false, w,
     [Log ERROR ("Loading error: Unsupported destination type: " +++ dt)]).
Proof.
  intros Hmem. unfold load, try_except, load_body.
  unfold mem, supported_destinations in Hmem. cbn [existsb] in Hmem.
  repeat (apply orb_false_iff in Hmem as [?E Hmem]).
  now rewrite E, E0, E1, E2, E3.
Qed.

(** X11.  A destination dict that lacks a key its loader reads with
    [config['k']] makes [load] return [False]: the [KeyError] is logged,
    and nothing is written or announced before it. *)
Theorem load_missing_key (df : DataFrame) (dt : string) (dc : DestinationConfig)
    (k : string) (w : World) :
  missing_key dt dc = Some k ->
  load df dt dc w = (Ret false, w, [Log ERROR ("Loading error: '" +++ k +++ "'")]).
Proof.
  unfold missing_key, load, try_except, load_body. intros H.
  destruct (dt == "csv").
  { unfold _load_csv. destruct (file_path dc); [discriminate H|].
    inversion H; subst k. reflexivity. }
  destruct (dt == "json").
  { unfold _load_json. destruct (file_path dc); [discriminate H|].
    inversion H; subst k. reflexivity. }
  destruct (dt == "database").
  { unfold _load_database.
    destruct (connection_string dc); [destruct (table_name dc); [discriminate H|]|];
      inversion H; subst k; reflexivity. }
  destruct (dt == "s3").
  { unfold _load_s3.
    destruct (bucket dc); [destruct (key dc); [discriminate H|]|];
      inversion H; subst k; reflexivity. }
  destruct (dt == "api"); [|discriminate H].
  unfold _load_api. destruct (url dc); [discriminate H|].
  inversion H; subst k. reflexivity.
Qed.

(** X12.  An API destination whose batch size is not positive sends no
    request at all.  With batch size 0 the [range] call raises and [load]
    returns [False]; with a negative one the loop body never runs and
    [load] reports success, whatever the batch holds. *)
Theorem load_api_nonpositive_batch_size (df : DataFrame) (config : DestinationConfig)
    (u : string) (b : Z) (w : World) :
  url config = Some u ->
  batch_size config = Some b ->
  (b <= 0)%Z ->
  load df "api" config w
  = (Ret (b <? 0)%Z, w,
     Log INFO ("Loading " +++ str_nat (len df) +++ " rows to API: " +++ u)
     :: (if (b <? 0)%Z then [Log INFO "API loading completed"]
         else [Log ERROR "Loading error: range() arg 3 must not be zero"])).
Proof.
  intros Hu Hb Hle. unfold load, try_except.
  change (load_body df "api" config) with (_load_api df config).
  unfold _load_api. rewrite Hu, Hb.
  cbn [getitem get lift bind Monad_M]. unfold bind_M, lift, range0. cbn [log].
  destruct (Z.eqb_spec b 0) as [->|Hne]; [reflexivity|].
  destruct (Z.ltb_spec b 0); [reflexivity|lia].
Qed.

End Endpoints.

(** *** The transformer and the run as a whole *)

Section Stages.

Context {World : Type} {pd : Pandas} {io : IO World}.

(** X13.  The steps of [transform] run in order and the first one that
    raises ends the transformation: the exception is logged and raised
    again, the steps after it are not run (their descriptors do not
    matter), and the batch transformed so far is lost. *)
Theorem transform_stops_at_first_error (df df1 : DataFrame)
    (pre post : list Transform) (u : Transform) (w w1 w2 : World)
    (e : exn) (t1 t2 : list event) :
  apply_transforms df pre w = (Ret df1, w1, t1) ->
  apply_transform df1 u w1 = (Raise e, w2, t2) ->
  transform df (mkTransformationConfig (Some (pre ++ u :: post))) w
  = (Raise e, w2,
     Log INFO "Starting data transformation" :: (t1 ++ t2)
     ++ [Log ERROR ("Transformation error: " +++ str_exn e)]).
Proof.
  intros Hpre Hu. apply transform_run.
  rewrite apply_transforms_app. cbn [bind Monad_M]. unfold bind_M. rewrite Hpre.
  cbn [apply_transforms bind Monad_M]. unfold bind_M. now rewrite Hu.
Qed.

(** X14.  [run] returns [True] only after a load that returned [True]:
    then extraction gave a batch that was not empty, transformation
    returned a batch, validation returned a report that did not stop the
    run, the loader ran on the transformed batch in the world validation
    left and itself left the world the run ends in, and the trace is that
    of the four steps, with the lines of step 4 and of the record count. *)
Theorem run_true_only_after_load (config : ETLConfig) (w w' : World)
    (t : list event) :
  run config w = (Ret true, w', t) ->
  exists df w1 t1 df' w2 t2 rep w3 t3 t4,
    extract (source_type config) (source_config config) w = (Ret df, w1, t1)
    /\ empty df = false
    /\ transform df (transformation_config config) w1 = (Ret df', w2, t2)
    /\ validate df' (validation_config config) w2 = (Ret rep, w3, t3)
    /\ stops config rep = false
    /\ load df' (destination_type config) (destination_config config) w3
       = (Ret true, w', t4)
    /\ t = run_upto t1 t2 t3 rep ++ Log INFO "Step 4: Data Loading" :: t4
           ++ run_tail config (io_now w) df' w' true
    /\ In (Log INFO "Step 4: Data Loading") t
    /\ In (Log INFO ("Processed " +++ str_nat (len df') +++ " records")) t.
Proof.
  intros H.
  destruct (extract (source_type config) (source_config config) w)
    as [[[df|e] w1] t1] eqn:Hex.
  2:{ rewrite (run_extract_raises config w w1 e t1 Hex) in H. discriminate H. }
  destruct (empty df) eqn:Hne.
  { unfold run in H. erewrite try_except_returns in H
      by (rewrite (run_body_extracted config w w1 df t1 Hex), Hne; reflexivity).
    discriminate H. }
  destruct (transform df (transformation_config config) w1)
    as [[[df'|e] w2] t2] eqn:Htr.
  2:{ rewrite (run_transform_raises config w w1 w2 df e t1 t2 Hex Hne Htr) in H.
      discriminate H. }
  destruct (validate_returns df' (validation_config config) w2)
    as (rep & w3 & t3 & Hval).
  destruct (run_after_validation config w w1 w2 w3 df df' rep t1 t2 t3
              Hex Hne Htr Hval) as (b & w4 & t4 & Hload & Hrun).
  rewrite Hrun in H. destruct (stops config rep) eqn:Hstop; [discriminate H|].
  assert (Hb : b = true) by congruence.
  assert (Hw : w4 = w') by congruence.
  assert (Ht : t = run_upto t1 t2 t3 rep ++ Log INFO "Step 4: Data Loading"
                   :: t4 ++ run_tail config (io_now w) df' w4 b) by congruence.
  subst b w4. clear H.
  exists df, w1, t1, df', w2, t2, rep, w3, t3, t4.
  split; [reflexivity|]. split; [exact Hne|]. split; [exact Htr|].
  split; [exact Hval|]. split; [exact Hstop|]. split; [exact Hload|].
  split; [exact Ht|]. rewrite Ht. split.
  - apply in_or_app. right. now left.
  - apply in_or_app. right. right. apply in_or_app. right.
    unfold run_tail. right. now left.
Qed.

End Stages.

(** *** The command line *)

Section CommandLine.

Context {World : Type} {pd : Pandas} {io : IO World} {fs : Files World}.

(** X15.  A dry run stops once the configuration file has been loaded and
    the overrides applied: [main] logs that the configuration is valid and
    ends with status 0 without running the pipeline, whatever the
    configuration says (source and destination types are not looked at). *)
Theorem main_dry_run_runs_nothing (args : Args) (config : ETLConfig)
    (w w1 : World) (t1 : list event) :
  load_config_from_file (a_config args) w = (Ret config, w1, t1) ->
  a_dry_run args = true ->
  main args w
  = (Ret 0%Z, w1, t1 ++ [Log INFO "Configuration validation successful"]).
Proof.
  intros Hload Hdry. unfold main, try_except.
  cbn [bind Monad_M]. unfold bind_M at 1. rewrite Hload, Hdry. reflexivity.
Qed.

(** [main] by cases on what its calls do. *)
Lemma main_cases (args : Args) (w : World) :
  main args w
  = match load_config_from_file (a_config args) w with
    | (Ret config, w1, t1) =>
        if a_dry_run args
        then (Ret 0%Z, w1, t1 ++ [Log INFO "Configuration validation successful"])
        else
          match run (override args config) w1 with
          | (Ret b, w2, t2) => (Ret (if b then 0%Z else 1%Z), w2, t1 ++ t2)
          | (Raise e, w2, t2) =>
              (Ret 1%Z, w2,
               (t1 ++ t2)
               ++ [Log ERROR ("Pipeline execution failed: " +++ str_exn e)])
          end
    | (Raise e, w1, t1) =>
        (Ret 1%Z, w1, t1 ++ [Log ERROR ("Pipeline execution failed: " +++ str_exn e)])
    end.
Proof.
  unfold main, try_except. cbn [bind Monad_M]. unfold bind_M at 1.
  destruct (load_config_from_file (a_config args) w) as [[[config|e] w1] t1];
    [|reflexivity].
  destruct (a_dry_run args); [reflexivity|].
  unfold bind_M.
  destruct (run (override args config) w1) as [[[b|e] w2] t2];
    cbn [ret Monad_M log]; unfold ret_M; cbn [log];
    now rewrite ?app_nil_r.
Qed.

(** X16.  Once the command line is parsed, [main] ends with status 0 or
    1, by what its calls do.  A configuration that cannot be loaded gives
    status 1 with one error line and nothing else done.  Without
    [--dry-run], a configuration that loads is run with the command
    line's overrides, and the status is 0 when [run] returns [True] and 1
    when it returns [False].  So whenever [main] ends with a status of its
    own, the status is 0 or 1, and without [--dry-run] status 0 means that
    the configuration file was loaded and that [run] returned [True]. *)
Theorem main_exit_status (args : Args) (w : World) :
  (forall e w1 t1,
      load_config_from_file (a_config args) w = (Raise e, w1, t1) ->
      main args w
      = (Ret 1%Z, w1,
         t1 ++ [Log ERROR ("Pipeline execution failed: " +++ str_exn e)]))
  /\ (forall config w1 t1 b w' t2,
        load_config_from_file (a_config args) w = (Ret config, w1, t1) ->
        a_dry_run args = false ->
        run (override args config) w1 = (Ret b, w', t2) ->
        main args w = (Ret (if b then 0%Z else 1%Z), w', t1 ++ t2))
  /\ (forall status w' t,
        main args w = (Ret status, w', t) ->
        (status = 0%Z \/ status = 1%Z)
        /\ (a_dry_run args = false -> status = 0%Z ->
            exists config w1 t1 t2,
              load_config_from_file (a_config args) w = (Ret config, w1, t1)
              /\ run (override args config) w1 = (Ret true, w', t2)
              /\ t = t1 ++ t2)).
Proof.
  rewrite !main_cases.
  destruct (load_config_from_file (a_config args) w) as [[[config|e] w1] t1].
  - split; [intros e w2 t2 H; discriminate H|]. split.
    + intros config' w1' t1' b w' t2 H Hdry Hrun.
      assert (config' = config) by congruence. assert (w1' = w1) by congruence.
      assert (t1' = t1) by congruence. subst. now rewrite Hdry, Hrun.
    + intros status w' t. destruct (a_dry_run args).
      * intros H. split; [left; congruence|discriminate].
      * destruct (run_returns (override args config) w1) as (b & w2 & t2 & Hrun).
        rewrite Hrun. intros H.
        assert (Hs : status = if b then 0%Z else 1%Z) by congruence.
        assert (Hw : w' = w2) by congruence.
        assert (Ht : t = t1 ++ t2) by congruence.
        split; [destruct b; [now left|now right]|].
        intros _ Hz. destruct b; [|rewrite Hs in Hz; discriminate Hz].
        exists config, w1, t1, t2. subst w'. now repeat split.
  - split.
    + intros e' w2 t2 H. assert (e' = e) by congruence.
      assert (w2 = w1) by congruence. assert (t2 = t1) by congruence.
      subst. reflexivity.
    + split; [intros config w1' t1' b w' t2 H; discriminate H|].
      intros status w' t H. split; [right; congruence|].
      intros _ Hz. rewrite Hz in H. discriminate H.
Qed.

End CommandLine.

(* ===================================================================== *)
(** ** Properties of the chunked copy                                     *)
(* ===================================================================== *)

Import Migration.

Lemma reads_read (table : string) (l o : Z) (t : list event) :
  reads (ReadSql table l o :: t) = (l, o) :: reads t.
Proof. reflexivity. Qed.

Lemma reads_app (t t' : list event) : reads (t ++ t') = reads t ++ reads t'.
Proof. unfold reads. now rewrite flat_map_app. Qed.

Lemma max_iterations_zero (total bs : Z) :
  (0 < bs)%Z -> max_iterations total bs = 0 -> (total <= 0)%Z.
Proof.
  intros Hbs H. unfold max_iterations in H.
  destruct (Z_le_gt_dec total 0) as [|Hpos]; [assumption|exfalso].
  assert (1 <= (total + bs - 1) / bs)%Z by (apply Z.div_le_lower_bound; lia).
  lia.
Qed.

Lemma max_iterations_step (total bs : Z) :
  (0 < bs)%Z -> (0 < total)%Z ->
  max_iterations total bs = S (max_iterations (total - bs) bs).
Proof.
  intros Hbs Hpos. unfold max_iterations.
  replace (total + bs - 1)%Z with ((total - bs + bs - 1) + 1 * bs)%Z by lia.
  rewrite Z.div_add by lia.
  assert (0 <= (total - bs + bs - 1) / bs)%Z by (apply Z.div_pos; lia).
  lia.
Qed.

Section CopyLoop.

Context {World : Type} {pd : Pandas} {db : DB World}.

Variable config : Config.

(** Started at [offset], the loop is left after at most
    [ceil((total_rows - offset) / batch_size)] reads, at offsets that grow
    by [batch_size]; any fuel from that bound on gives the same run. *)
Lemma copy_loop_terminates (table : string) (bs total : Z) :
  (0 < bs)%Z ->
  forall (n : nat) (offset migrated : Z) (w : World),
    max_iterations (total - offset) bs <= n ->
    exists r w' t k,
      k <= n
      /\ reads t = map (fun i => (bs, (offset + Z.of_nat i * bs)%Z)) (seq 0 k)
      /\ forall fuel, n <= fuel ->
           copy_loop config fuel table bs total offset migrated w
           = (finished r, w', t).
Proof.
  intros Hbs. induction n as [|n IH]; intros offset migrated w Hn.
  - assert (Hle : (total - offset <= 0)%Z)
      by (apply (max_iterations_zero _ bs Hbs); lia).
    exists (Ret migrated), w, [], 0. split; [lia|]. split; [reflexivity|].
    intros fuel _. destruct fuel; cbn [copy_loop];
      (destruct (Z.ltb_spec offset total); [lia|reflexivity]).
  - destruct (Z.ltb_spec offset total) as [Hlt|Hge].
    2:{ exists (Ret migrated), w, [], 0. split; [lia|]. split; [reflexivity|].
        intros fuel _. destruct fuel; cbn [copy_loop];
          (destruct (Z.ltb_spec offset total); [lia|reflexivity]). }
    assert (Hstep : max_iterations (total - (offset + bs)) bs <= n).
    { rewrite (max_iterations_step (total - offset) bs Hbs) in Hn by lia.
      replace (total - (offset + bs))%Z with (total - offset - bs)%Z by lia. lia. }
    assert (Hrun : forall fuel, S n <= fuel ->
              copy_loop config fuel table bs total offset migrated w
              = (df <- read_sql table bs offset ;;
                 if empty df then ret (Some migrated)
                 else
                   df <- lift (_apply_transformations config table df) ;;
                   to_sql table df ;;
                   log INFO ("Table " +++ table +++ ": "
                             +++ str_Z (migrated + Z.of_nat (len df)) +++ "/"
                             +++ str_Z total +++ " rows ("
                             +++ db_fmt_percent (migrated + Z.of_nat (len df)) total
                             +++ "%)") ;;
                   copy_loop config (pred fuel) table bs total (offset + bs)
                             (migrated + Z.of_nat (len df))) w).
    { intros fuel Hf. destruct fuel as [|fuel]; [lia|]. cbn [copy_loop pred].
      destruct (Z.ltb_spec offset total); [reflexivity|lia]. }
    cbn [bind Monad_M] in Hrun. unfold bind_M at 1, read_sql in Hrun.
    destruct (db_read_sql table bs offset w) as [[df|e] w1].
    2:{ exists (Raise e), w1, [ReadSql table bs offset], 1.
        split; [lia|]. split; [cbn; repeat f_equal; lia|].
        intros fuel Hf. now rewrite (Hrun fuel Hf). }
    destruct (empty df).
    { exists (Ret migrated), w1, [ReadSql table bs offset], 1.
      split; [lia|]. split; [cbn; repeat f_equal; lia|].
      intros fuel Hf. now rewrite (Hrun fuel Hf). }
    unfold bind_M at 1, lift in Hrun.
    destruct (_apply_transformations config table df) as [df'|e].
    2:{ exists (Raise e), w1, [ReadSql table bs offset], 1.
        split; [lia|]. split; [cbn; repeat f_equal; lia|].
        intros fuel Hf. now rewrite (Hrun fuel Hf). }
    unfold bind_M at 1, to_sql in Hrun.
    destruct (db_to_sql table df' w1) as [[[]|e] w2].
    2:{ exists (Raise e), w2, [ReadSql table bs offset; ToSql table df'], 1.
        split; [lia|]. split; [cbn; repeat f_equal; lia|].
        intros fuel Hf. now rewrite (Hrun fuel Hf). }
    unfold bind_M in Hrun. cbn [log] in Hrun.
    destruct (IH (offset + bs)%Z (migrated + Z.of_nat (len df'))%Z w2 Hstep)
      as (r & w' & t & k & Hk & Hreads & Hloop).
    eexists r, w', _, (S k). split; [lia|]. split.
    2:{ intros fuel Hf. rewrite (Hrun fuel Hf), (Hloop (pred fuel)) by lia.
        reflexivity. }
    cbn [app]. rewrite reads_read. change (reads (ToSql table df' :: ?l)) with (reads l).
    cbn [app reads flat_map]. fold (reads t). rewrite Hreads.
    cbn [seq map]. f_equal; [f_equal; lia|].
    rewrite <- seq_shift, map_map. apply map_ext. intros i. f_equal. lia.
Qed.

(** C10.  With a positive batch size, the copy loop of [_migrate_table]
    is left after at most [ceil(total_rows / batch_size)] iterations: that
    much fuel (or more) always lets [_migrate_table] return, and the pages
    it read are those at offsets 0, [batch_size], 2 [batch_size], ... in
    this order, one per iteration.  A read that comes back empty, or an
    exception, ends the loop earlier; a count below zero runs it not at
    all. *)
Theorem migrate_table_terminates (table : string) (total : Z) (w w1 : World) :
  (0 < batch_size config)%Z ->
  db_count table w = (Ret total, w1) ->
  let bs := batch_size config in
  exists b w' t k,
    k <= max_iterations total bs
    /\ reads t = map (fun i => (bs, (Z.of_nat i * bs)%Z)) (seq 0 k)
    /\ forall fuel, max_iterations total bs <= fuel ->
         _migrate_table config fuel table w = (Ret (Some b), w', t).
Proof.
  intros Hbs Hcount bs.
  destruct (Z.eqb_spec total 0) as [->|Hne].
  - exists true, w1, [Log INFO ("Table " +++ table +++ " is empty, skipping")], 0.
    split; [lia|]. split; [reflexivity|].
    intros fuel _. unfold _migrate_table, try_except.
    cbn [bind Monad_M]. unfold bind_M at 1, count_rows. rewrite Hcount.
    reflexivity.
  - apply Z.eqb_neq in Hne.
    destruct (copy_loop_terminates table bs total Hbs
                (max_iterations total bs) 0%Z 0%Z w1)
      as (r & w' & t & k & Hk & Hr & Hloop).
    { now rewrite Z.sub_0_r. }
    assert (Hrun : forall fuel, max_iterations total bs <= fuel ->
              _migrate_table config fuel table w
              = match r with
                | Ret migrated =>
                    (Ret (Some true), w',
                     t ++ [Log INFO ("Completed migration of table " +++ table
                                     +++ ": " +++ str_Z migrated +++ " rows")])
                | Raise e =>
                    (Ret (Some false), w',
                     t ++ [Log ERROR ("Error migrating table " +++ table +++ ": "
                                      +++ str_exn e)])
                end).
    { intros fuel Hf. unfold _migrate_table, try_except.
      cbn [bind Monad_M]. unfold bind_M at 1, count_rows. rewrite Hcount, Hne.
      unfold bind_M at 1. fold bs. rewrite (Hloop fuel Hf).
      destruct r as [migrated|e]; reflexivity. }
    destruct r as [migrated|e].
    + eexists true, w', _, k. split; [exact Hk|]. split; [|exact Hrun].
      rewrite reads_app, Hr. cbn [reads flat_map app]. now rewrite app_nil_r.
    + eexists false, w', _, k. split; [exact Hk|]. split; [|exact Hrun].
      rewrite reads_app, Hr. cbn [reads flat_map app]. now rewrite app_nil_r.
Qed.

End CopyLoop.

(* ===================================================================== *)
(** ** Further properties of the migration                                *)
(* ===================================================================== *)

Lemma written_app (t t' : list event) : written (t ++ t') = written t ++ written t'.
Proof. unfold written. now rewrite flat_map_app. Qed.

Lemma written_rows_app (t t' : list event) :
  written_rows (t ++ t') = (written_rows t + written_rows t')%Z.
Proof.
  unfold written_rows. rewrite written_app.
  induction (written t) as [|df l IH]; cbn [app fold_right]; lia.
Qed.

Lemma written_rows_log (t : list event) (lvl : level) (msg : string) :
  written_rows (t ++ [Log lvl msg]) = written_rows t.
Proof. rewrite written_rows_app. cbn. lia. Qed.

Lemma last_error_in (t : list event) (d : event) (msg : string) :
  last t d = Log ERROR msg -> d <> Log ERROR msg -> In (Log ERROR msg) t.
Proof.
  intros H Hd. induction t as [|x t IH]; [contradiction|].
  destruct t as [|y t]; [left; exact H|right; now apply IH].
Qed.

Section CopyMore.

Context {World : Type} {pd : Pandas} {db : DB World}.

Variable config : Config.

Lemma apply_columns_miss (df : DataFrame) (transformations : list (string * list Rule)) :
  forallb (fun cr => negb (mem (fst cr) (columns df))) transformations = true ->
  apply_columns df transformations = Ret df.
Proof.
  induction transformations as [|[column rules] rest IH]; [reflexivity|].
  cbn [forallb fst]. intros H. apply andb_true_iff in H as [Hc Hrest].
  apply negb_true_iff in Hc. cbn [apply_columns]. rewrite Hc.
  cbn [bind ret Monad_outcome bind_outcome]. now apply IH.
Qed.

(** X17.  The transformation rules of a table change nothing on a frame
    that has none of the columns they name, and nothing at all for a table
    without rules: such rules are skipped without an error, whatever they
    say. *)
Theorem apply_transformations_identity (table : string) (df : DataFrame) :
  rules_miss config table df = true ->
  _apply_transformations config table df = Ret df.
Proof. intros H. unfold _apply_transformations. now apply apply_columns_miss. Qed.

(** X18.  A table with nothing to copy counts as migrated.  When the count
    is 0, [_migrate_table] logs that the table is empty and returns [True]
    without a read, whatever the batch size; when the count is positive
    but the first page comes back empty, it stops after that one read,
    writes nothing, logs a completed migration of 0 rows and returns
    [True] as well. *)
Theorem migrate_table_nothing_to_copy (table : string) (total : Z) (w w1 : World) :
  db_count table w = (Ret total, w1) ->
  (total = 0%Z ->
   forall fuel,
     _migrate_table config fuel table w
     = (Ret (Some true), w1, [Log INFO ("Table " +++ table +++ " is empty, skipping")]))
  /\ ((0 < total)%Z ->
      forall df w2,
        db_read_sql table (batch_size config) 0 w1 = (Ret df, w2) ->
        empty df = true ->
        forall fuel,
          _migrate_table config (S fuel) table w
          = (Ret (Some true), w2,
             [ReadSql table (batch_size config) 0;
              Log INFO ("Completed migration of table " +++ table +++ ": "
                        +++ str_Z 0 +++ " rows")])).
Proof.
  intros Hcount. split.
  - intros -> fuel. unfold _migrate_table, try_except.
    cbn [bind Monad_M]. unfold bind_M at 1, count_rows. now rewrite Hcount.
  - intros Hpos df w2 Hread Hempty fuel. unfold _migrate_table, try_except.
    cbn [bind Monad_M]. unfold bind_M at 1, count_rows. rewrite Hcount.
    destruct (Z.eqb_spec total 0) as [->|_]; [lia|].
    unfold bind_M at 1. cbn [copy_loop].
    destruct (Z.ltb_spec 0 total) as [_|]; [|lia].
    cbn [bind Monad_M]. unfold bind_M at 1, read_sql. rewrite Hread, Hempty.
    reflexivity.
Qed.

(** The rows the loop has counted are the rows it has written. *)
Lemma copy_loop_counts (table : string) (bs total : Z) (fuel : nat) :
  forall (offset migrated : Z) (w w' : World) (m : Z) (t : list event),
    copy_loop config fuel table bs total offset migrated w = (Ret (Some m), w', t) ->
    m = (migrated + written_rows t)%Z.
Proof.
  induction fuel as [|fuel IH]; intros offset migrated w w' m t H.
  - cbn [copy_loop] in H. destruct (offset <? total)%Z; inversion H; subst.
    cbn. lia.
  - cbn [copy_loop] in H. destruct (offset <? total)%Z.
    2:{ inversion H; subst. cbn. lia. }
    cbn [bind Monad_M] in H. unfold bind_M at 1, read_sql in H.
    destruct (db_read_sql table bs offset w) as [[df|e] w1]; [|discriminate H].
    destruct (empty df).
    { inversion H; subst. cbn. lia. }
    unfold bind_M at 1, lift in H.
    destruct (_apply_transformations config table df) as [df'|e]; [|discriminate H].
    unfold bind_M at 1, to_sql in H.
    destruct (db_to_sql table df' w1) as [[[]|e] w2]; [|discriminate H].
    unfold bind_M in H. cbn [log] in H.
    destruct (copy_loop config fuel table bs total (offset + bs)
                (migrated + Z.of_nat (len df')) w2) as [[r w3] t3] eqn:Hloop.
    destruct r as [[m'|]|e]; inversion H; subst.
    apply IH in Hloop. subst m.
    cbn [app]. unfold written_rows. cbn [written flat_map app fold_right].
    fold (written t3). fold (written_rows t3). lia.
Qed.

(** X19.  The number of rows [_migrate_table] reports at the end of a
    table is the number of rows it has written to the target: the sum of
    the lengths of the frames handed to [to_sql], after the
    transformations, not the number of rows read or counted. *)
Theorem migrate_table_reports_written_rows (table : string) (total : Z)
    (fuel : nat) (w w1 w' : World) (t : list event) :
  db_count table w = (Ret total, w1) ->
  total <> 0%Z ->
  _migrate_table config fuel table w = (Ret (Some true), w', t) ->
  exists t0,
    t = t0 ++ [Log INFO ("Completed migration of table " +++ table +++ ": "
                         +++ str_Z (written_rows t) +++ " rows")].
Proof.
  intros Hcount Hne H. unfold _migrate_table, try_except in H.
  cbn [bind Monad_M] in H. unfold bind_M at 1, count_rows in H. rewrite Hcount in H.
  apply Z.eqb_neq in Hne. rewrite Hne in H. unfold bind_M at 1 in H.
  destruct (copy_loop config fuel table (batch_size config) total 0 0 w1)
    as [[r w2] t2] eqn:Hloop.
  destruct r as [[m|]|e]; cbn [log ret bind Monad_M] in H;
    unfold bind_M, ret_M in H; cbn [log app] in H; try discriminate H.
  apply (f_equal snd) in H. cbn [snd] in H. subst t.
  apply copy_loop_counts in Hloop. exists t2.
  rewrite written_rows_log. rewrite Z.add_0_l in Hloop. now subst m.
Qed.

(** The loop itself logs no error. *)
Lemma copy_loop_no_error (table : string) (bs total : Z) (fuel : nat) :
  forall (offset migrated : Z) (w w' : World) r (t : list event),
    copy_loop config fuel table bs total offset migrated w = (r, w', t) ->
    forall msg, ~ In (Log ERROR msg) t.
Proof.
  induction fuel as [|fuel IH]; intros offset migrated w w' r t H msg Hin.
  - cbn [copy_loop] in H. destruct (offset <? total)%Z; inversion H; subst;
      destruct Hin.
  - cbn [copy_loop] in H. destruct (offset <? total)%Z.
    2:{ inversion H; subst. destruct Hin. }
    cbn [bind Monad_M] in H. unfold bind_M at 1, read_sql in H.
    destruct (db_read_sql table bs offset w) as [[df|e] w1].
    2:{ inversion H; subst. destruct Hin as [Hd|[]]; discriminate Hd. }
    destruct (empty df).
    { inversion H; subst. destruct Hin as [Hd|[]]; discriminate Hd. }
    unfold bind_M at 1, lift in H.
    destruct (_apply_transformations config table df) as [df'|e].
    2:{ inversion H; subst. destruct Hin as [Hd|[]]; discriminate Hd. }
    unfold bind_M at 1, to_sql in H.
    destruct (db_to_sql table df' w1) as [[[]|e] w2].
    2:{ inversion H; subst. destruct Hin as [Hd|[Hd|[]]]; discriminate Hd. }
    unfold bind_M in H. cbn [log] in H.
    destruct (copy_loop config fuel table bs total (offset + bs)
                (migrated + Z.of_nat (len df')) w2) as [[r3 w3] t3] eqn:Hloop.
    inversion H; subst. cbn [app In] in Hin.
    destruct Hin as [Hd|[Hd|[Hd|Hin]]]; try discriminate Hd.
    exact (IH _ _ _ _ _ _ Hloop msg Hin).
Qed.

(** One turn of the loop, by what its three calls do. *)
Lemma copy_loop_turn (table : string) (bs total offset migrated : Z)
    (fuel : nat) (w : World) :
  (offset <? total)%Z = true ->
  copy_loop config (S fuel) table bs total offset migrated w
  = match db_read_sql table bs offset w with
    | (Raise e, w1) => (Raise e, w1, [ReadSql table bs offset])
    | (Ret df, w1) =>
        if empty df then (Ret (Some migrated), w1, [ReadSql table bs offset])
        else
          match _apply_transformations config table df with
          | Raise e => (Raise e, w1, [ReadSql table bs offset])
          | Ret df' =>
              match db_to_sql table df' w1 with
              | (Raise e, w2) =>
                  (Raise e, w2, [ReadSql table bs offset; ToSql table df'])
              | (Ret _, w2) =>
                  let migrated' := (migrated + Z.of_nat (len df'))%Z in
                  let '(r, w3, t3) :=
                    copy_loop config fuel table bs total (offset + bs) migrated' w2 in
                  (r, w3,
                   ReadSql table bs offset :: ToSql table df'
                   :: Log INFO ("Table " +++ table +++ ": " +++ str_Z migrated'
                                +++ "/" +++ str_Z total +++ " rows ("
                                +++ db_fmt_percent migrated' total +++ "%)")
                   :: t3)
              end
          end
    end.
Proof.
  intros Hlt. cbn [copy_loop]. rewrite Hlt.
  cbn [bind Monad_M]. unfold bind_M at 1, read_sql.
  destruct (db_read_sql table bs offset w) as [[df|e] w1]; [|reflexivity].
  destruct (empty df); [reflexivity|].
  unfold bind_M at 1, lift.
  destruct (_apply_transformations config table df) as [df'|e]; [|reflexivity].
  unfold bind_M at 1, to_sql.
  destruct (db_to_sql table df' w1) as [[[]|e] w2]; [|reflexivity].
  unfold bind_M. cbn [log].
  destruct (copy_loop config fuel table bs total (offset + bs)
              (migrated + Z.of_nat (len df')) w2) as [[r3 w3] t3].
  reflexivity.
Qed.

(** X20.  An exception of the count, of a read, of a transformation or of
    a write ends the copy of the table there: the turn of the loop in
    which a read, a transformation or a write raises does nothing after
    it (a failed read or transformation writes nothing), an exception of
    a later turn leaves the loop through the earlier ones, and
    [_migrate_table] logs the exception that left the count or the loop
    in one error line and returns [False], in the world the failing call
    left.  So a call that returns has returned [False] exactly when its
    last line is the error line of its handler. *)
Theorem migrate_table_failure_is_logged (table : string) (fuel : nat) (w : World) :
  (forall e w1,
      db_count table w = (Raise e, w1) ->
      _migrate_table config fuel table w
      = (Ret (Some false), w1,
         [Log ERROR ("Error migrating table " +++ table +++ ": " +++ str_exn e)]))
  /\ (forall total w1 e w2 t,
        db_count table w = (Ret total, w1) ->
        total <> 0%Z ->
        copy_loop config fuel table (batch_size config) total 0 0 w1
        = (Raise e, w2, t) ->
        _migrate_table config fuel table w
        = (Ret (Some false), w2,
           t ++ [Log ERROR ("Error migrating table " +++ table +++ ": "
                            +++ str_exn e)]))
  /\ (forall bs total offset migrated n w0,
        (offset <? total)%Z = true ->
        (forall e w1,
            db_read_sql table bs offset w0 = (Raise e, w1) ->
            copy_loop config (S n) table bs total offset migrated w0
            = (Raise e, w1, [ReadSql table bs offset]))
        /\ (forall df w1 e,
              db_read_sql table bs offset w0 = (Ret df, w1) ->
              empty df = false ->
              _apply_transformations config table df = Raise e ->
              copy_loop config (S n) table bs total offset migrated w0
              = (Raise e, w1, [ReadSql table bs offset]))
        /\ (forall df w1 df' e w2,
              db_read_sql table bs offset w0 = (Ret df, w1) ->
              empty df = false ->
              _apply_transformations config table df = Ret df' ->
              db_to_sql table df' w1 = (Raise e, w2) ->
              copy_loop config (S n) table bs total offset migrated w0
              = (Raise e, w2, [ReadSql table bs offset; ToSql table df']))
        /\ (forall df w1 df' w2 e w3 t3,
              db_read_sql table bs offset w0 = (Ret df, w1) ->
              empty df = false ->
              _apply_transformations config table df = Ret df' ->
              db_to_sql table df' w1 = (Ret tt, w2) ->
              copy_loop config n table bs total (offset + bs)
                (migrated + Z.of_nat (len df')) w2
              = (Raise e, w3, t3) ->
              copy_loop config (S n) table bs total offset migrated w0
              = (Raise e, w3,
                 ReadSql table bs offset :: ToSql table df'
                 :: Log INFO ("Table " +++ table +++ ": "
                              +++ str_Z (migrated + Z.of_nat (len df')) +++ "/"
                              +++ str_Z total +++ " rows ("
                              +++ db_fmt_percent (migrated + Z.of_nat (len df'))
                                                 total +++ "%)")
                 :: t3)))
  /\ (forall r w' t,
        _migrate_table config fuel table w = (Ret r, w', t) ->
        (r = Some false
         <-> exists e t0,
               t = t0 ++ [Log ERROR ("Error migrating table " +++ table +++ ": "
                                     +++ str_exn e)])).
Proof.
  split; [|split; [|split]].
  - intros e w1 Hcount. unfold _migrate_table, try_except.
    cbn [bind Monad_M]. unfold bind_M at 1, count_rows. rewrite Hcount.
    reflexivity.
  - intros total w1 e w2 t Hcount Hne Hloop. unfold _migrate_table, try_except.
    cbn [bind Monad_M]. unfold bind_M at 1, count_rows. rewrite Hcount.
    apply Z.eqb_neq in Hne. rewrite Hne. unfold bind_M at 1. rewrite Hloop.
    cbn [bind ret Monad_M log]. unfold bind_M, ret_M. cbn [log].
    now rewrite app_nil_r.
  - intros bs total offset migrated n w0 Hlt.
    rewrite (copy_loop_turn table bs total offset migrated n w0 Hlt).
    split; [|split; [|split]].
    + intros e w1 ->. reflexivity.
    + intros df w1 e -> -> ->. reflexivity.
    + intros df w1 df' e w2 -> -> -> ->. reflexivity.
    + intros df w1 df' w2 e w3 t3 -> -> -> -> Hrest. cbv zeta. rewrite Hrest.
      reflexivity.
  - intros r0 w0 t0. unfold _migrate_table, try_except.
    match goal with
    | |- context [match ?body w with _ => _ end] =>
        destruct (body w) as [[[r|e] w1] t1] eqn:Hbody
    end.
    + intros Hres. assert (r0 = r) by congruence. assert (t0 = t1) by congruence.
      subst r0 t0. clear Hres.
      cbn [bind Monad_M] in Hbody. unfold bind_M at 1, count_rows in Hbody.
      destruct (db_count table w) as [[total|e] wc]; [|discriminate Hbody].
      assert (Hok : r <> Some false
                    /\ forall msg, last t1 (Log INFO "") <> Log ERROR msg).
      { destruct (total =? 0)%Z.
        - cbn [log ret bind Monad_M] in Hbody. unfold bind_M, ret_M in Hbody.
          cbn [log app] in Hbody. inversion Hbody; subst r w1 t1.
          split; [discriminate|]. intros msg Hd. discriminate Hd.
        - unfold bind_M at 1 in Hbody.
          destruct (copy_loop config fuel table (batch_size config) total 0 0 wc)
            as [[r2 w2] t2] eqn:Hloop.
          pose proof (copy_loop_no_error _ _ _ _ _ _ _ _ _ _ Hloop) as Hno.
          destruct r2 as [[m|]|e]; cbn [log ret bind Monad_M] in Hbody;
            unfold bind_M, ret_M in Hbody; cbn [log app] in Hbody;
            [| |discriminate Hbody].
          + apply (f_equal (fun x => (fst (fst x), snd x))) in Hbody.
            cbn [fst snd] in Hbody. inversion Hbody; subst r t1.
            split; [discriminate|]. intros msg. rewrite last_last. discriminate.
          + apply (f_equal (fun x => (fst (fst x), snd x))) in Hbody.
            cbn [fst snd] in Hbody. rewrite app_nil_r in Hbody.
            inversion Hbody; subst r t1.
            split; [discriminate|]. intros msg Hd.
            apply (Hno msg). apply (last_error_in _ _ _ Hd). discriminate. }
      destruct Hok as [Hr Hlast]. split; [intros Hf; contradiction|].
      intros (e & t0 & Ht). exfalso.
      apply (Hlast ("Error migrating table " +++ table +++ ": " +++ str_exn e)).
      rewrite Ht. apply last_last.
    + cbn [log ret bind Monad_M]. unfold bind_M, ret_M. cbn [log].
      intros Hres. assert (r0 = Some false) by congruence.
      assert (Ht : t0 = t1 ++ [Log ERROR ("Error migrating table " +++ table
                                          +++ ": " +++ str_exn e)] ++ [])
        by congruence.
      split; [|intros _; assumption].
      intros _. exists e, t1. now rewrite app_nil_r in Ht.
Qed.

End CopyMore.

(** *** Column types and the schema *)

(** X21.  [_convert_column_type] maps a column type only for a
    PostgreSQL source and a MySQL or SQLite target, and only the seven
    bare type names of its table: every other source (MySQL, SQLite,
    MongoDB), every other target and every other type (for instance one
    printed with a length) becomes [String].  The two targets are mapped
    alike. *)
Theorem convert_column_type_defaults_to_string (source_type source_db target_db : string) :
  (source_db <> "postgresql"
   \/ (target_db <> "mysql" /\ target_db <> "sqlite")
   \/ mem source_type mapped_types = false) ->
  _convert_column_type source_type source_db target_db = sa_String
  /\ _convert_column_type source_type "postgresql" "mysql"
     = _convert_column_type source_type "postgresql" "sqlite".
Proof.
  intros H. split; [|reflexivity].
  unfold _convert_column_type, type_mapping.
  unfold dict_get at 3. cbn [find fst snd].
  destruct (String.eqb_spec "postgresql" source_db) as [<-|Hs]; [|reflexivity].
  unfold dict_get at 2. cbn [find fst snd].
  destruct (String.eqb_spec "mysql" target_db) as [<-|Hm];
    [|destruct (String.eqb_spec "sqlite" target_db) as [<-|Hq]; [|reflexivity]];
    (destruct H as [H|[[H1 H2]|H]]; [congruence|congruence|]);
    unfold mem, mapped_types in H; cbn [existsb] in H;
    repeat (apply orb_false_iff in H as [?E H]);
    unfold dict_get; cbn [find fst snd];
    rewrite !(String.eqb_sym _ source_type);
    now rewrite E, E0, E1, E2, E3, E4, E5.
Qed.

Lemma table_columns_strings (source_type target_type : string)
    (columns : list ColumnInfo) :
  source_type <> "postgresql" ->
  forall c ty, In (c, ty) (table_columns source_type target_type columns) ->
               ty = sa_String.
Proof.
  intros Hs c ty Hin. unfold table_columns in Hin.
  apply in_map_iff in Hin as (ci & Heq & _). inversion Heq; subst.
  unfold _convert_column_type, type_mapping. unfold dict_get at 3.
  cbn [find fst snd].
  destruct (String.eqb_spec "postgresql" source_type) as [E|_]; [congruence|].
  reflexivity.
Qed.

(** X22.  For a source that is not PostgreSQL, every column of every table
    that [_create_sql_schema] defines is a [String] column, whatever type
    the source column has; the tables are those of the schema, in order. *)
Theorem created_columns_are_strings (source_type target_type : string)
    (schema : Schema) (tables : list table_def) :
  source_type <> "postgresql" ->
  schema_tables source_type target_type schema = Ret tables ->
  map fst tables = map fst schema
  /\ forall name cols c ty,
       In (name, cols) tables -> In (c, ty) cols -> ty = sa_String.
Proof.
  intros Hs. revert tables.
  induction schema as [|[name info] rest IH]; intros tables H.
  - inversion H; subst. split; [reflexivity|]. intros ? ? ? ? [].
  - cbn [schema_tables bind ret Monad_outcome] in H. unfold bind_outcome in H.
    destruct (getitem "columns" (ti_columns info)) as [cols|e]; [|discriminate H].
    destruct (schema_tables source_type target_type rest) as [tables'|e];
      [|discriminate H].
    inversion H; subst tables. destruct (IH tables' eq_refl) as [Hn Hc].
    split; [cbn [map fst]; now rewrite Hn|].
    intros name' cols' c ty [Heq|Hin] Hcol.
    + inversion Heq; subst.
      now apply (table_columns_strings source_type target_type cols Hs c ty).
    + now apply (Hc name' cols' c ty).
Qed.

Lemma find_key_present {B} (c : string) (mapping : list (string * B)) :
  mem c (map fst mapping) = true ->
  find (fun kv => fst kv == c) mapping <> None.
Proof.
  induction mapping as [|[k v] m IH]; [discriminate|].
  unfold mem. cbn [map fst existsb find]. intros H.
  rewrite (String.eqb_sym k c). destruct (c == k); [discriminate|].
  now apply IH.
Qed.

Lemma find_app_first {A} (f : A -> bool) (l1 l2 : list A) :
  find f (l1 ++ l2)
  = match find f l1 with
    | Some x => Some x
    | None => find f l2
    end.
Proof.
  induction l1 as [|x l1 IH]; [reflexivity|].
  cbn [app find]. now destruct (f x).
Qed.

Lemma NoDup_snoc {A} (l : list A) (x : A) : NoDup l -> ~ In x l -> NoDup (l ++ [x]).
Proof.
  induction l as [|y l IH]; intros Hnd Hx; cbn [app].
  - constructor; [intros []|constructor].
  - inversion Hnd as [|? ? Hy Hl]; subst. constructor.
    + intros Hin. apply in_app_or in Hin as [Hin|[->|[]]]; [contradiction|].
      apply Hx. now left.
    + apply IH; [exact Hl|]. intros Hin. apply Hx. now right.
Qed.

Lemma infer_items_find (items : document) (fields : list (string * string))
    (key : string) :
  find (fun kv => fst kv == key) (infer_items fields items)
  = match find (fun kv => fst kv == key) fields with
    | Some kv => Some kv
    | None => find (fun kv => fst kv == key) items
    end.
Proof.
  revert fields; induction items as [|[k ty] rest IH]; intros fields;
    cbn [infer_items find fst].
  - now destruct (find _ fields).
  - rewrite IH. destruct (mem k (map fst fields)) eqn:Hm.
    + destruct (find (fun kv => fst kv == key) fields) eqn:Hf; [reflexivity|].
      destruct (String.eqb_spec k key) as [->|_]; [|reflexivity].
      exfalso. now apply (find_key_present key fields Hm).
    + rewrite find_app_first.
      destruct (find (fun kv => fst kv == key) fields); [reflexivity|].
      cbn [find fst]. now destruct (k == key).
Qed.

Lemma infer_items_NoDup (items : document) (fields : list (string * string)) :
  NoDup (map fst fields) -> NoDup (map fst (infer_items fields items)).
Proof.
  revert fields; induction items as [|[k ty] rest IH]; intros fields Hnd;
    cbn [infer_items]; [exact Hnd|].
  apply IH. destruct (mem k (map fst fields)) eqn:Hm; [exact Hnd|].
  rewrite map_app. cbn [map fst]. apply NoDup_snoc; [exact Hnd|].
  intros Hin. rewrite (mem_In k _ Hin) in Hm. discriminate Hm.
Qed.

Lemma infer_items_app (a b : document) (fields : list (string * string)) :
  infer_items fields (a ++ b) = infer_items (infer_items fields a) b.
Proof.
  revert fields; induction a as [|[k ty] a IH]; intros fields; [reflexivity|].
  cbn [app infer_items]. apply IH.
Qed.

Lemma infer_fields_concat (docs : list document) (fields : list (string * string)) :
  infer_fields fields docs = infer_items fields (List.concat docs).
Proof.
  revert fields; induction docs as [|doc rest IH]; intros fields; [reflexivity|].
  cbn [infer_fields List.concat]. now rewrite IH, infer_items_app.
Qed.

(** X23.  The field types [_get_mongodb_schema] infers from a sample are
    those of first occurrence: each key of the sample is recorded once,
    with the type name of the first value found under it, going through
    the documents in order and through each document's items in order; a
    later document with another type under the same key changes
    nothing. *)
Theorem mongodb_fields_first_type_wins (sample_docs : list document) (key : string) :
  find (fun kv => fst kv == key) (infer_fields [] sample_docs)
  = find (fun kv => fst kv == key) (List.concat sample_docs)
  /\ NoDup (map fst (infer_fields [] sample_docs)).
Proof.
  rewrite infer_fields_concat. split.
  - now rewrite infer_items_find.
  - apply infer_items_NoDup. constructor.
Qed.

Lemma dict_set_no_columns (name : string) (info : TableInfo) (schema : Schema) :
  ti_columns info = None -> no_columns schema = true ->
  no_columns (dict_set name info schema) = true.
Proof.
  intros Hi. unfold no_columns.
  induction schema as [|[k x] rest IH]; cbn [dict_set forallb snd]; intros H.
  - now rewrite Hi.
  - apply andb_true_iff in H as [Hx Hrest].
    destruct (k == name); cbn [forallb snd].
    + now rewrite Hi, Hrest.
    + now rewrite Hx, IH.
Qed.

Section Schemas.

Context {World : Type} {pd : Pandas} {db : DB World} {en : Engine World}.

Lemma mongodb_schema_loop_no_columns (names : list string) :
  forall (schema schema' : Schema) (w w' : World) (t : list event),
    mongodb_schema_loop names schema w = (Ret schema', w', t) ->
    no_columns schema = true -> no_columns schema' = true.
Proof.
  induction names as [|name rest IH]; intros schema schema' w w' t H Hno.
  - cbn in H. unfold ret_M in H. inversion H; now subst.
  - cbn [mongodb_schema_loop bind Monad_M] in H. unfold bind_M at 1, call in H.
    destruct (en_sample name w) as [[docs|e] w1]; [|discriminate H].
    destruct docs as [|doc docs].
    + destruct (mongodb_schema_loop rest schema w1) as [[r w2] t2] eqn:Hl.
      destruct r as [s|e]; [|discriminate H]. inversion H; subst.
      exact (IH _ _ _ _ _ Hl Hno).
    + cbn [bind Monad_M] in H. unfold bind_M at 1 in H.
      destruct (en_count_documents name w1) as [[n|e] w2]; [|discriminate H].
      match type of H with
      | context [mongodb_schema_loop rest ?s w2] =>
          destruct (mongodb_schema_loop rest s w2) as [[r w3] t3] eqn:Hl
      end.
      destruct r as [s|e]; [|discriminate H]. inversion H; subst.
      apply (IH _ _ _ _ _ Hl). now apply dict_set_no_columns.
Qed.

Lemma schema_tables_no_columns (source_type target_type : string) (schema : Schema) :
  schema <> [] -> no_columns schema = true ->
  schema_tables source_type target_type schema = Raise (KeyError "columns").
Proof.
  destruct schema as [|[name info] rest]; [congruence|]. intros _ H.
  unfold no_columns in H. cbn [forallb snd] in H.
  apply andb_true_iff in H as [H _].
  cbn [schema_tables]. destruct (ti_columns info); [discriminate H|reflexivity].
Qed.

(** X24.  The schema read from a MongoDB source can never be created in a
    SQL target: its entries hold [fields] and [document_count] but no
    [columns], so for any such schema that is not empty
    [create_target_schema] fails on the [KeyError] of its first table,
    logs it and returns [False], before anything is created. *)
Theorem mongodb_schema_cannot_be_created (target_type : string) (schema : Schema)
    (w w1 w2 : World) (t1 : list event) :
  get_source_schema "mongodb" w = (Ret schema, w1, t1) ->
  schema <> [] ->
  target_type <> "mongodb" ->
  create_target_schema "mongodb" target_type schema w2
  = (Ret false, w2, [Log ERROR "Schema creation error: 'columns'"]).
Proof.
  intros Hget Hne Ht.
  assert (Hno : no_columns schema = true).
  { unfold get_source_schema, try_except in Hget.
    change ("mongodb" == "mongodb") with true in Hget. cbv iota in Hget.
    destruct (_get_mongodb_schema w) as [[[s|e] w0] t0] eqn:Hm.
    - inversion Hget; subst. unfold _get_mongodb_schema in Hm.
      cbn [bind Monad_M] in Hm. unfold bind_M, call in Hm.
      destruct (en_collection_names w) as [[names|e] w3]; [|discriminate Hm].
      destruct (mongodb_schema_loop names [] w3) as [[r w4] t4] eqn:Hl.
      destruct r as [s'|e]; [|discriminate Hm]. inversion Hm; subst.
      now apply (mongodb_schema_loop_no_columns _ _ _ _ _ _ Hl).
    - cbn [log ret bind Monad_M] in Hget. unfold bind_M, ret_M in Hget.
      cbn [log] in Hget. inversion Hget; subst. congruence. }
  unfold create_target_schema, try_except.
  apply String.eqb_neq in Ht. rewrite Ht.
  unfold _create_sql_schema. cbn [bind Monad_M]. unfold bind_M at 1, lift.
  now rewrite (schema_tables_no_columns "mongodb" target_type schema Hne Hno).
Qed.

End Schemas.

(** *** Connections and dispatch *)

Section Dispatch.

Context {World : Type} {pd : Pandas} {db : DB World} {en : Engine World}.

Variable config : Config.

(** X25.  A database type that is none of the four is refused by
    [connect_source] and by [connect_target] before any connection is
    attempted: each logs its error line and returns [False]. *)
Theorem connect_rejects_unknown_type (db_type : string) (w : World) :
  mem db_type supported_databases = false ->
  connect_source db_type w
  = (Ret false, w,
     [Log ERROR ("Source connection error: Unsupported source database type: "
                 +++ db_type)])
  /\ connect_target db_type w
     = (Ret false, w,
        [Log ERROR ("Target connection error: Unsupported target database type: "
                    +++ db_type)]).
Proof.
  intros Hmem. unfold mem, supported_databases in Hmem. cbn [existsb] in Hmem.
  repeat (apply orb_false_iff in Hmem as [?E Hmem]).
  unfold connect_source, connect_target, try_except.
  cbn [bind Monad_M]. unfold bind_M. now rewrite E, E0, E1, E2.
Qed.

(** X26.  [migrate_data] lets no exception out.  A migration from
    MongoDB to MongoDB always fails: [migrate_data] looks up a method the
    class does not have, logs the [AttributeError] and returns [False]
    without touching either database, whatever the tables asked for and
    whatever the other three migrations do.  For every other pair of
    types, what the migration of the pair returns is returned, and an
    exception it raises is logged in one error line and turned into
    [False], in the world the migration left. *)
Theorem migrate_data_mongodb_to_mongodb_fails
    (sql_to_sql mongodb_to_sql : option (list string) -> Py.M World (option bool))
    (fuel : nat) (tables : option (list string)) (w : World) :
  migrate_data config sql_to_sql mongodb_to_sql fuel "mongodb" "mongodb" tables w
  = (Ret (Some false), w,
     [Log ERROR ("Data migration error: "
                 +++ str_exn (AttributeError "_migrate_mongodb_to_mongodb"))])
  /\ (forall source_type target_type,
        andb (source_type == "mongodb") (target_type == "mongodb") = false ->
        (forall r w' t,
            migration_for config sql_to_sql mongodb_to_sql fuel
              source_type target_type tables w = (Ret r, w', t) ->
            migrate_data config sql_to_sql mongodb_to_sql fuel
              source_type target_type tables w = (Ret r, w', t))
        /\ (forall e w' t,
              migration_for config sql_to_sql mongodb_to_sql fuel
                source_type target_type tables w = (Raise e, w', t) ->
              migrate_data config sql_to_sql mongodb_to_sql fuel
                source_type target_type tables w
              = (Ret (Some false), w',
                 t ++ [Log ERROR ("Data migration error: " +++ str_exn e)]))).
Proof.
  split; [reflexivity|].
  intros source_type target_type Hpair.
  unfold migrate_data, migration_for, try_except.
  destruct (source_type == "mongodb"), (target_type == "mongodb");
    try discriminate Hpair; cbn [andb negb];
    (split; [intros r w' t ->; reflexivity|intros e w' t ->; reflexivity]).
Qed.

(** X27.  With MongoDB on exactly one side, [validate_migration] never
    passes: the validator it calls is not defined, so it logs the
    [AttributeError] and returns [False] without a look at either
    database. *)
Theorem validate_migration_fails_with_mongodb (source_type target_type : string)
    (w : World) :
  one_side_mongodb source_type target_type = true ->
  exists name,
    validate_migration source_type target_type w
    = (Ret false, w,
       [Log INFO "Starting migration validation...";
        Log ERROR ("Validation error: " +++ str_exn (AttributeError name))]).
Proof.
  unfold one_side_mongodb, validate_migration, try_except. intros H.
  cbn [bind Monad_M]. unfold bind_M. cbn [log].
  destruct (source_type == "mongodb"), (target_type == "mongodb");
    try discriminate H; eexists; reflexivity.
Qed.

Lemma compare_counts_verdict (tables : list string) :
  forall (w w' : World) (b : bool) (t : list event),
    compare_counts tables w = (Ret b, w', t) ->
    if b then t = [Log INFO "SQL to SQL migration validation passed"]
    else exists table source_count target_count,
           In table tables /\ source_count <> target_count
           /\ t = [Log ERROR ("Row count mismatch in " +++ table +++ ": source="
                              +++ str_Z source_count +++ ", target="
                              +++ str_Z target_count)].
Proof.
  induction tables as [|table rest IH]; intros w w' b t H.
  - cbn [compare_counts bind Monad_M] in H. unfold bind_M in H.
    cbn [log ret Monad_M] in H. unfold ret_M in H. cbn [app] in H.
    inversion H; subst. reflexivity.
  - cbn [compare_counts bind Monad_M] in H. unfold bind_M at 1, count_rows in H.
    destruct (db_count table w) as [[sc|e] w1]; [|discriminate H].
    unfold bind_M at 1, call in H.
    destruct (en_target_count table w1) as [[tc|e] w2]; [|discriminate H].
    destruct (Z.eqb_spec sc tc) as [->|Hne]; cbn [negb] in H.
    + destruct (compare_counts rest w2) as [[r w3] t3] eqn:Hl.
      cbn [app] in H. inversion H; subst. apply IH in Hl.
      destruct b; [exact Hl|].
      destruct Hl as (tb & s & c & Hin & Hsc & Ht).
      exists tb, s, c. split; [now right|]. now split.
    + cbn [log ret bind Monad_M] in H. unfold bind_M, ret_M in H.
      cbn [log app] in H. inversion H; subst.
      exists table, sc, tc. split; [now left|]. now split.
Qed.

Lemma compare_counts_counted (tables : list string) (w w' : World) :
  counted tables w w' ->
  compare_counts tables w
  = (Ret true, w', [Log INFO "SQL to SQL migration validation passed"]).
Proof.
  induction 1 as [w|table rest w n w1 w2 w3 Hs Ht _ IH]; [reflexivity|].
  cbn [compare_counts bind Monad_M]. unfold bind_M at 1, count_rows. rewrite Hs.
  unfold bind_M at 1, call. rewrite Ht, Z.eqb_refl. cbn [negb].
  now rewrite IH.
Qed.

Lemma compare_counts_mismatch (pre post : list string) (table : string)
    (w wa wb wc : World) (sc tc : Z) :
  counted pre w wa ->
  db_count table wa = (Ret sc, wb) ->
  en_target_count table wb = (Ret tc, wc) ->
  sc <> tc ->
  compare_counts (pre ++ table :: post) w
  = (Ret false, wc,
     [Log ERROR ("Row count mismatch in " +++ table +++ ": source="
                 +++ str_Z sc +++ ", target=" +++ str_Z tc)]).
Proof.
  intros Hpre Hs Ht Hne.
  induction Hpre as [w|table' rest w n w1 w2 w3 Hs' Ht' _ IH].
  - cbn [app compare_counts bind Monad_M]. unfold bind_M at 1, count_rows.
    rewrite Hs. unfold bind_M at 1, call. rewrite Ht.
    apply Z.eqb_neq in Hne. rewrite Hne. reflexivity.
  - cbn [app compare_counts bind Monad_M]. unfold bind_M at 1, count_rows.
    rewrite Hs'. unfold bind_M at 1, call. rewrite Ht', Z.eqb_refl. cbn [negb].
    now rewrite (IH Hs).
Qed.

(** X28.  [_validate_sql_to_sql] compares table names and row counts and
    nothing else.  Once both inspections and both name lists are there:
    when the target lacks a source table it returns [False] with one
    error line naming the missing tables, in the world the name lists
    left, so no row is counted; otherwise it counts the source tables in
    order, on both sides, and at the first table whose two counts differ
    it returns [False] with one error line for that table, in the world
    that table's counts left, so the tables after it are not counted
    (their names do not matter); when every table has been counted with
    equal counts it returns [True] with the single line that the
    validation passed.  So it returns [True] only with that line, and
    [False] only with a single error line of one of the two kinds. *)
Theorem validate_sql_to_sql_verdict (w w1 w2 w3 w4 : World)
    (src tgt : list string) :
  en_inspect "source" w = (Ret tt, w1) ->
  en_inspect "target" w1 = (Ret tt, w2) ->
  en_table_names "source" w2 = (Ret src, w3) ->
  en_table_names "target" w3 = (Ret tgt, w4) ->
  (forallb (fun t => mem t tgt) src = false ->
     _validate_sql_to_sql w
     = (Ret false, w4,
        [Log ERROR ("Missing tables in target: "
                    +++ repr_set (en_set_order
                                    (filter (fun t => negb (mem t tgt)) src)))])
     /\ filter (fun t => negb (mem t tgt)) src <> [])
  /\ (forallb (fun t => mem t tgt) src = true ->
       (forall pre table post wa sc wb tc wc,
           en_set_order src = pre ++ table :: post ->
           counted pre w4 wa ->
           db_count table wa = (Ret sc, wb) ->
           en_target_count table wb = (Ret tc, wc) ->
           sc <> tc ->
           _validate_sql_to_sql w
           = (Ret false, wc,
              [Log ERROR ("Row count mismatch in " +++ table +++ ": source="
                          +++ str_Z sc +++ ", target=" +++ str_Z tc)]))
       /\ (forall w',
             counted (en_set_order src) w4 w' ->
             _validate_sql_to_sql w
             = (Ret true, w', [Log INFO "SQL to SQL migration validation passed"])))
  /\ (forall b w' t,
        _validate_sql_to_sql w = (Ret b, w', t) ->
        if b then t = [Log INFO "SQL to SQL migration validation passed"]
        else (exists missing,
                missing <> []
                /\ t = [Log ERROR ("Missing tables in target: "
                                   +++ repr_set (en_set_order missing))])
             \/ (exists table source_count target_count,
                   source_count <> target_count
                   /\ t = [Log ERROR ("Row count mismatch in " +++ table
                                      +++ ": source=" +++ str_Z source_count
                                      +++ ", target=" +++ str_Z target_count)])).
Proof.
  intros H1 H2 H3 H4.
  assert (Hmissing : forallb (fun t => mem t tgt) src = false ->
                     filter (fun t => negb (mem t tgt)) src <> []).
  { intros Hsub Hnil. apply not_true_iff_false in Hsub. apply Hsub.
    rewrite forallb_forall. intros x Hx.
    destruct (mem x tgt) eqn:Hm; [reflexivity|].
    assert (Hin : In x (filter (fun t0 => negb (mem t0 tgt)) src))
      by (apply filter_In; split; [exact Hx|now rewrite Hm]).
    rewrite Hnil in Hin. destruct Hin. }
  assert (Hrun : _validate_sql_to_sql w
                 = if negb (forallb (fun t => mem t tgt) src)
                   then (Ret false, w4,
                         [Log ERROR ("Missing tables in target: "
                                     +++ repr_set
                                           (en_set_order
                                              (filter (fun t => negb (mem t tgt))
                                                      src)))])
                   else compare_counts (en_set_order src) w4).
  { unfold _validate_sql_to_sql. cbn [bind Monad_M]. unfold bind_M at 1, call.
    rewrite H1. unfold bind_M at 1. rewrite H2. unfold bind_M at 1. rewrite H3.
    unfold bind_M at 1. rewrite H4.
    destruct (forallb (fun t => mem t tgt) src); cbn [negb].
    - destruct (compare_counts (en_set_order src) w4) as [[r w5] t5]. reflexivity.
    - reflexivity. }
  rewrite Hrun. split; [|split].
  - intros Hsub. rewrite Hsub. cbn [negb]. split; [reflexivity|now apply Hmissing].
  - intros Hsub. rewrite Hsub. cbn [negb]. split.
    + intros pre table post wa sc wb tc wc -> Hpre Hs Ht Hne.
      exact (compare_counts_mismatch pre post table w4 wa wb wc sc tc Hpre Hs Ht Hne).
    + intros w' Hall. exact (compare_counts_counted _ _ _ Hall).
  - intros b w' t.
    destruct (forallb (fun t0 => mem t0 tgt) src) eqn:Hsub; cbn [negb].
    + intros Hl. apply compare_counts_verdict in Hl. destruct b; [exact Hl|].
      destruct Hl as (tb & sc & tc & _ & Hsc & Ht). right. now exists tb, sc, tc.
    + intros H. assert (b = false) by congruence. subst b. left.
      exists (filter (fun t0 => negb (mem t0 tgt)) src).
      split; [now apply Hmissing|congruence].
Qed.

Lemma sql_to_mongodb_tables_app (fuel : nat) (l1 l2 : list string) (w : World) :
  sql_to_mongodb_tables config fuel (l1 ++ l2) w
  = (r <- sql_to_mongodb_tables config fuel l1 ;;
     match r with
     | Some true => sql_to_mongodb_tables config fuel l2
     | _ => ret r
     end) w.
Proof.
  revert w; induction l1 as [|table l1 IH]; intros w.
  - cbn [app sql_to_mongodb_tables bind ret Monad_M]. unfold bind_M, ret_M.
    destruct (sql_to_mongodb_tables config fuel l2 w) as [[r w'] t]. reflexivity.
  - cbn [app sql_to_mongodb_tables bind Monad_M]. unfold bind_M.
    destruct (sql_to_mongodb_table config fuel table w) as [[[[[|]|]|e] w1] t1];
      cbn [ret Monad_M]; unfold ret_M; rewrite ?app_nil_r; try reflexivity.
    rewrite IH. cbn [bind Monad_M]. unfold bind_M.
    destruct (sql_to_mongodb_tables config fuel l1 w1) as [[[[[|]|]|e] w2] t2];
      cbn [ret Monad_M]; unfold ret_M; rewrite ?app_nil_r; try reflexivity.
    destruct (sql_to_mongodb_tables config fuel l2 w2) as [[r w3] t3].
    now rewrite app_assoc.
Qed.

(** X29.  The loop of [_migrate_sql_to_mongodb] ends at the first table
    that fails: it returns [False] there, the tables after it are not
    looked at (their names do not matter), and the tables copied before it
    stay copied. *)
Theorem sql_to_mongodb_stops_at_first_failure (fuel : nat)
    (pre post : list string) (table : string) (w w1 w2 : World)
    (t1 t2 : list event) :
  sql_to_mongodb_tables config fuel pre w = (Ret (Some true), w1, t1) ->
  sql_to_mongodb_table config fuel table w1 = (Ret (Some false), w2, t2) ->
  sql_to_mongodb_tables config fuel (pre ++ table :: post) w
  = (Ret (Some false), w2, t1 ++ t2).
Proof.
  intros Hpre Ht. rewrite sql_to_mongodb_tables_app.
  cbn [bind Monad_M]. unfold bind_M. rewrite Hpre.
  cbn [sql_to_mongodb_tables bind Monad_M]. unfold bind_M. rewrite Ht.
  cbn [ret Monad_M]. unfold ret_M. now rewrite app_nil_r.
Qed.

(** Started at [offset], the insert loop is left after at most
    [ceil((total_rows - offset) / batch_size)] reads. *)
Lemma insert_loop_terminates (table : string) (bs total : Z) :
  (0 < bs)%Z ->
  forall (n : nat) (offset : Z) (w : World),
    max_iterations (total - offset) bs <= n ->
    exists r w' t k,
      k <= n
      /\ reads t = map (fun i => (bs, (offset + Z.of_nat i * bs)%Z)) (seq 0 k)
      /\ (r = Ret (Some tt) \/ exists e, r = Raise e)
      /\ forall fuel, n <= fuel ->
           insert_loop config fuel table bs total offset w = (r, w', t).
Proof.
  intros Hbs. induction n as [|n IH]; intros offset w Hn.
  - assert (Hle : (total - offset <= 0)%Z)
      by (apply (max_iterations_zero _ bs Hbs); lia).
    exists (Ret (Some tt)), w, [], 0. split; [lia|]. split; [reflexivity|].
    split; [now left|].
    intros fuel _. destruct fuel; cbn [insert_loop];
      (destruct (Z.ltb_spec offset total); [lia|reflexivity]).
  - destruct (Z.ltb_spec offset total) as [Hlt|Hge].
    2:{ exists (Ret (Some tt)), w, [], 0. split; [lia|]. split; [reflexivity|].
        split; [now left|].
        intros fuel _. destruct fuel; cbn [insert_loop];
          (destruct (Z.ltb_spec offset total); [lia|reflexivity]). }
    assert (Hstep : max_iterations (total - (offset + bs)) bs <= n).
    { rewrite (max_iterations_step (total - offset) bs Hbs) in Hn by lia.
      replace (total - (offset + bs))%Z with (total - offset - bs)%Z by lia. lia. }
    assert (Hrun : forall fuel, S n <= fuel ->
              insert_loop config fuel table bs total offset w
              = (df <- read_sql table bs offset ;;
                 if empty df then ret (Some tt)
                 else
                   df <- lift (_apply_transformations config table df) ;;
                   call (en_insert_many table (to_records df)) ;;
                   log INFO ("Table " +++ table +++ ": " +++ str_Z (offset + bs) +++ "/"
                             +++ str_Z total +++ " rows ("
                             +++ db_fmt_percent (offset + bs) total +++ "%)") ;;
                   insert_loop config (pred fuel) table bs total (offset + bs)) w).
    { intros fuel Hf. destruct fuel as [|fuel]; [lia|]. cbn [insert_loop pred].
      destruct (Z.ltb_spec offset total); [reflexivity|lia]. }
    cbn [bind Monad_M] in Hrun. unfold bind_M at 1, read_sql in Hrun.
    destruct (db_read_sql table bs offset w) as [[df|e] w1].
    2:{ exists (Raise e), w1, [ReadSql table bs offset], 1.
        split; [lia|]. split; [cbn; repeat f_equal; lia|]. split; [right; now exists e|].
        intros fuel Hf. now rewrite (Hrun fuel Hf). }
    destruct (empty df).
    { exists (Ret (Some tt)), w1, [ReadSql table bs offset], 1.
      split; [lia|]. split; [cbn; repeat f_equal; lia|]. split; [now left|].
      intros fuel Hf. now rewrite (Hrun fuel Hf). }
    unfold bind_M at 1, lift in Hrun.
    destruct (_apply_transformations config table df) as [df'|e].
    2:{ exists (Raise e), w1, [ReadSql table bs offset], 1.
        split; [lia|]. split; [cbn; repeat f_equal; lia|]. split; [right; now exists e|].
        intros fuel Hf. now rewrite (Hrun fuel Hf). }
    unfold bind_M at 1, call in Hrun.
    destruct (en_insert_many table (to_records df') w1) as [[[]|e] w2].
    2:{ exists (Raise e), w2, [ReadSql table bs offset], 1.
        split; [lia|]. split; [cbn; repeat f_equal; lia|]. split; [right; now exists e|].
        intros fuel Hf. now rewrite (Hrun fuel Hf). }
    unfold bind_M in Hrun. cbn [log] in Hrun.
    destruct (IH (offset + bs)%Z w2 Hstep) as (r & w' & t & k & Hk & Hreads & Hr & Hloop).
    eexists r, w', _, (S k). split; [lia|]. split; [|split; [exact Hr|]].
    2:{ intros fuel Hf. rewrite (Hrun fuel Hf), (Hloop (pred fuel)) by lia.
        reflexivity. }
    cbn [app]. rewrite reads_read.
    cbn [reads flat_map app]. fold (reads t). rewrite Hreads.
    cbn [seq map]. f_equal; [f_equal; lia|].
    rewrite <- seq_shift, map_map. apply map_ext. intros i. f_equal. lia.
Qed.

(** X30.  With a positive batch size, the copy of one table by
    [_migrate_sql_to_mongodb] is left after at most
    [ceil(total_rows / batch_size)] reads, at offsets 0, [batch_size],
    2 [batch_size], ...: that much fuel always lets it return, [True] or
    [False].  Its progress counts offsets, not rows: it advances by
    [batch_size] whatever the page held. *)
Theorem sql_to_mongodb_table_terminates (table : string) (total : Z) (w w1 : World) :
  (0 < batch_size config)%Z ->
  db_count table w = (Ret total, w1) ->
  let bs := batch_size config in
  exists b w' t k,
    k <= max_iterations total bs
    /\ reads t = map (fun i => (bs, (Z.of_nat i * bs)%Z)) (seq 0 k)
    /\ forall fuel, max_iterations total bs <= fuel ->
         sql_to_mongodb_table config fuel table w = (Ret (Some b), w', t).
Proof.
  intros Hbs Hcount bs.
  destruct (Z.eqb_spec total 0) as [->|Hne].
  - exists true, w1, [Log INFO ("Table " +++ table +++ " is empty, skipping")], 0.
    split; [lia|]. split; [reflexivity|].
    intros fuel _. unfold sql_to_mongodb_table, try_except.
    cbn [bind Monad_M]. unfold bind_M at 1, count_rows. rewrite Hcount.
    reflexivity.
  - apply Z.eqb_neq in Hne.
    destruct (en_collection table w1) as [[[]|e] w2] eqn:Hcol.
    2:{ eexists false, w2, _, 0. split; [lia|]. split.
        2:{ intros fuel _. unfold sql_to_mongodb_table, try_except.
            cbn [bind Monad_M]. unfold bind_M at 1, count_rows. rewrite Hcount, Hne.
            unfold bind_M at 1, call. rewrite Hcol. reflexivity. }
        reflexivity. }
    destruct (insert_loop_terminates table bs total Hbs
                (max_iterations total bs) 0%Z w2)
      as (r & w' & t & k & Hk & Hr & Hcases & Hloop).
    { now rewrite Z.sub_0_r. }
    assert (Hrun : forall fuel, max_iterations total bs <= fuel ->
              sql_to_mongodb_table config fuel table w
              = match r with
                | Ret _ =>
                    (Ret (Some true), w',
                     t ++ [Log INFO ("Completed migration of table " +++ table)])
                | Raise e =>
                    (Ret (Some false), w',
                     t ++ [Log ERROR ("Error migrating table " +++ table +++ ": "
                                      +++ str_exn e)])
                end).
    { intros fuel Hf. unfold sql_to_mongodb_table, try_except.
      cbn [bind Monad_M]. unfold bind_M at 1, count_rows. rewrite Hcount, Hne.
      unfold bind_M at 1, call. rewrite Hcol.
      unfold bind_M at 1. fold bs. rewrite (Hloop fuel Hf).
      destruct Hcases as [->|[e ->]]; reflexivity. }
    destruct r as [u|e].
    + eexists true, w', _, k. split; [exact Hk|]. split; [|exact Hrun].
      rewrite reads_app, Hr. cbn [reads flat_map app]. now rewrite app_nil_r.
    + eexists false, w', _, k. split; [exact Hk|]. split; [|exact Hrun].
      rewrite reads_app, Hr. cbn [reads flat_map app]. now rewrite app_nil_r.
Qed.

End Dispatch.

(* ===================================================================== *)
(** ** The properties on the sample world                                 *)
(* ===================================================================== *)

Import Sample.

(** The labels of a concrete table are distinct. *)
Ltac distinct_labels :=
  repeat constructor; cbn [In]; intuition discriminate.

(** An extraction that finds no row: the run stops with the warning. *)
Lemma run_empty_batch_witness :
  run (pipeline [] None) (world_of nobody [])
  = (Ret false, world_of nobody [],
     run_head ++ [] ++ [Log WARNING "No data extracted, pipeline stopping"]).
Proof.
  apply (run_empty_batch (pipeline [] None) (world_of nobody []) (world_of nobody [])
           nobody []); reflexivity.
Defined.

(** A null age fails the not-null check; the flag decides what follows. *)
Lemma run_validation_policy_witness :
  (exists b w4 t4,
      run (pipeline [check "not_null" ["age"]] (Some false)) (world_of people_with_gap [])
      = (Ret b, w4, t4)
      /\ In (Log INFO "Step 4: Data Loading") t4)
  /\ (exists t,
        run (pipeline [check "not_null" ["age"]] None) (world_of people_with_gap [])
        = (Ret false, world_of people_with_gap [], t)
        /\ ~ In (Log INFO "Step 4: Data Loading") t).
Proof.
  set (w := world_of people_with_gap []).
  set (rep := mkReport false
                [mkCheckResult "not_null" false (check "not_null" ["age"])]
                ["Validation failed: {'type': 'not_null'}"]).
  set (t2 := [Log INFO "Starting data transformation";
              Log INFO "Transformation completed: 3 rows"]).
  set (t3 := [Log ERROR "Null values found in column: age";
              Log INFO "Data validation completed: 1 checks"]).
  split.
  - destruct (@run_validation_policy World pandas io
                (pipeline [check "not_null" ["age"]] (Some false))
                w w w w people_with_gap people_with_gap rep [] t2 t3
                eq_refl eq_refl eq_refl eq_refl eq_refl) as [Hgo _].
    destruct (Hgo eq_refl) as (b & w4 & t4 & _ & Hrun).
    exists b, w4. eexists. split; [exact Hrun|].
    apply in_or_app. right. left. reflexivity.
  - destruct (@run_validation_policy World pandas io
                (pipeline [check "not_null" ["age"]] None)
                w w w w people_with_gap people_with_gap rep [] t2 t3
                eq_refl eq_refl eq_refl eq_refl eq_refl) as [_ Hstop].
    eexists. split; [exact (Hstop eq_refl)|].
    cbn. intros H. repeat (destruct H as [H|H]; [discriminate H|]). exact H.
Defined.

(** Two checks that do not raise are both run and both reported. *)
Lemma validate_runs_every_check_witness :
  never_raise people sound_checks
  /\ exists rs w' t,
       evaluated people sound_checks start rs w' t
       /\ validate people (mkValidationConfig (Some sound_checks)) start
          = (Ret (report_of io_repr_check rs), w',
             t ++ [Log INFO ("Data validation completed: "
                             +++ str_nat (List.length rs) +++ " checks")])
       /\ List.length rs = 2.
Proof.
  assert (H : never_raise people sound_checks).
  { intros c [<-|[<-|[]]] w; reflexivity. }
  split; [exact H|].
  destruct (proj1 (@validate_runs_every_check World pandas io people sound_checks start) H)
    as (rs & w' & t & Hev & Hval & Hlen & _).
  exists rs, w', t. repeat split; assumption.
Defined.

(** A check on a column the batch lacks raises [KeyError]: the loop is
    left there, and of the two checks given none is in the report. *)
Lemma validate_stops_at_raising_check :
  validate people (mkValidationConfig (Some checks_on_missing_column)) start
  = (Ret (mkReport false [] ["'salary'"]), start,
     [Log ERROR "Validation error: 'salary'"])
  /\ List.length checks_on_missing_column = 2.
Proof. split; reflexivity. Qed.

(** Ages 15, 18 and 22 filtered by [age >= 18]. *)
Lemma filter_rows_conjunction_witness :
  _filter_rows people adults_only
  = Ret (mkDF ["id"; "age"] [[VInt 2; VInt 18]; [VInt 3; VInt 22]])
  /\ [[VInt 2; VInt 18]; [VInt 3; VInt 22]]
     = filter (fun r => forallb (fun c => holds (columns people) c r)
                                [cond "age" ">=" (Scalar (VInt 18))])
              (rows people).
Proof.
  split; [reflexivity|].
  apply (@filter_rows_conjunction pandas people
           (mkDF ["id"; "age"] [[VInt 2; VInt 18]; [VInt 3; VInt 22]])
           adults_only [cond "age" ">=" (Scalar (VInt 18))]);
    [distinct_labels|reflexivity..].
Defined.



(** Dropping [age] and [salary] from a table without [salary], once and
    twice; dropping [salary] alone. *)
Lemma drop_columns_idempotent_witness :
  _drop_columns people drop_age_salary = Ret (mkDF ["id"] [[VInt 1]; [VInt 2]; [VInt 3]])
  /\ (df' <- _drop_columns people drop_age_salary ;; _drop_columns df' drop_age_salary)
     = _drop_columns people drop_age_salary
  /\ _drop_columns people drop_salary = Ret people.
Proof.
  split; [reflexivity|]. split.
  - apply (drop_columns_idempotent people drop_age_salary).
  - apply (proj2 (proj2 (drop_columns_idempotent people drop_salary)) ["salary"]);
      reflexivity.
Defined.


(** A source type [extract] does not support: the [ValueError] is logged
    twice, by [extract] and by [run], and [run] returns [False]. *)
Lemma run_never_raises_witness :
  run kafka_pipeline start
  = (Ret false, start,
     run_head ++ [Log ERROR "Extraction error: Unsupported source type: kafka"]
     ++ [Log ERROR "ETL pipeline failed: Unsupported source type: kafka"]).
Proof.
  apply (proj1 (proj2 (proj2 (proj2 (proj2 (@run_never_raises World pandas io)))))
           kafka_pipeline start start
           (ValueError "Unsupported source type: kafka")
           [Log ERROR "Extraction error: Unsupported source type: kafka"]).
  reflexivity.
Defined.


(** Five rows posted two at a time to an API that rejects the second
    batch. *)
Lemma api_load_batches_witness :
  exists b w' t,
    load five_rows "api" (api_destination None 2) second_batch_rejected = (Ret b, w', t)
    /\ ((b = true /\ sent_all (api_batches (to_records five_rows) 2) t)
        \/ (b = false
            /\ exists k bad, stopped_at (api_batches (to_records five_rows) 2) t k bad)).
Proof.
  destruct (@api_load_batches World io five_rows (api_destination None 2)
              "https://example.org/rows" second_batch_rejected
              eq_refl eq_refl eq_refl)
    as (b & w' & t & Hload & _ & Hcases & _).
  exists b, w', t. split; assumption.
Defined.

(** With the method PUT nothing is posted, and [load] reports success. *)
Lemma api_load_put_sends_nothing :
  load five_rows "api" (api_destination (Some "PUT") 2) (world_of nobody [])
  = (Ret true, world_of nobody [],
     [Log INFO "Loading 5 rows to API: https://example.org/rows";
      Log INFO "API loading completed"]).
Proof. reflexivity. Qed.

(** A check that raises inside validation, with the policy flag off: the
    exception is recorded by the validator and the run returns [True]. *)
Lemma run_true_after_validation_exception :
  fst (fst (run (pipeline [check "not_null" ["salary"]] (Some false)) start))
  = Ret true
  /\ In (Log ERROR "Validation error: 'salary'")
        (snd (run (pipeline [check "not_null" ["salary"]] (Some false)) start)).
Proof. split; [reflexivity|]. cbn. tauto. Qed.

(** Five rows copied two at a time: three reads, at offsets 0, 2 and 4. *)
Lemma migrate_table_terminates_witness :
  max_iterations 5 2 = 3
  /\ exists b w' t k,
       k <= 3
       /\ reads t = map (fun i => (2, Z.of_nat i * 2))%Z (seq 0 k)
       /\ _migrate_table copy_config 3 "people" (world_of five_rows [])
          = (Ret (Some b), w', t).
Proof.
  split; [reflexivity|].
  destruct (@migrate_table_terminates World pandas db copy_config "people" 5
              (world_of five_rows []) (world_of five_rows []) eq_refl eq_refl)
    as (b & w' & t & k & Hk & Hreads & Hrun).
  exists b, w', t, k. split; [exact Hk|]. split; [exact Hreads|].
  apply Hrun. apply Nat.le_refl.
Defined.

(** *** The further properties on the sample world *)

(** Renaming [age] and [salary] in a table without [salary]. *)
Lemma rename_columns_relabels_witness :
  exists df',
    _rename_columns people rename_age = Ret df'
    /\ rows df' = rows people
    /\ nth_error (columns df') 0 = Some "id"
    /\ nth_error (columns df') 1 = Some "years".
Proof.
  destruct (rename_columns_relabels people rename_age
              [("age", "years"); ("salary", "pay")] eq_refl)
    as (df' & Hrun & Hrows & _ & Hkeep & Hnew & _).
  exists df'. split; [exact Hrun|]. split; [exact Hrows|]. split.
  - apply (Hkeep 0 "id"); reflexivity.
  - apply (Hnew 1 "age" "years"); [reflexivity| |now left].
    repeat constructor; cbn; intuition discriminate.
Defined.

(** Dropping the rows with a null from the table with one age missing. *)
Lemma clean_data_drops_null_rows_witness :
  exists df',
    _clean_data people_with_gap
      (clean (mkOperations false (Some "drop") None false)) = Ret df'
    /\ In [VInt 1; VInt 15] (rows df')
    /\ ~ In [VInt 2; VNull] (rows df').
Proof.
  destruct (@clean_data_drops_null_rows pandas people_with_gap
              (clean (mkOperations false (Some "drop") None false))
              (mkOperations false (Some "drop") None false)
              eq_refl eq_refl eq_refl)
    as (df' & Hrun & _ & Hrows).
  exists df'. split; [exact Hrun|]. split.
  - apply Hrows. split; [now left|reflexivity].
  - intros Hin. apply Hrows in Hin as [_ Hnull]. discriminate Hnull.
Defined.

(** Filling the missing age: with no fill value given, it becomes 0. *)
Lemma clean_data_fills_nulls_witness :
  exists df',
    _clean_data people_with_gap
      (clean (mkOperations false (Some "fill") None false)) = Ret df'
    /\ Forall2 (Forall2 (filled (VInt 0))) (rows people_with_gap) (rows df')
    /\ forall r, In r (rows df') -> existsb isnull r = false.
Proof.
  destruct (@clean_data_fills_nulls pandas people_with_gap
              (clean (mkOperations false (Some "fill") None false))
              (mkOperations false (Some "fill") None false)
              eq_refl eq_refl eq_refl eq_refl)
    as (df' & Hrun & _ & Hcells & Hnull).
  exists df'. split; [exact Hrun|]. split; [exact Hcells|].
  exact (Hnull eq_refl).
Defined.

(** Removing the duplicate entry of the first person. *)
Lemma clean_data_removes_duplicates_witness :
  exists df',
    _clean_data people_twice (clean (mkOperations true None None false)) = Ret df'
    /\ NoDup (rows df')
    /\ len df' <= 4.
Proof.
  destruct (@clean_data_removes_duplicates pandas people_twice
              (clean (mkOperations true None None false))
              (mkOperations true None None false)
              eq_refl eq_refl eq_refl eq_refl)
    as (df' & Hrun & _ & Hnd & _ & Hlen).
  exists df'. split; [exact Hrun|]. split; [exact Hnd|exact Hlen].
Defined.

(** The age filter with a [between] condition on a missing column after
    it: the same as the age filter alone.  With an [is_null] condition
    that has no [value] after it: KeyError. *)
Lemma filter_rows_ignores_unknown_operator_witness :
  _filter_rows people
    (filter_by ([cond "age" ">=" (Scalar (VInt 18))] ++ between_salaries :: []))
  = _filter_rows people
      (filter_by ([cond "age" ">=" (Scalar (VInt 18))] ++ []))
  /\ _filter_rows people
       (filter_by ([cond "age" ">=" (Scalar (VInt 18))] ++ salary_is_null :: []))
     = Raise (KeyError "value").
Proof.
  split.
  - apply (proj1 (@filter_rows_ignores_unknown_operator pandas people
                    (filter_by ([cond "age" ">=" (Scalar (VInt 18))]
                                ++ between_salaries :: []))
                    (filter_by ([cond "age" ">=" (Scalar (VInt 18))] ++ []))
                    [cond "age" ">=" (Scalar (VInt 18))] [] between_salaries
                    eq_refl eq_refl)
             "salary" "between" (Seq [VInt 1000; VInt 2000]));
      reflexivity.
  - apply (proj2 (@filter_rows_ignores_unknown_operator pandas people
                    (filter_by ([cond "age" ">=" (Scalar (VInt 18))]
                                ++ salary_is_null :: []))
                    (filter_by ([cond "age" ">=" (Scalar (VInt 18))] ++ []))
                    [cond "age" ">=" (Scalar (VInt 18))] [] salary_is_null
                    eq_refl eq_refl)
             "value" (mkDF ["id"; "age"] [[VInt 2; VInt 18]; [VInt 3; VInt 22]]));
      reflexivity.
Defined.

(** The age filter leaves two of the three rows, in their order. *)
Lemma filter_rows_only_removes_rows_witness :
  subseq [[VInt 2; VInt 18]; [VInt 3; VInt 22]] (rows people)
  /\ 2 <= len people.
Proof.
  destruct (@filter_rows_only_removes_rows pandas people
              (mkDF ["id"; "age"] [[VInt 2; VInt 18]; [VInt 3; VInt 22]])
              adults_only ltac:(distinct_labels) eq_refl)
    as (_ & Hsub & _ & Hlen).
  split; [exact Hsub|exact Hlen].
Defined.

(** A not-null check on [id], [age] and [salary] of the table with one
    age missing: it stops at [age], and never finds that [salary] is not
    there. *)
Lemma check_not_null_first_offender_witness :
  _check_not_null people_with_gap (check "not_null" ["id"; "age"; "salary"]) start
  = (Ret false, start, [Log ERROR "Null values found in column: age"]).
Proof.
  exact (@check_not_null_first_offender World people_with_gap
           (check "not_null" ["id"; "age"; "salary"]) ["id"; "age"; "salary"]
           start ltac:(distinct_labels) eq_refl).
Defined.

(** Two checks, the first on a column the table does not have: the
    report fails with the exception's text and no result. *)
Lemma validate_report_is_consistent_witness :
  validate people (mkValidationConfig (Some checks_on_missing_column)) start
  = (Ret (mkReport false [] ["'salary'"]), start,
     [Log ERROR "Validation error: 'salary'"]).
Proof.
  apply (proj2 (proj2 (@validate_report_is_consistent World pandas io people
                         (mkValidationConfig (Some checks_on_missing_column))
                         start))
           [] (check "not_null" ["salary"]) [check "not_null" ["id"]]
           [] start [] (KeyError "salary") start []).
  - reflexivity.
  - constructor.
  - reflexivity.
Defined.

(** The source type [kafka]. *)
Lemma unsupported_source_is_rejected_witness :
  run kafka_pipeline start
  = (Ret false, start,
     run_head ++ [Log ERROR "Extraction error: Unsupported source type: kafka"]
     ++ [Log ERROR "ETL pipeline failed: Unsupported source type: kafka"]).
Proof.
  exact (proj2 (@unsupported_source_is_rejected World pandas io kafka_pipeline start
                  eq_refl)).
Defined.

(** The destination type [elasticsearch]. *)
Lemma unsupported_destination_fails_load_witness :
  load people "elasticsearch" csv_destination start
  = (Ret false, start,
     [Log ERROR "Loading error: Unsupported destination type: elasticsearch"]).
Proof.
  exact (@unsupported_destination_fails_load World io people "elasticsearch"
           csv_destination start eq_refl).
Defined.

(** A database destination that names neither connection nor table. *)
Lemma load_missing_key_witness :
  load people "database" empty_destination start
  = (Ret false, start, [Log ERROR "Loading error: 'connection_string'"]).
Proof.
  exact (@load_missing_key World io people "database" empty_destination
           "connection_string" start eq_refl).
Defined.

(** Five rows for an API with batch size 0: nothing is posted. *)
Lemma load_api_nonpositive_batch_size_witness :
  load five_rows "api" (api_destination None 0) start
  = (Ret false, start,
     [Log INFO "Loading 5 rows to API: https://example.org/rows";
      Log ERROR "Loading error: range() arg 3 must not be zero"]).
Proof.
  exact (@load_api_nonpositive_batch_size World io five_rows (api_destination None 0)
           "https://example.org/rows" 0%Z start eq_refl eq_refl ltac:(lia)).
Defined.

(** The age filter, then a drop step without its [columns] key, then a
    step that is never reached. *)
Lemma transform_stops_at_first_error_witness :
  transform people
    (mkTransformationConfig
       (Some ([adults_only] ++ step "drop_columns" :: [step "normalize"]))) start
  = (Raise (KeyError "columns"), start,
     Log INFO "Starting data transformation" :: ([] ++ [])
     ++ [Log ERROR "Transformation error: 'columns'"]).
Proof.
  exact (@transform_stops_at_first_error World pandas io people
           (mkDF ["id"; "age"] [[VInt 2; VInt 18]; [VInt 3; VInt 22]])
           [adults_only] [step "normalize"] (step "drop_columns")
           start start start (KeyError "columns") [] [] eq_refl eq_refl).
Defined.

(** A run that succeeds has loaded the three people. *)
Lemma run_true_only_after_load_witness :
  exists df w1 t1 df' w2 t2 rep w3 t3 t4,
    extract (source_type (pipeline [] None)) (source_config (pipeline [] None)) start
    = (Ret df, w1, t1)
    /\ transform df (mkTransformationConfig (Some [])) w1 = (Ret df', w2, t2)
    /\ validate df' (mkValidationConfig (Some [])) w2 = (Ret rep, w3, t3)
    /\ load df' "csv" csv_destination w3
       = (Ret true, mkWorld people [] [people], t4).
Proof.
  destruct (@run_true_only_after_load World pandas io (pipeline [] None) start
              (mkWorld people [] [people])
              [Log INFO "Starting ETL pipeline";
               Log INFO "Step 1: Data Extraction";
               Log INFO "Step 2: Data Transformation";
               Log INFO "Starting data transformation";
               Log INFO "Transformation completed: 3 rows";
               Log INFO "Step 3: Data Validation";
               Log INFO "Data validation completed: 0 checks";
               Log INFO "Step 4: Data Loading";
               Log INFO "Loading 3 rows to CSV: out/people.csv";
               Log INFO "CSV loading completed";
               Log INFO "ETL pipeline completed successfully in 0.00 seconds";
               Log INFO "Processed 3 records"] eq_refl)
    as (df & w1 & t1 & df' & w2 & t2 & rep & w3 & t3 & t4
        & Hex & _ & Htr & Hval & _ & Hload & _).
  exists df, w1, t1, df', w2, t2, rep, w3, t3, t4.
  split; [exact Hex|]. split; [exact Htr|]. split; [exact Hval|exact Hload].
Defined.

(** A configuration file that is not there: status 1.  The sample file,
    run as it is: status 0. *)
Lemma main_exit_status_witness :
  main missing_config_args start
  = (Ret 1%Z, start,
     [] ++ [Log ERROR ("Pipeline execution failed: "
                       +++ "[Errno 2] No such file or directory: 'missing.yaml'")])
  /\ main plain_args start
     = (Ret 0%Z, mkWorld people [] [people],
        [] ++ [Log INFO "Starting ETL pipeline";
               Log INFO "Step 1: Data Extraction";
               Log INFO "Step 2: Data Transformation";
               Log INFO "Starting data transformation";
               Log INFO "Transformation completed: 3 rows";
               Log INFO "Step 3: Data Validation";
               Log INFO "Data validation completed: 0 checks";
               Log INFO "Step 4: Data Loading";
               Log INFO "Loading 3 rows to CSV: out/people.csv";
               Log INFO "CSV loading completed";
               Log INFO "ETL pipeline completed successfully in 0.00 seconds";
               Log INFO "Processed 3 records"]).
Proof.
  split.
  - apply (proj1 (@main_exit_status World pandas io files missing_config_args start)
             (Exception "[Errno 2] No such file or directory: 'missing.yaml'")
             start []).
    reflexivity.
  - apply (proj1 (proj2 (@main_exit_status World pandas io files plain_args start))
             (mkETLConfig "csv" [] "csv" csv_destination
                          (mkTransformationConfig None) (mkPipelineConfig None)
                          (mkValidationConfig None))
             start [] true (mkWorld people [] [people]));
      reflexivity.
Defined.

(** A dry run with the source overridden to [kafka]: status 0. *)
Lemma main_dry_run_runs_nothing_witness :
  main dry_run_args start
  = (Ret 0%Z, start, [] ++ [Log INFO "Configuration validation successful"]).
Proof.
  exact (@main_dry_run_runs_nothing World pandas io files dry_run_args
           (mkETLConfig "csv" [] "csv" csv_destination
              (mkTransformationConfig None) (mkPipelineConfig None)
              (mkValidationConfig None))
           start start [] eq_refl eq_refl).
Defined.

(** A rule on [salary] for a table that has no such column. *)
Lemma apply_transformations_identity_witness :
  _apply_transformations salary_rule_config "people" people = Ret people.
Proof.
  exact (@apply_transformations_identity pandas salary_rule_config "people" people
           eq_refl).
Defined.

(** An empty table, and five rows read with a batch size of 0. *)
Lemma migrate_table_nothing_to_copy_witness :
  _migrate_table copy_config 0 "people" (world_of nobody [])
  = (Ret (Some true), world_of nobody [],
     [Log INFO "Table people is empty, skipping"])
  /\ _migrate_table zero_batch_config 1 "people" (world_of five_rows [])
     = (Ret (Some true), world_of five_rows [],
        [ReadSql "people" 0 0;
         Log INFO "Completed migration of table people: 0 rows"]).
Proof.
  split.
  - exact (proj1 (@migrate_table_nothing_to_copy World pandas db copy_config "people"
                    0%Z (world_of nobody []) (world_of nobody []) eq_refl)
             eq_refl 0).
  - exact (proj2 (@migrate_table_nothing_to_copy World pandas db zero_batch_config
                    "people" 5%Z (world_of five_rows []) (world_of five_rows [])
                    eq_refl)
             ltac:(lia) (mkDF ["id"] []) (world_of five_rows []) eq_refl eq_refl 0).
Defined.

(** Five rows copied two at a time: the last line reports the five rows
    written. *)
Lemma migrate_table_reports_written_rows_witness :
  exists w' t t0,
    _migrate_table copy_config 3 "people" (world_of five_rows [])
    = (Ret (Some true), w', t)
    /\ written_rows t = 5%Z
    /\ t = t0 ++ [Log INFO ("Completed migration of table people: "
                           +++ str_Z (written_rows t) +++ " rows")].
Proof.
  destruct (_migrate_table copy_config 3 "people" (world_of five_rows []))
    as [[r w'] t] eqn:Hrun.
  assert (Hr : r = Ret (Some true)) by (vm_compute in Hrun; congruence).
  subst r.
  destruct (@migrate_table_reports_written_rows World pandas db copy_config "people"
              5%Z 3 (world_of five_rows []) (world_of five_rows []) w' t
              eq_refl ltac:(discriminate) Hrun) as [t0 Ht].
  exists w', t, t0. split; [reflexivity|]. split; [|exact Ht].
  vm_compute in Hrun. injection Hrun as _ <-. reflexivity.
Defined.

(** A rule without its [type] on a column the table has: the first page
    is read, the transformation raises, nothing is written, and the copy
    of the table fails. *)
Lemma migrate_table_failure_is_logged_witness :
  copy_loop untyped_rule_config 3 "people" 2 3 0 0 (world_of people [])
  = (Raise (KeyError "type"), world_of people [], [ReadSql "people" 2 0])
  /\ _migrate_table untyped_rule_config 3 "people" (world_of people [])
     = (Ret (Some false), world_of people [],
        [ReadSql "people" 2 0]
        ++ [Log ERROR ("Error migrating table people: " +++ str_exn (KeyError "type"))]).
Proof.
  split.
  - apply (proj1 (proj2 (proj1 (proj2 (proj2
             (@migrate_table_failure_is_logged World pandas db untyped_rule_config
                "people" 3 (world_of people []))))
             2%Z 3%Z 0%Z 0%Z 2 (world_of people []) eq_refl))
             (mkDF ["id"; "age"] [[VInt 1; VInt 15]; [VInt 2; VInt 18]])
             (world_of people []) (KeyError "type"));
      reflexivity.
  - apply (proj1 (proj2 (@migrate_table_failure_is_logged World pandas db
                           untyped_rule_config "people" 3 (world_of people [])))
             3%Z (world_of people []) (KeyError "type") (world_of people [])
             [ReadSql "people" 2 0]);
      [reflexivity|discriminate|reflexivity].
Defined.

(** A migration between two SQL databases whose thread pool raises, and
    one from MongoDB to MongoDB. *)
Lemma migrate_data_mongodb_to_mongodb_fails_witness :
  migrate_data copy_config (fun _ => raise (Exception "pool")) (fun _ => ret_M None)
    3 "mysql" "postgresql" None start
  = (Ret (Some false), start, [] ++ [Log ERROR "Data migration error: pool"])
  /\ migrate_data copy_config (fun _ => raise (Exception "pool")) (fun _ => ret_M None)
       3 "mongodb" "mongodb" None start
     = (Ret (Some false), start,
        [Log ERROR ("Data migration error: "
                    +++ str_exn (AttributeError "_migrate_mongodb_to_mongodb"))]).
Proof.
  destruct (@migrate_data_mongodb_to_mongodb_fails World pandas db engine copy_config
              (fun _ => raise (Exception "pool")) (fun _ => ret_M None)
              3 None start)
    as [Hboth Hpair].
  split; [|exact Hboth].
  apply (proj2 (Hpair "mysql" "postgresql" eq_refl) (Exception "pool") start []).
  reflexivity.
Defined.

(** A MySQL source: [INTEGER] becomes [String]. *)
Lemma convert_column_type_defaults_to_string_witness :
  _convert_column_type "INTEGER" "mysql" "sqlite" = sa_String
  /\ _convert_column_type "INTEGER" "postgresql" "sqlite" = sa_Integer.
Proof.
  split; [|reflexivity].
  apply (convert_column_type_defaults_to_string "INTEGER" "mysql" "sqlite").
  left. discriminate.
Defined.

(** The table [people] of a MySQL source, created in SQLite. *)
Lemma created_columns_are_strings_witness :
  schema_tables "mysql" "sqlite" people_schema
  = Ret [("people", [("id", sa_String); ("joined", sa_String)])]
  /\ forall name cols c ty,
       In (name, cols) [("people", [("id", sa_String); ("joined", sa_String)])] ->
       In (c, ty) cols -> ty = sa_String.
Proof.
  split; [reflexivity|].
  apply (created_columns_are_strings "mysql" "sqlite" people_schema
           [("people", [("id", sa_String); ("joined", sa_String)])]);
    [discriminate|reflexivity].
Defined.

(** The schema of the sample's MongoDB source, created in PostgreSQL. *)
Lemma mongodb_schema_cannot_be_created_witness :
  get_source_schema "mongodb" start
  = (Ret [("people",
           mkTableInfo None
                       (Some [("_id", "ObjectId"); ("name", "str"); ("age", "int");
                              ("email", "str")])
                       (Some 3%Z))], start, [])
  /\ create_target_schema "mongodb" "postgresql"
       [("people",
         mkTableInfo None
                     (Some [("_id", "ObjectId"); ("name", "str"); ("age", "int");
                            ("email", "str")])
                     (Some 3%Z))] start
     = (Ret false, start, [Log ERROR "Schema creation error: 'columns'"]).
Proof.
  split; [reflexivity|].
  apply (@mongodb_schema_cannot_be_created World engine "postgresql" _
           start start start [] eq_refl); discriminate.
Defined.

(** The database type [oracle]. *)
Lemma connect_rejects_unknown_type_witness :
  connect_source "oracle" start
  = (Ret false, start,
     [Log ERROR "Source connection error: Unsupported source database type: oracle"]).
Proof.
  exact (proj1 (@connect_rejects_unknown_type World engine "oracle" start eq_refl)).
Defined.

(** Validating a migration from MongoDB to PostgreSQL. *)
Lemma validate_migration_fails_with_mongodb_witness :
  exists name,
    validate_migration "mongodb" "postgresql" start
    = (Ret false, start,
       [Log INFO "Starting migration validation...";
        Log ERROR ("Validation error: " +++ str_exn (AttributeError name))]).
Proof.
  exact (@validate_migration_fails_with_mongodb World db engine "mongodb" "postgresql"
           start eq_refl).
Defined.

(** Before anything is stored the target lacks [people]: validation
    fails with one line, and counts nothing. *)
Lemma validate_sql_to_sql_verdict_witness :
  _validate_sql_to_sql start
  = (Ret false, start, [Log ERROR "Missing tables in target: {'people'}"])
  /\ _validate_sql_to_sql (mkWorld people [] [people])
     = (Ret true, mkWorld people [] [people],
        [Log INFO "SQL to SQL migration validation passed"]).
Proof.
  split.
  - exact (proj1 (proj1 (@validate_sql_to_sql_verdict World db engine
                           start start start start start ["people"] []
                           eq_refl eq_refl eq_refl eq_refl)
                    eq_refl)).
  - apply (proj2 (proj1 (proj2 (@validate_sql_to_sql_verdict World db engine
                                  (mkWorld people [] [people])
                                  (mkWorld people [] [people])
                                  (mkWorld people [] [people])
                                  (mkWorld people [] [people])
                                  (mkWorld people [] [people])
                                  ["people"] ["people"]
                                  eq_refl eq_refl eq_refl eq_refl))
                    eq_refl)).
    apply (@counted_cons World db engine "people" []
             (mkWorld people [] [people]) 3%Z
             (mkWorld people [] [people]) (mkWorld people [] [people])
             (mkWorld people [] [people]) eq_refl eq_refl).
    apply counted_nil.
Defined.

(** Three tables, the second with an empty name: the third is not
    touched.  (The progress of the first passes 100%: it counts offsets.) *)
Lemma sql_to_mongodb_stops_at_first_failure_witness :
  sql_to_mongodb_tables copy_config 3 (["people"] ++ "" :: ["orders"])
    (world_of five_rows [])
  = (Ret (Some false), world_of five_rows [],
     [ReadSql "people" 2 0; Log INFO "Table people: 2/5 rows (40.0%)";
      ReadSql "people" 2 2; Log INFO "Table people: 4/5 rows (80.0%)";
      ReadSql "people" 2 4; Log INFO "Table people: 6/5 rows (120.0%)";
      Log INFO "Completed migration of table people"]
     ++ [Log ERROR "Error migrating table : collection names cannot be empty"]).
Proof.
  exact (@sql_to_mongodb_stops_at_first_failure World pandas db engine copy_config 3
           ["people"] ["orders"] "" (world_of five_rows []) (world_of five_rows [])
           (world_of five_rows [])
           [ReadSql "people" 2 0; Log INFO "Table people: 2/5 rows (40.0%)";
            ReadSql "people" 2 2; Log INFO "Table people: 4/5 rows (80.0%)";
            ReadSql "people" 2 4; Log INFO "Table people: 6/5 rows (120.0%)";
            Log INFO "Completed migration of table people"]
           [Log ERROR "Error migrating table : collection names cannot be empty"]
           eq_refl eq_refl).
Defined.

(** Five rows inserted two at a time: three reads. *)
Lemma sql_to_mongodb_table_terminates_witness :
  exists b w' t k,
    k <= 3
    /\ reads t = map (fun i => (2, Z.of_nat i * 2))%Z (seq 0 k)
    /\ sql_to_mongodb_table copy_config 3 "people" (world_of five_rows [])
       = (Ret (Some b), w', t).
Proof.
  destruct (@sql_to_mongodb_table_terminates World pandas db engine copy_config
              "people" 5 (world_of five_rows []) (world_of five_rows [])
              eq_refl eq_refl)
    as (b & w' & t & k & Hk & Hreads & Hrun).
  exists b, w', t, k. split; [exact Hk|]. split; [exact Hreads|].
  apply Hrun. apply Nat.le_refl.
Defined.
